(** * Staleness detection of [memory.py]

    A shallow embedding of the staleness core of
    [.agent/skills/memory/scripts/memory.py]: the git timestamp provider
    ([run_git], [get_last_commit_time]), the two dependency extractors, the
    path resolver ([resolve_path]), the directory fallback
    ([get_code_files_in_dir]) and the evaluator ([check_staleness]).

    The program talks to the outside world (a [git] subprocess, file reads,
    path resolution, directory listings).  Each of these calls is a field of
    a [World]; an embedded function runs in the writer monad [Eff], which
    returns the Python value together with the list of external calls made,
    in order.  A world answers the same question the same way throughout one
    evaluation (the queries are reads).

    Python [int] is [Z]; [Optional[T]] is [option T]; a tuple is a pair; an
    exception a function catches is a constructor of the outcome type of
    the call that raises it.

    A [str] is a [string] that holds the text as UTF-8.  [len] counts the
    characters, not the bytes; [startswith], [endswith], [in], [split] and
    the slice [[2:]] after a [./] are those of the text, because a byte of
    an ASCII character is never part of another character; [strip] removes
    the white space of Unicode.  [isdigit] and [int] are those of Python on
    ASCII text; what the digits beyond ASCII are depends on the Unicode
    tables of the interpreter.

    [int(output)] in [get_last_commit_time] is not inside a [try]: the
    [ValueError] it raises for a digit that is not decimal, or for a numeral
    of more than 4300 digits, ends the program.  The functions embedded
    here return a value, so they follow the code for the output git has
    when [plain_output] holds; the theorems on what a query or a command
    gives carry it as a hypothesis. *)

From Stdlib Require Import ZArith List String Ascii Bool Lia.
Import ListNotations.

Local Open Scope string_scope.
Local Open Scope Z_scope.

(** ** Python string operations *)

Module PyStr.

Definition nl : string := String (ascii_of_nat 10) EmptyString.

(** A byte that continues a character of UTF-8 text. *)
Definition is_continuation (c : ascii) : bool :=
  let n := nat_of_ascii c in ((128 <=? n)%nat && (n <? 192)%nat).

(** The number of characters of a text: of the bytes that begin one. *)
Fixpoint code_points (s : string) : nat :=
  match s with
  | EmptyString => O
  | String c s' =>
      if is_continuation c then code_points s' else S (code_points s')
  end.

(** [len(s)] *)
Definition len (s : string) : Z := Z.of_nat (code_points s).

(** [s.startswith(p)] *)
Definition startswith (p s : string) : bool := String.prefix p s.

(** [sub in s] *)
Fixpoint contains (sub s : string) : bool :=
  String.prefix sub s ||
  match s with
  | EmptyString => false
  | String _ s' => contains sub s'
  end.

(** [s[n:]] *)
Fixpoint slice_from (n : nat) (s : string) : string :=
  match n, s with
  | O, _ => s
  | S _, EmptyString => EmptyString
  | S n', String _ s' => slice_from n' s'
  end.

Fixpoint rev_onto (s acc : string) : string :=
  match s with
  | EmptyString => acc
  | String c s' => rev_onto s' (String c acc)
  end.

Definition rev (s : string) : string := rev_onto s EmptyString.

(** [s.endswith(suf)] *)
Definition endswith (suf s : string) : bool :=
  String.prefix (rev suf) (rev s).

(** The text with the bytes [l]. *)
Definition of_bytes (l : list nat) : string :=
  string_of_list_ascii (map ascii_of_nat l).

(** The characters [str.strip()] removes, those [str.isspace()] holds of,
    as UTF-8: U+0009 to U+000D, U+001C to U+0020, U+0085, U+00A0, U+1680,
    U+2000 to U+200A, U+2028, U+2029, U+202F, U+205F and U+3000. *)
Definition WHITESPACE : list string :=
  map of_bytes
    ([[9]; [10]; [11]; [12]; [13]; [28]; [29]; [30]; [31]; [32];
     [194; 133]; [194; 160]; [225; 154; 128];
     [226; 128; 128]; [226; 128; 129]; [226; 128; 130]; [226; 128; 131];
     [226; 128; 132]; [226; 128; 133]; [226; 128; 134]; [226; 128; 135];
     [226; 128; 136]; [226; 128; 137]; [226; 128; 138];
     [226; 128; 168]; [226; 128; 169]; [226; 128; 175];
     [226; 129; 159]; [227; 128; 128]])%nat.

(** [s] without [p] at its head, when it begins with [p]. *)
Fixpoint after (p s : string) : option string :=
  match p with
  | EmptyString => Some s
  | String a p' =>
      match s with
      | EmptyString => None
      | String b s' => if Ascii.eqb a b then after p' s' else None
      end
  end.

(** [s] without its first character, when that is one of [chars]. *)
Fixpoint after_any (chars : list string) (s : string) : option string :=
  match chars with
  | [] => None
  | ch :: rest =>
      match after ch s with
      | Some t => Some t
      | None => after_any rest s
      end
  end.

(** [s] without the characters of [chars] at its head.  A turn removes one
    character; [fuel] bounds the turns. *)
Fixpoint drop_leading (fuel : nat) (chars : list string) (s : string)
  : string :=
  match fuel with
  | O => s
  | S fuel' =>
      match after_any chars s with
      | Some t => drop_leading fuel' chars t
      | None => s
      end
  end.

(** [s.lstrip(chars)], for characters as UTF-8; the length of [s] is fuel
    enough. *)
Definition lstrip_of (chars : list string) (s : string) : string :=
  drop_leading (String.length s) chars s.

(** [s.lstrip()] *)
Definition lstrip (s : string) : string := lstrip_of WHITESPACE s.

(** [s.rstrip()]: the same from the other end. *)
Definition rstrip (s : string) : string :=
  rev (lstrip_of (map rev WHITESPACE) (rev s)).

(** [s.strip()] *)
Definition strip (s : string) : string := rstrip (lstrip s).

(** [s.isascii()] *)
Fixpoint is_ascii (s : string) : bool :=
  match s with
  | EmptyString => true
  | String c s' => (nat_of_ascii c <? 128)%nat && is_ascii s'
  end.

Definition lower_char (c : ascii) : ascii :=
  let n := nat_of_ascii c in
  if ((65 <=? n)%nat && (n <=? 90)%nat) then ascii_of_nat (n + 32) else c.

(** [s.lower()], for the letters of ASCII.  It serves one test, whether
    a text contains [not a git repository]; no character beyond ASCII
    turns into letters that make the phrase. *)
Fixpoint lower (s : string) : string :=
  match s with
  | EmptyString => EmptyString
  | String c s' => String (lower_char c) (lower s')
  end.

Definition is_digit (c : ascii) : bool :=
  let n := nat_of_ascii c in ((48 <=? n)%nat && (n <=? 57)%nat).

Fixpoint all_digits (s : string) : bool :=
  match s with
  | EmptyString => true
  | String c s' => is_digit c && all_digits s'
  end.

(** [s.isdigit()] for ASCII text: at least one character, all of them
    digits. *)
Definition isdigit (s : string) : bool :=
  match s with
  | EmptyString => false
  | _ => all_digits s
  end.

Fixpoint int_from (acc : Z) (s : string) : Z :=
  match s with
  | EmptyString => acc
  | String c s' => int_from (10 * acc + (Z.of_nat (nat_of_ascii c) - 48)) s'
  end.

(** [sys.get_int_max_str_digits()]: [int(s)] raises [ValueError] for a
    numeral of more digits. *)
Definition MAX_STR_DIGITS : Z := 4300.

(** [int(s)] on a string of ASCII digits, no more of them than
    [MAX_STR_DIGITS]. *)
Definition int (s : string) : Z := int_from 0 s.

(** [s.split(sep)] for a one-character separator. *)
Fixpoint split (sep : ascii) (s : string) : list string :=
  match s with
  | EmptyString => [EmptyString]
  | String c s' =>
      if Ascii.eqb c sep then EmptyString :: split sep s'
      else match split sep s' with
           | [] => [String c EmptyString]
           | h :: t => String c h :: t
           end
  end.

(** Truth value of a [str]: the empty string is false. *)
Definition truthy (s : string) : bool :=
  match s with
  | EmptyString => false
  | _ => true
  end.

(** Truth value of an [Optional[str]]: [None] and [''] are false. *)
Definition truthy_opt (o : option string) : bool :=
  match o with
  | None => false
  | Some s => truthy s
  end.

(** [x in xs] for a list of strings. *)
Definition mem (x : string) (xs : list string) : bool :=
  existsb (String.eqb x) xs.

(** [str(n)] for an [int]. *)
Definition digit_char (d : Z) : ascii := ascii_of_nat (48 + Z.to_nat d).

Fixpoint str_pos (fuel : nat) (n : Z) (acc : string) : string :=
  match fuel with
  | O => acc
  | S fuel' =>
      let acc' := String (digit_char (n mod 10)) acc in
      if n / 10 =? 0 then acc' else str_pos fuel' (n / 10) acc'
  end.

Definition str_of_int (n : Z) : string :=
  if n <? 0 then "-" ++ str_pos (Z.to_nat (- n)) (- n) EmptyString
  else str_pos (S (Z.to_nat n)) n EmptyString.

End PyStr.

(** ** The outside world *)

(** What [subprocess.run(['git'] + args, capture_output=True, text=True)]
    does: it completes, or raises one of the exceptions [run_git] catches. *)
Inductive ProcOutcome : Type :=
| Completed (returncode : Z) (stdout stderr : string)
| RaisedFileNotFound
| RaisedPermission (e : string)
| RaisedOSError (e : string).

(** What [Path(file_path).read_text(encoding='utf-8')] does. *)
Inductive ReadOutcome : Type :=
| ReadOk (content : string)
| ReadFileNotFound
| ReadPermission
| ReadUnicodeDecode
| ReadOSError (e : string).

(** A call inside [try: ... except (OSError, ValueError) as e]: a value, or
    an exception of one of the two kinds, with [str(e)]. *)
Inductive Caught (A : Type) : Type :=
| Returned (a : A)
| Raised (e : string).
Arguments Returned {A} a.
Arguments Raised {A} e.

(** A call inside [try: ... except PermissionError: ... except OSError as e]. *)
Inductive OsResult (A : Type) : Type :=
| OsOk (a : A)
| OsPermission
| OsError (e : string).
Arguments OsOk {A} a.
Arguments OsPermission {A}.
Arguments OsError {A} e.

(** A resolved [Path] is absolute: the list of its components below [/]. *)
Definition Path : Type := list string.

(** [str(p)] *)
Definition str_of_path (p : Path) : string := "/" ++ String.concat "/" p.

(** One entry of [path.iterdir()]: [str(f)], [f.is_file()], [f.suffix]. *)
Record DirEntry : Type := mkDirEntry {
  entry_str : string;
  entry_is_file : OsResult bool;
  entry_suffix : string
}.

Record World : Type := mkWorld {
  (** [subprocess.run(['git'] + args, ..., cwd='.')] *)
  subprocess_git : list string -> ProcOutcome;
  (** [Path(file_path).read_text(encoding='utf-8')] *)
  read_text : string -> ReadOutcome;
  (** the paths captured by the bullet pattern inside the first
      [## Depends] section of a text, in order; none without a section *)
  re_depends_section : string -> list string;
  (** the paths captured by the inline pattern over a whole text, in order *)
  re_inline_refs : string -> list string;
  (** group 1 of the first match of the [@depends] pattern, if any *)
  re_depends_tag : string -> option string;
  (** [str(Path(p).parent)] *)
  path_parent : string -> string;
  (** [(Path(base_dir) / rel).resolve()] *)
  fs_resolve : string -> string -> Caught Path;
  (** [p.exists()] *)
  fs_exists : Path -> Caught bool;
  (** [Path(dir_path).is_dir()] *)
  fs_is_dir : string -> OsResult bool;
  (** [list(Path(dir_path).iterdir())] *)
  fs_iterdir : string -> OsResult (list DirEntry)
}.

(** ** External calls and the monad that records them *)

Inductive Event : Type :=
| EvGit (args : list string)
| EvReadText (file_path : string)
| EvResolve (base_dir rel : string)
| EvExists (p : Path)
| EvIsDir (dir_path : string)
| EvIterDir (dir_path : string)
| EvIsFile (entry : string).

Definition Eff (A : Type) : Type := (A * list Event)%type.

Definition ret {A : Type} (a : A) : Eff A := (a, []).

Definition bind {A B : Type} (m : Eff A) (k : A -> Eff B) : Eff B :=
  let (b, l2) := k (fst m) in (b, (snd m ++ l2)%list).

Definition call {A : Type} (e : Event) (a : A) : Eff A := (a, [e]).

Notation "x <- m ;; k" := (bind m (fun x => k))
  (at level 61, m at next level, right associativity).
Notation "' pat <- m ;; k" := (bind m (fun x => match x with pat => k end))
  (at level 61, pat pattern, m at next level, right associativity).

(** The value and the trace of a computation. *)
Definition value {A : Type} (m : Eff A) : A := fst m.
Definition trace {A : Type} (m : Eff A) : list Event := snd m.

(** ** Version-control timestamp provider *)

(** [run_git(args)] *)
Definition run_git (w : World) (args : list string)
  : Eff (string * option string) :=
  result <- call (EvGit args) (subprocess_git w args) ;;
  match result with
  | Completed returncode stdout stderr =>
      if negb (returncode =? 0) then
        let stderr := PyStr.strip stderr in
        if PyStr.contains "not a git repository" (PyStr.lower stderr) then
          ret ("", Some "Not a git repository")
        else if PyStr.truthy stderr then
          ret ("", Some ("Git error: " ++ stderr))
        else
          ret ("", Some ("Git command failed with code "
                           ++ PyStr.str_of_int returncode))
      else ret (PyStr.strip stdout, None)
  | RaisedFileNotFound => ret ("", Some "Git is not installed or not in PATH")
  | RaisedPermission e => ret ("", Some ("Permission denied running git: " ++ e))
  | RaisedOSError e => ret ("", Some ("OS error running git: " ++ e))
  end.

(** [get_last_commit_time(file_path)].  [int(output)] is not inside a
    [try]: it returns for ASCII digits no more than [PyStr.MAX_STR_DIGITS],
    and the result is then the one given here. *)
Definition get_last_commit_time (w : World) (file_path : string)
  : Eff (option Z * option string) :=
  '(output, error) <- run_git w ["log"; "-1"; "--format=%ct"; "--"; file_path] ;;
  if PyStr.truthy_opt error then ret (None, error)
  else if negb (PyStr.truthy output) then ret (None, None)
  else if PyStr.isdigit output then ret (Some (PyStr.int output), None)
  else ret (None, Some ("Invalid git timestamp: " ++ output)).

(** ** Dependency extractors *)

(** What both extractors do when the read raises; [None] when it returns. *)
Definition read_error (file_path : string) (r : ReadOutcome) : option string :=
  match r with
  | ReadOk _ => None
  | ReadFileNotFound => Some ("File not found: " ++ file_path)
  | ReadPermission => Some ("Permission denied reading: " ++ file_path)
  | ReadUnicodeDecode => Some ("File is not valid UTF-8: " ++ file_path)
  | ReadOSError e => Some ("Error reading file: " ++ e)
  end.

(** The second loop of [parse_depends_from_md]: an inline reference is
    appended unless it is already in [deps]. *)
Fixpoint add_inline_refs (deps refs : list string) : list string :=
  match refs with
  | [] => deps
  | file_ref :: rest =>
      if negb (PyStr.mem file_ref deps)
      then add_inline_refs (deps ++ [file_ref])%list rest
      else add_inline_refs deps rest
  end.

(** [parse_depends_from_md(file_path)] *)
Definition parse_depends_from_md (w : World) (file_path : string)
  : Eff (list string * option string) :=
  r <- call (EvReadText file_path) (read_text w file_path) ;;
  match r with
  | ReadOk content =>
      let deps := re_depends_section w content in
      let deps := add_inline_refs deps (re_inline_refs w content) in
      ret (deps, None)
  | _ => ret ([], read_error file_path r)
  end.

(** The loop of [parse_depends_from_code] over [deps_str.split(',')]. *)
Fixpoint strip_tokens (deps tokens : list string) : list string :=
  match tokens with
  | [] => deps
  | dep :: rest =>
      let dep := PyStr.strip dep in
      if PyStr.truthy dep then strip_tokens (deps ++ [dep])%list rest
      else strip_tokens deps rest
  end.

(** [parse_depends_from_code(file_path)] *)
Definition parse_depends_from_code (w : World) (file_path : string)
  : Eff (list string * option string) :=
  r <- call (EvReadText file_path) (read_text w file_path) ;;
  match r with
  | ReadOk content =>
      match re_depends_tag w content with
      | Some deps_str => ret (strip_tokens [] (PyStr.split "," deps_str), None)
      | None => ret ([], None)
      end
  | _ => ret ([], read_error file_path r)
  end.

(** ** Path resolver *)

(** [resolved.relative_to(project_root)] succeeds: the components of the
    root are a prefix of those of the path. *)
Fixpoint is_relative_to (p root : Path) : bool :=
  match root, p with
  | [], _ => true
  | _ :: _, [] => false
  | r :: root', c :: p' => String.eqb c r && is_relative_to p' root'
  end.

Definition escapes_msg (relative_path : string) : string :=
  "Path escapes project directory: " ++ relative_path.

(** The three checks [resolve_path] makes before it touches the file
    system; [None] when the reference passes them. *)
Definition early_reject (relative_path : string) : option string :=
  if 200 <? PyStr.len relative_path then Some "Path too long (>200 chars)"
  else if PyStr.contains PyStr.nl relative_path then Some "Path contains newline"
  else if negb (PyStr.startswith "./" relative_path)
          && negb (PyStr.startswith "../" relative_path)
          && PyStr.contains "/" relative_path
  then Some ("Use ./ prefix for paths with directories: " ++ relative_path)
  else None.

(** [resolve_path(base_path, relative_path, project_root)] *)
Definition resolve_path (w : World) (base_path relative_path : string)
    (project_root : Path) : Eff (option string * option string) :=
  match early_reject relative_path with
  | Some skip_reason => ret (None, Some skip_reason)
  | None =>
  let base_dir := path_parent w base_path in
  r <- call (EvResolve base_dir relative_path)
            (fs_resolve w base_dir relative_path) ;;
  match r with
  | Raised e => ret (None, Some ("Error resolving path: " ++ e))
  | Returned resolved =>
  if negb (is_relative_to resolved project_root)
  then ret (None, Some (escapes_msg relative_path))
  else
  x <- call (EvExists resolved) (fs_exists w resolved) ;;
  match x with
  | Raised e => ret (None, Some ("Error resolving path: " ++ e))
  | Returned true => ret (Some (str_of_path resolved), None)
  | Returned false =>
  if PyStr.startswith "./" relative_path then
    let stripped := PyStr.slice_from 2 relative_path in
    r <- call (EvResolve base_dir stripped) (fs_resolve w base_dir stripped) ;;
    match r with
    | Raised e => ret (None, Some ("Error resolving path: " ++ e))
    | Returned resolved =>
    if negb (is_relative_to resolved project_root)
    then ret (None, Some (escapes_msg relative_path))
    else
    x <- call (EvExists resolved) (fs_exists w resolved) ;;
    match x with
    | Raised e => ret (None, Some ("Error resolving path: " ++ e))
    | Returned true => ret (Some (str_of_path resolved), None)
    | Returned false => ret (None, None)
    end
    end
  else ret (None, None)
  end
  end
  end.

(** ** Directory fallback scanner *)

Definition CODE_EXTENSIONS : list string :=
  [".ts"; ".tsx"; ".js"; ".jsx"; ".py"; ".go"; ".rs"; ".java"].

Definition SECONDS_PER_DAY : Z := 86400.

(** The list comprehension of [get_code_files_in_dir]: [f.is_file()] is
    asked of every entry in turn and may raise. *)
Fixpoint code_files (entries : list DirEntry) (files : list string)
  : Eff (OsResult (list string)) :=
  match entries with
  | [] => ret (OsOk files)
  | f :: rest =>
      is_file <- call (EvIsFile (entry_str f)) (entry_is_file f) ;;
      match is_file with
      | OsOk b =>
          if b && PyStr.mem (entry_suffix f) CODE_EXTENSIONS
          then code_files rest (files ++ [entry_str f])%list
          else code_files rest files
      | OsPermission => ret OsPermission
      | OsError e => ret (OsError e)
      end
  end.

(** The two [except] clauses of [get_code_files_in_dir]. *)
Definition listing_error {A : Type} (dir_path : string) (r : OsResult A)
  : option string :=
  match r with
  | OsOk _ => None
  | OsPermission => Some ("Permission denied reading directory: " ++ dir_path)
  | OsError e => Some ("Error reading directory: " ++ e)
  end.

(** [get_code_files_in_dir(dir_path)] *)
Definition get_code_files_in_dir (w : World) (dir_path : string)
  : Eff (list string * option string) :=
  d <- call (EvIsDir dir_path) (fs_is_dir w dir_path) ;;
  match d with
  | OsOk false => ret ([], None)
  | OsOk true =>
      l <- call (EvIterDir dir_path) (fs_iterdir w dir_path) ;;
      match l with
      | OsOk entries =>
          r <- code_files entries [] ;;
          match r with
          | OsOk files => ret (files, None)
          | _ => ret ([], listing_error dir_path r)
          end
      | _ => ret ([], listing_error dir_path l)
      end
  | _ => ret ([], listing_error dir_path d)
  end.

(** ** Staleness evaluator *)

(** The dataclass [StalenessResult]. *)
Record StalenessResult : Type := mkStalenessResult {
  stale : bool;
  doc_time : option Z;
  newest_code_time : option Z;
  newest_code_file : option string;
  days_behind : Z;
  hours_behind : Z;
  deps_source : string;
  deps_count : Z;
  error : option string;
  reason : option string
}.

(** The loop over [deps] that fills [resolved_deps]: a reference is kept
    when [resolve_path] returns a path that is true (a non-empty string);
    the skip reason is dropped. *)
Fixpoint resolve_deps (w : World) (doc_path : string) (project_root : Path)
    (deps resolved_deps : list string) : Eff (list string) :=
  match deps with
  | [] => ret resolved_deps
  | dep :: rest =>
      '(resolved, _) <- resolve_path w doc_path dep project_root ;;
      match resolved with
      | Some p =>
          if PyStr.truthy p
          then resolve_deps w doc_path project_root rest (resolved_deps ++ [p])%list
          else resolve_deps w doc_path project_root rest resolved_deps
      | None => resolve_deps w doc_path project_root rest resolved_deps
      end
  end.

(** The variables the timestamp loop updates: [newest_time], [newest_file],
    [checked_deps] (a list of path and time). *)
Definition NewestState : Type := (Z * option string * list (string * Z))%type.

(** The loop over [resolved_deps]: the error of each query is bound to [_];
    a time counts when it is true, that is present and not [0]. *)
Fixpoint newest_dependency (w : World) (resolved_deps : list string)
    (st : NewestState) : Eff NewestState :=
  match resolved_deps with
  | [] => ret st
  | dep_path :: rest =>
      let '(newest_time, newest_file, checked_deps) := st in
      '(dep_time, _) <- get_last_commit_time w dep_path ;;
      match dep_time with
      | Some t =>
          if negb (t =? 0) then
            let checked_deps := (checked_deps ++ [(dep_path, t)])%list in
            if newest_time <? t
            then newest_dependency w rest (t, Some dep_path, checked_deps)
            else newest_dependency w rest (newest_time, newest_file, checked_deps)
          else newest_dependency w rest st
      | None => newest_dependency w rest st
      end
  end.

Definition len_list {A : Type} (l : list A) : Z := Z.of_nat (List.length l).

Definition is_empty {A : Type} (l : list A) : bool :=
  match l with
  | [] => true
  | _ => false
  end.

(** [check_staleness] from "Find newest dependency" to its last [return],
    for a list [resolved_deps] that is not empty. *)
Definition compare_times (w : World) (doc_time : Z) (deps_source : string)
    (resolved_deps : list string) : Eff StalenessResult :=
  '(newest_time, newest_file, checked_deps) <-
     newest_dependency w resolved_deps (0, None, []) ;;
  if newest_time =? 0 then
    ret {| stale := false; doc_time := Some doc_time;
           newest_code_time := None; newest_code_file := None;
           days_behind := 0; hours_behind := 0;
           deps_source := deps_source;
           deps_count := len_list resolved_deps;
           error := None;
           reason := Some "Dependencies not tracked by git" |}
  else
    let is_stale := doc_time <? newest_time in
    let time_diff := if is_stale then newest_time - doc_time else 0 in
    let days_behind := time_diff / SECONDS_PER_DAY in
    let hours_behind := (time_diff mod SECONDS_PER_DAY) / 3600 in
    ret {| stale := is_stale; doc_time := Some doc_time;
           newest_code_time := Some newest_time;
           newest_code_file := newest_file;
           days_behind := days_behind; hours_behind := hours_behind;
           deps_source := deps_source;
           deps_count := len_list checked_deps;
           error := None; reason := None |}.

(** The extractor [check_staleness] picks for a document. *)
Definition parse_depends (w : World) (doc_path : string)
  : Eff (list string * option string) :=
  if PyStr.endswith ".md" doc_path then parse_depends_from_md w doc_path
  else parse_depends_from_code w doc_path.

(** [check_staleness] from "Resolve relative paths to absolute" to the end
    of the fallback: the list the timestamps are taken of, the value of
    [deps_source], and the error of the directory listing. *)
Definition gather_deps (w : World) (doc_path : string) (project_root : Path)
    (deps : list string) : Eff (list string * string * option string) :=
  resolved_deps <- resolve_deps w doc_path project_root deps [] ;;
  let deps_source := if negb (is_empty resolved_deps)
                     then "explicit" else "directory" in
  if is_empty resolved_deps then
    let dir_path := path_parent w doc_path in
    '(resolved_deps, dir_error) <- get_code_files_in_dir w dir_path ;;
    ret (resolved_deps, deps_source, dir_error)
  else ret (resolved_deps, deps_source, None).

(** [check_staleness(doc_path, project_root)].  A field a [return] does not
    name has the default of the dataclass. *)
Definition check_staleness (w : World) (doc_path : string)
    (project_root : Path) : Eff StalenessResult :=
  '(doc_time, git_error) <- get_last_commit_time w doc_path ;;
  if PyStr.truthy_opt git_error then
    ret {| stale := false; doc_time := None;
           newest_code_time := None; newest_code_file := None;
           days_behind := 0; hours_behind := 0;
           deps_source := "none"; deps_count := 0;
           error := git_error; reason := None |}
  else
  match doc_time with
  | None =>
    ret {| stale := false; doc_time := None;
           newest_code_time := None; newest_code_file := None;
           days_behind := 0; hours_behind := 0;
           deps_source := "none"; deps_count := 0;
           error := Some "Doc not tracked by git"; reason := None |}
  | Some doc_time =>
  '(deps, parse_error) <- parse_depends w doc_path ;;
  if PyStr.truthy_opt parse_error then
    ret {| stale := false; doc_time := Some doc_time;
           newest_code_time := None; newest_code_file := None;
           days_behind := 0; hours_behind := 0;
           deps_source := "none"; deps_count := 0;
           error := parse_error; reason := None |}
  else
  '(resolved_deps, deps_source, dir_error) <-
     gather_deps w doc_path project_root deps ;;
  if PyStr.truthy_opt dir_error then
    ret {| stale := false; doc_time := Some doc_time;
           newest_code_time := None; newest_code_file := None;
           days_behind := 0; hours_behind := 0;
           deps_source := "directory"; deps_count := 0;
           error := dir_error; reason := None |}
  else if is_empty resolved_deps then
    ret {| stale := false; doc_time := Some doc_time;
           newest_code_time := None; newest_code_file := None;
           days_behind := 0; hours_behind := 0;
           deps_source := deps_source; deps_count := 0;
           error := None; reason := Some "No dependencies found" |}
  else compare_times w doc_time deps_source resolved_deps
  end.

(** ** Concrete worlds

    A project at [/proj], evaluated from there.  [git_of] and the other
    builders turn a table into the corresponding field of a [World]. *)

Module Scenario.

Definition root : Path := ["proj"].

(** A git that answers [git log -1 --format=%ct -- file_path] from a
    table, prints nothing for a file outside it (an untracked file), and
    rejects every other command line. *)
Fixpoint lookup {A : Type} (k : string) (table : list (string * A))
  : option A :=
  match table with
  | [] => None
  | (k', v) :: rest => if String.eqb k k' then Some v else lookup k rest
  end.

Definition git_of (table : list (string * ProcOutcome))
  : list string -> ProcOutcome :=
  fun args =>
    match args with
    | ["log"; "-1"; "--format=%ct"; "--"; file_path] =>
        match lookup file_path table with
        | Some r => r
        | None => Completed 0 "" ""
        end
    | _ => Completed 129 "" "usage: git"
    end.

(** A commit time as git prints it. *)
Definition printed (ct : string) : ProcOutcome :=
  Completed 0 (ct ++ PyStr.nl) "".

Definition parent_of (table : list (string * string)) : string -> string :=
  fun p => match lookup p table with Some d => d | None => "." end.

Definition resolve_of (table : list (string * string * Path))
  : string -> string -> Caught Path :=
  fun base_dir rel =>
    match lookup (base_dir ++ "|" ++ rel)
                 (map (fun '(b, r, p) => (b ++ "|" ++ r, p)) table) with
    | Some p => Returned p
    | None => Returned ("proj" :: "missing" :: rel :: nil)
    end.

Definition exists_of (present : list Path) : Path -> Caught bool :=
  fun p => Returned (existsb (fun q => String.eqb (str_of_path p) (str_of_path q))
                             present).

(** A world in which every document read has the same list of references
    in its Depends section, and no directory can be listed. *)
Definition world (git : list (string * ProcOutcome))
    (declared : list string) (resolve : list (string * string * Path))
    (present : list Path) (dirs : list (string * list DirEntry)) : World :=
  {| subprocess_git := git_of git;
     read_text := fun _ => ReadOk "## Depends";
     re_depends_section := fun _ => declared;
     re_inline_refs := fun _ => [];
     re_depends_tag := fun _ => None;
     path_parent := parent_of [("docs/guide.md", "docs")];
     fs_resolve := resolve_of resolve;
     fs_exists := exists_of present;
     fs_is_dir := fun d => OsOk (match lookup d dirs with
                                 | Some _ => true | None => false end);
     fs_iterdir := fun d => match lookup d dirs with
                            | Some l => OsOk l
                            | None => OsError "No such file or directory"
                            end |}.

Definition lib : Path := ["proj"; "docs"; "lib.ts"].

(** [docs/guide.md] declares [./lib.ts], which is [/proj/docs/lib.ts]. *)
Definition guide (git : list (string * ProcOutcome)) : World :=
  world git ["./lib.ts"] [("docs", "./lib.ts", lib)] [lib] [].

End Scenario.

(** ** What the claims speak of *)

(** The last-commit time of a file, as [get_last_commit_time] reports it. *)
Definition commit_time (w : World) (file_path : string) : option Z :=
  fst (value (get_last_commit_time w file_path)).

(** The error of the same query. *)
Definition commit_error (w : World) (file_path : string) : option string :=
  snd (value (get_last_commit_time w file_path)).

(** The dependencies of a list with a known last-commit time, and the
    times. *)
Definition known_times (w : World) (S : list string) : list Z :=
  flat_map (fun p => match commit_time w p with
                     | Some t => [t]
                     | None => []
                     end) S.

(** The maximum of a list of times; none for the empty list. *)
Definition max_time (ts : list Z) : option Z :=
  match ts with
  | [] => None
  | t :: rest => Some (fold_left Z.max rest t)
  end.

(** A dependency enters the comparison set: the evaluator's test
    [if dep_time:] passes. *)
Definition compared (w : World) (dep_path : string) : bool :=
  match commit_time w dep_path with
  | Some t => negb (t =? 0)
  | None => false
  end.

(** The number of dependencies of a list that enter the comparison set. *)
Definition compared_count (w : World) (S : list string) : Z :=
  len_list (filter (compared w) S).

(** The number of dependencies of a list whose query yielded a time. *)
Definition timestamp_count (w : World) (S : list string) : Z :=
  len_list (known_times w S).

(** The evaluation of a document reaches the timestamp pass: the document
    has a last-commit time [t], its dependencies are extracted without
    error, and the list [S] of resolved dependencies (declared, or else
    found by the directory fallback [src] names) is not empty. *)
Definition reaches_comparison (w : World) (doc_path : string)
    (project_root : Path) (t : Z) (src : string) (S : list string) : Prop :=
  value (get_last_commit_time w doc_path) = (Some t, None) /\
  exists deps,
    value (parse_depends w doc_path) = (deps, None) /\
    value (gather_deps w doc_path project_root deps) = (S, src, None) /\
    S <> [].

(** A declared reference resolves: [resolve_path] returns a path for it. *)
Definition resolves (w : World) (doc_path : string) (project_root : Path)
    (dep : string) : Prop :=
  exists p, fst (value (resolve_path w doc_path dep project_root)) = Some p.

(** The directory fallback is a call of [get_code_files_in_dir]; it shows
    in the trace as a query on a directory. *)
Definition is_scan (e : Event) : bool :=
  match e with
  | EvIsDir _ | EvIterDir _ | EvIsFile _ => true
  | _ => false
  end.

Definition scan_invoked (l : list Event) : bool := existsb is_scan l.

(** A resolution [resolve_path] can make for a reference: the first one,
    of the reference as written, or the retry with the leading [./]
    stripped. *)
Definition first_resolution (w : World) (base_path relative_path : string)
  : Caught Path :=
  fs_resolve w (path_parent w base_path) relative_path.

Definition retry_resolution (w : World) (base_path relative_path : string)
  : Caught Path :=
  fs_resolve w (path_parent w base_path) (PyStr.slice_from 2 relative_path).

(** A path lies outside the project root. *)
Definition outside (p root : Path) : Prop := is_relative_to p root = false.

(** One turn of the timestamp loop on the loop variables. *)
Definition newest_step (w : World) (st : NewestState) (dep_path : string)
  : NewestState :=
  let '(newest_time, newest_file, checked_deps) := st in
  match commit_time w dep_path with
  | Some t =>
      if compared w dep_path then
        (if newest_time <? t then t else newest_time,
         if newest_time <? t then Some dep_path else newest_file,
         (checked_deps ++ [(dep_path, t)])%list)
      else st
  | None => st
  end.

(** A result returned before the timestamp pass: not stale, nothing about
    a newest dependency, no count. *)
Definition early_result (doc_time : option Z) (src : string)
    (err why : option string) : StalenessResult :=
  {| stale := false; doc_time := doc_time;
     newest_code_time := None; newest_code_file := None;
     days_behind := 0; hours_behind := 0;
     deps_source := src; deps_count := 0;
     error := err; reason := why |}.

(** The six ways an evaluation ends, each with the answers of the world
    that lead to it. *)
Inductive exit_of (w : World) (doc_path : string) (project_root : Path)
  : StalenessResult -> Prop :=
| ExitGitError (e : string) :
    value (get_last_commit_time w doc_path) = (None, Some e) ->
    PyStr.truthy e = true ->
    exit_of w doc_path project_root (early_result None "none" (Some e) None)
| ExitUntracked :
    value (get_last_commit_time w doc_path) = (None, None) ->
    exit_of w doc_path project_root
      (early_result None "none" (Some "Doc not tracked by git") None)
| ExitParseError (t : Z) (e : string) :
    value (get_last_commit_time w doc_path) = (Some t, None) ->
    value (parse_depends w doc_path) = ([], Some e) ->
    PyStr.truthy e = true ->
    exit_of w doc_path project_root
      (early_result (Some t) "none" (Some e) None)
| ExitDirError (t : Z) (deps : list string) (e : string) :
    value (get_last_commit_time w doc_path) = (Some t, None) ->
    value (parse_depends w doc_path) = (deps, None) ->
    value (gather_deps w doc_path project_root deps)
      = ([], "directory", Some e) ->
    PyStr.truthy e = true ->
    exit_of w doc_path project_root
      (early_result (Some t) "directory" (Some e) None)
| ExitNoDeps (t : Z) (deps : list string) :
    value (get_last_commit_time w doc_path) = (Some t, None) ->
    value (parse_depends w doc_path) = (deps, None) ->
    value (gather_deps w doc_path project_root deps)
      = ([], "directory", None) ->
    exit_of w doc_path project_root
      (early_result (Some t) "directory" None (Some "No dependencies found"))
| ExitCompared (t : Z) (src : string) (S : list string) :
    reaches_comparison w doc_path project_root t src S ->
    exit_of w doc_path project_root (value (compare_times w t src S)).

(** The worlds of the examples. *)
Module Examples.
Import Scenario.

Definition doc : string := "docs/guide.md".
Definition lib_path : string := "/proj/docs/lib.ts".

(** The document changed at 1000, its dependency at 1000000. *)
Definition stale_world : World :=
  guide [(doc, printed "1000"); (lib_path, printed "1000000")].

(** The dependency changed 90000 seconds after the document. *)
Definition day_and_hour_world : World :=
  guide [(doc, printed "1000"); (lib_path, printed "91000")].

(** The document is on disk and declares [./lib.ts], but git has no
    commit of it. *)
Definition untracked_doc_world : World :=
  guide [(lib_path, printed "1000000")].

(** The dependency resolves, but git has no commit of it. *)
Definition untracked_dep_world : World :=
  guide [(doc, printed "1000")].

(** The query for the dependency fails: git exits with status 128. *)
Definition failing_dep_world : World :=
  guide [(doc, printed "1000");
         (lib_path, Completed 128 "" "fatal: bad object HEAD")].

(** The last commit of the dependency is at the epoch. *)
Definition epoch_dep_world : World :=
  guide [(doc, printed "1000"); (lib_path, printed "0")].

Definition passwd : Path := ["etc"; "passwd"].

(** [/etc/passwd] exists; from [/proj/docs] both [/etc/passwd] and
    [../../etc/passwd] name it, and [.//etc/passwd] names
    [/proj/docs/etc/passwd], which does not exist. *)
Definition escaping_world : World :=
  world [(doc, printed "1000")]
        ["/etc/passwd"; "../../etc/passwd"; ".//etc/passwd"]
        [("docs", "/etc/passwd", passwd);
         ("docs", "../../etc/passwd", passwd);
         ("docs", ".//etc/passwd", ["proj"; "docs"; "etc"; "passwd"])]
        [passwd] [].

(** Nothing is declared and the directory of the document is empty. *)
Definition empty_dir_world : World :=
  world [(doc, printed "1000")] [] [] [] [("docs", [])].

End Examples.


(** ** Further notions *)

(** An entry of a listing is kept by [get_code_files_in_dir]: it is a
    regular file and its suffix is one of [CODE_EXTENSIONS]. *)
Definition is_code_file (f : DirEntry) : bool :=
  match entry_is_file f with
  | OsOk b => b && PyStr.mem (entry_suffix f) CODE_EXTENSIONS
  | _ => false
  end.

(** [f.is_file()] returns for an entry. *)
Definition is_file_returns (f : DirEntry) : bool :=
  match entry_is_file f with
  | OsOk _ => true
  | _ => false
  end.

(** The command line [get_last_commit_time] runs for a file. *)
Definition git_log_args (file_path : string) : list string :=
  ["log"; "-1"; "--format=%ct"; "--"; file_path].

(** Git prints plain text: when it completes with status 0, its output,
    stripped, is ASCII and has at most [PyStr.MAX_STR_DIGITS] characters.
    On plain text [isdigit] and [int] are those of Python, and [int] does
    not raise. *)
Definition plain_text (output : string) : bool :=
  PyStr.is_ascii output && (PyStr.len output <=? PyStr.MAX_STR_DIGITS).

Definition plain_outcome (r : ProcOutcome) : bool :=
  match r with
  | Completed returncode stdout _ =>
      if returncode =? 0 then plain_text (PyStr.strip stdout) else true
  | _ => true
  end.

(** Git prints plain text for the last commit of a file, and for the
    last commit of every file. *)
Definition plain_output (w : World) (file_path : string) : Prop :=
  plain_outcome (subprocess_git w (git_log_args file_path)) = true.

Definition plain_git (w : World) : Prop :=
  forall file_path, plain_output w file_path.

(** The git commands among the external calls of a trace, in order. *)
Definition git_calls (l : list Event) : list (list string) :=
  flat_map (fun e => match e with
                     | EvGit args => [args]
                     | _ => []
                     end) l.

(** The path [resolve_path] returns for a declared reference, if any. *)
Definition resolved_path (w : World) (doc_path : string) (project_root : Path)
    (dep : string) : list string :=
  match fst (value (resolve_path w doc_path dep project_root)) with
  | Some p => [p]
  | None => []
  end.

(** ** The project root *)

(** [[cwd] + list(cwd.parents)]: the directory and the directories above
    it, nearest first; [ancestors_from n cwd] starts at the one of depth
    [n]. *)
Fixpoint ancestors_from (n : nat) (cwd : Path) : list Path :=
  firstn n cwd ::
  match n with
  | O => []
  | S n' => ancestors_from n' cwd
  end.

Definition ancestors (cwd : Path) : list Path :=
  ancestors_from (List.length cwd) cwd.

(** The loop of [get_project_root].  [(parent / '.git').exists()] is not
    inside a [try]: an exception it raises leaves the function, which is
    the result [Raised]. *)
Fixpoint find_git_root (w : World) (candidates : list Path) (cwd : Path)
  : Eff (Caught Path) :=
  match candidates with
  | [] => ret (Returned cwd)
  | parent :: rest =>
      let marker := (parent ++ [".git"])%list in
      x <- call (EvExists marker) (fs_exists w marker) ;;
      match x with
      | Returned true => ret (Returned parent)
      | Returned false => find_git_root w rest cwd
      | Raised e => ret (Raised e)
      end
  end.

(** [get_project_root()], where [Path.cwd()] returns [cwd]. *)
Definition get_project_root (w : World) (cwd : Path) : Eff (Caught Path) :=
  find_git_root w (ancestors cwd) cwd.

(** ** The report of [validate]

    [cmd_validate] prints and returns an exit code.  A computation of [Out]
    gives the lines printed, in order, and how it ended: with a value, or
    with an exception that nothing catches. *)

Inductive Run (A : Type) : Type :=
| Done (a : A)
| Uncaught (exn : string).
Arguments Done {A} a.
Arguments Uncaught {A} exn.

Definition Out (A : Type) : Type := (Run A * list string)%type.

Definition done {A : Type} (a : A) : Out A := (Done a, []).

Definition raise {A : Type} (exn : string) : Out A := (Uncaught exn, []).

(** [print(line)] *)
Definition print (line : string) : Out unit := (Done tt, [line]).

Definition then_ {A B : Type} (m : Out A) (k : A -> Out B) : Out B :=
  match fst m with
  | Done a => let (r, l) := k a in (r, (snd m ++ l)%list)
  | Uncaught exn => (Uncaught exn, snd m)
  end.

Notation "x <~ m ;; k" := (then_ m (fun x => k))
  (at level 61, m at next level, right associativity).
Notation "' pat <~ m ;; k" := (then_ m (fun x => match x with pat => k end))
  (at level 61, pat pattern, m at next level, right associativity).
Notation "m ;;; k" := (then_ m (fun _ => k))
  (at level 61, right associativity).

(** How a run ended and what it printed. *)
Definition ended {A : Type} (m : Out A) : Run A := fst m.
Definition printed_lines {A : Type} (m : Out A) : list string := snd m.

(** The status of the process when [main] ends: the argument of
    [sys.exit], or 1 when an exception that nothing catches ended it. *)
Definition exit_status (r : Run Z) : Z :=
  match r with
  | Done exit_code => exit_code
  | Uncaught _ => 1
  end.

(** What the command line needs besides the [World] of the core. *)
Record Shell : Type := mkShell {
  sh_world : World;
  (** [Path.cwd()] *)
  sh_cwd : Path;
  (** [Path(path).is_file()] *)
  sh_is_file : string -> OsResult bool;
  (** [[str(d) for d in Path(path).rglob('*.md')]] *)
  sh_rglob_md : string -> OsResult (list string);
  (** [datetime.fromtimestamp(timestamp).strftime('%Y-%m-%d')], or the
      [OSError], [OverflowError] or [ValueError] it raises *)
  sh_strftime : Z -> Caught string;
  (** [Path(p).name] *)
  sh_name : string -> string;
  (** [subprocess.run(['grep', '-ri', '--include=*.md', '-l', '-e', topic,
      '.'], capture_output=True, text=True)] *)
  sh_grep : string -> ProcOutcome
}.

(** [format_time(timestamp)] for an [int]. *)
Definition format_time (sh : Shell) (timestamp : Z) : string :=
  match sh_strftime sh timestamp with
  | Returned s => s
  | Raised _ => "Invalid(" ++ PyStr.str_of_int timestamp ++ ")"
  end.

(** [format_time(t)] where [t] is an [Optional[int]]: [None] is a
    [TypeError] in [datetime.fromtimestamp], which [format_time] does not
    catch. *)
Definition format_time_opt (sh : Shell) (t : option Z) : Out string :=
  match t with
  | Some timestamp => done (format_time sh timestamp)
  | None => raise "TypeError"
  end.

(** [Path(f).name] where [f] is an [Optional[str]]: [Path(None)] is a
    [TypeError]. *)
Definition name_opt (sh : Shell) (f : option string) : Out string :=
  match f with
  | Some p => done (sh_name sh p)
  | None => raise "TypeError"
  end.

(** [f'{f}'] where [f] is an [Optional[str]]. *)
Definition str_opt (f : option string) : string :=
  match f with
  | Some s => s
  | None => "None"
  end.

(** [format_time_behind(days, hours)] *)
Definition format_time_behind (days hours : Z) : string :=
  if 0 <? days then PyStr.str_of_int days ++ "d"
  else if 0 <? hours then PyStr.str_of_int hours ++ "h"
  else "<1h".

(** A call that is not inside a [try]: its exception is not caught. *)
Definition unguarded {A : Type} (r : OsResult A) : Out A :=
  match r with
  | OsOk a => done a
  | OsPermission => raise "PermissionError"
  | OsError _ => raise "OSError"
  end.

(** [project_root = get_project_root()] at the head of [cmd_validate]. *)
Definition project_root_of (sh : Shell) : Out Path :=
  match value (get_project_root (sh_world sh) (sh_cwd sh)) with
  | Returned root => done root
  | Raised _ => raise "OSError"
  end.

(** Truth value of an [Optional[int]]. *)
Definition truthy_time (t : option Z) : bool :=
  match t with
  | Some n => negb (n =? 0)
  | None => false
  end.

(** The loop of [cmd_validate] over the documents of a directory, on the
    counters [stale_count] and [error_count]. *)
Fixpoint validate_docs (sh : Shell) (project_root : Path)
    (docs : list string) (counts : Z * Z) : Out (Z * Z) :=
  match docs with
  | [] => done counts
  | doc :: rest =>
      let '(stale_count, error_count) := counts in
      let result := value (check_staleness (sh_world sh) doc project_root) in
      if PyStr.truthy_opt (error result) then
        print ("? ERROR: " ++ doc) ;;;
        print ("   " ++ str_opt (error result) ++ PyStr.nl) ;;;
        validate_docs sh project_root rest (stale_count, error_count + 1)
      else if stale result then
        let time_str :=
          format_time_behind (days_behind result) (hours_behind result) in
        print ("⚠ STALE: " ++ doc) ;;;
        doc_updated <~ format_time_opt sh (doc_time result) ;;
        print ("   Doc updated:  " ++ doc_updated) ;;;
        code_updated <~ format_time_opt sh (newest_code_time result) ;;
        name <~ name_opt sh (newest_code_file result) ;;
        print ("   Code updated: " ++ code_updated ++ " (" ++ name ++ ")") ;;;
        print ("   Detection:    " ++ deps_source result ++ " ("
               ++ PyStr.str_of_int (deps_count result) ++ " deps checked)") ;;;
        print ("   Time behind:  " ++ time_str ++ PyStr.nl) ;;;
        validate_docs sh project_root rest (stale_count + 1, error_count)
      else validate_docs sh project_root rest counts
  end.

(** The documents [cmd_validate] keeps of a recursive listing. *)
Definition without_node_modules (docs : list string) : list string :=
  filter (fun d => negb (PyStr.contains "node_modules" d)) docs.

(** [cmd_validate(path, is_dir=True)] *)
Definition cmd_validate_dir (sh : Shell) (path : string) : Out Z :=
  project_root <~ project_root_of sh ;;
  is_directory <~ unguarded (fs_is_dir (sh_world sh) path) ;;
  if negb is_directory then
    print ("Error: " ++ path ++ " is not a directory") ;;; done 2
  else
  match sh_rglob_md sh path with
  | OsPermission =>
      print ("Error: Permission denied accessing " ++ path) ;;; done 2
  | OsError e => print ("Error: " ++ e) ;;; done 2
  | OsOk listing =>
  let docs := without_node_modules listing in
  if is_empty docs then print "No markdown files found." ;;; done 0
  else
  print ("Checking " ++ PyStr.str_of_int (len_list docs) ++ " doc(s) in "
         ++ path ++ ":" ++ PyStr.nl) ;;;
  '(stale_count, error_count) <~ validate_docs sh project_root docs (0, 0) ;;
  (if 0 <? error_count
   then print ("Errors: " ++ PyStr.str_of_int error_count
               ++ " doc(s) could not be checked")
   else done tt) ;;;
  if (stale_count =? 0) && (error_count =? 0) then
    print "✓ All docs are fresh!" ;;; done 0
  else if 0 <? stale_count then
    print (PyStr.nl ++ "Summary: " ++ PyStr.str_of_int stale_count ++ "/"
           ++ PyStr.str_of_int (len_list docs)
           ++ " doc(s) potentially stale") ;;;
    done 1
  else done 2
  end.

(** [cmd_validate(path)], for one document. *)
Definition cmd_validate_file (sh : Shell) (path : string) : Out Z :=
  project_root <~ project_root_of sh ;;
  is_file <~ unguarded (sh_is_file sh path) ;;
  if negb is_file then
    print ("Error: " ++ path ++ " is not a file") ;;; done 2
  else
  let result := value (check_staleness (sh_world sh) path project_root) in
  if PyStr.truthy_opt (error result) then
    print ("Error: " ++ str_opt (error result)) ;;; done 2
  else if stale result then
    let time_str :=
      format_time_behind (days_behind result) (hours_behind result) in
    print ("⚠ STALE: " ++ path) ;;;
    doc_updated <~ format_time_opt sh (doc_time result) ;;
    print ("   Doc updated:  " ++ doc_updated) ;;;
    code_updated <~ format_time_opt sh (newest_code_time result) ;;
    print ("   Code updated: " ++ code_updated) ;;;
    print ("   Changed file: " ++ str_opt (newest_code_file result)) ;;;
    print ("   Detection:    " ++ deps_source result ++ " ("
           ++ PyStr.str_of_int (deps_count result) ++ " deps checked)") ;;;
    print ("   Time behind:  " ++ time_str) ;;;
    print (PyStr.nl
           ++ "→ Consider updating this doc to reflect recent code changes") ;;;
    done 1
  else
    print ("✓ Fresh: " ++ path) ;;;
    (if truthy_time (doc_time result) then
       last_updated <~ format_time_opt sh (doc_time result) ;;
       print ("   Last updated: " ++ last_updated)
     else done tt) ;;;
    print ("   Detection: " ++ deps_source result) ;;;
    (if PyStr.truthy_opt (reason result)
     then print ("   Note: " ++ str_opt (reason result))
     else done tt) ;;;
    done 0.

(** [cmd_validate(path, is_dir)] *)
Definition cmd_validate (sh : Shell) (path : string) (is_dir : bool) : Out Z :=
  if is_dir then cmd_validate_dir sh path else cmd_validate_file sh path.

(** Shells for the examples: the project of [Scenario], entered at
    [/proj], whose only [.git] is [/proj/.git]. *)
Module ShellExamples.

Definition with_git (w : World) : World :=
  {| subprocess_git := subprocess_git w;
     read_text := read_text w;
     re_depends_section := re_depends_section w;
     re_inline_refs := re_inline_refs w;
     re_depends_tag := re_depends_tag w;
     path_parent := path_parent w;
     fs_resolve := fs_resolve w;
     fs_exists := fun p =>
       if String.eqb (str_of_path p) "/proj/.git" then Returned true
       else fs_exists w p;
     fs_is_dir := fs_is_dir w;
     fs_iterdir := fs_iterdir w |}.

(** Every path named is a file; a recursive listing finds [listing]. *)
Definition shell (w : World) (cwd : Path) (listing : list string) : Shell :=
  {| sh_world := with_git w;
     sh_cwd := cwd;
     sh_is_file := fun _ => OsOk true;
     sh_rglob_md := fun _ => OsOk listing;
     sh_strftime := fun t =>
       if t =? 1000 then Returned "1970-01-01"
       else if t =? 1000000 then Returned "1970-01-12"
       else Raised "year out of range";
     sh_name := fun p => if String.eqb p "/proj/docs/lib.ts" then "lib.ts" else p;
     sh_grep := fun _ =>
       Completed 0 (String.concat PyStr.nl listing ++ PyStr.nl) "" |}.

End ShellExamples.

(** What the report of a directory counts: a document whose result
    carries an error, and one whose result is stale. *)
Definition doc_result (sh : Shell) (root : Path) (doc : string)
  : StalenessResult :=
  value (check_staleness (sh_world sh) doc root).

Definition doc_has_error (sh : Shell) (root : Path) (doc : string) : bool :=
  PyStr.truthy_opt (error (doc_result sh root doc)).

Definition doc_is_stale (sh : Shell) (root : Path) (doc : string) : bool :=
  negb (doc_has_error sh root doc) && stale (doc_result sh root doc).


(** ** The report of [retrieve] and the command line *)

(** [c * n] for a one-character string. *)
Fixpoint repeat_string (c : string) (n : nat) : string :=
  match n with
  | O => ""
  | S n' => c ++ repeat_string c n'
  end.

(** [f'{s:<width}'] *)
Definition ljust (width : nat) (s : string) : string :=
  s ++ repeat_string " " (width - PyStr.code_points s).

(** One row of the table of [cmd_retrieve]. *)
Definition retrieve_row (sh : Shell) (project_root : Path) (doc_path : string)
  : string :=
  let result := value (check_staleness (sh_world sh) doc_path project_root) in
  let date :=
    if truthy_time (doc_time result)
    then match doc_time result with
         | Some t => format_time sh t
         | None => "N/A"
         end
    else "N/A" in
  let '(status, source, date) :=
    if PyStr.truthy_opt (error result) then ("? Error", "-", "N/A")
    else if stale result then
      ("⚠ STALE("
         ++ format_time_behind (days_behind result) (hours_behind result)
         ++ ")",
       deps_source result, date)
    else ("✓ Fresh", deps_source result, date) in
  ljust 14 status ++ " " ++ ljust 10 source ++ " " ++ ljust 12 date ++ " "
    ++ doc_path.

(** The loop of [cmd_retrieve] over [doc_files[:20]]. *)
Fixpoint retrieve_rows (sh : Shell) (project_root : Path)
    (doc_files : list string) : Out unit :=
  match doc_files with
  | [] => done tt
  | doc_path :: rest =>
      print (retrieve_row sh project_root doc_path) ;;;
      retrieve_rows sh project_root rest
  end.

(** [cmd_retrieve(topic)] *)
Definition cmd_retrieve (sh : Shell) (topic : string) : Out Z :=
  print ("Searching docs for: " ++ topic ++ PyStr.nl) ;;;
  match sh_grep sh topic with
  | RaisedFileNotFound =>
      print "Error: 'grep' command not found. Please install grep." ;;; done 2
  | RaisedPermission _ =>
      print "Error: Permission denied executing grep." ;;; done 2
  | RaisedOSError e => print ("Error running grep: " ++ e) ;;; done 2
  | Completed returncode stdout stderr =>
  if returncode =? 2 then
    print ("Error: grep failed: " ++ PyStr.strip stderr) ;;; done 2
  else if negb (PyStr.truthy (PyStr.strip stdout)) then
    print "No docs found." ;;; done 0
  else
  let doc_files := PyStr.split (ascii_of_nat 10) (PyStr.strip stdout) in
  let doc_files := without_node_modules doc_files in
  if is_empty doc_files then
    print "No docs found (excluding node_modules)." ;;; done 0
  else
  project_root <~ project_root_of sh ;;
  print ("Found " ++ PyStr.str_of_int (len_list doc_files) ++ " doc(s):"
         ++ PyStr.nl) ;;;
  print (ljust 14 "Status" ++ " " ++ ljust 10 "Source" ++ " "
         ++ ljust 12 "Updated" ++ " " ++ "Path") ;;;
  print (repeat_string "-" 75) ;;;
  retrieve_rows sh project_root (firstn 20 doc_files) ;;;
  (if 20 <? len_list doc_files
   then print (PyStr.nl ++ "... and "
               ++ PyStr.str_of_int (len_list doc_files - 20) ++ " more docs")
   else done tt) ;;;
  print (PyStr.nl ++ "Source: 'explicit' = parsed from doc, "
         ++ "'directory' = checked same dir") ;;;
  print "⚠ STALE = dependencies changed after doc was updated" ;;;
  done 0
  end.

(** [main()], where [sys.argv] is [argv] and [__doc__] is [module_doc];
    the value is the argument of [sys.exit]. *)
Definition main (sh : Shell) (module_doc : string) (argv : list string)
  : Out Z :=
  match argv with
  | [] | [_] => print module_doc ;;; done 0
  | _ :: cmd :: args =>
      if String.eqb cmd "retrieve" then
        match args with
        | [] => print "Usage: memory.py retrieve <topic>" ;;; done 2
        | topic :: _ => cmd_retrieve sh topic
        end
      else if String.eqb cmd "validate" then
        match args with
        | [] =>
            print "Usage: memory.py validate <doc_path>" ;;;
            print "       memory.py validate --dir <dir_path>" ;;;
            done 2
        | first :: more =>
            if String.eqb first "--dir" then
              match more with
              | [] =>
                  print "Usage: memory.py validate --dir <dir_path>" ;;;
                  done 2
              | dir_path :: _ => cmd_validate sh dir_path true
              end
            else cmd_validate sh first false
        end
      else if PyStr.mem cmd ["-h"; "--help"; "help"] then
        print module_doc ;;; done 0
      else
        print ("Unknown command: " ++ cmd) ;;;
        print module_doc ;;;
        done 2
  end.
(** ** The monad *)

Section EffLaws.
Context {A B : Type}.

Lemma value_bind (m : Eff A) (k : A -> Eff B) :
  value (bind m k) = value (k (value m)).
Proof. unfold bind, value. destruct (k (fst m)); reflexivity. Qed.

Lemma trace_bind (m : Eff A) (k : A -> Eff B) :
  trace (bind m k) = (trace m ++ trace (k (value m)))%list.
Proof. unfold bind, value, trace. destruct (k (fst m)); reflexivity. Qed.

Lemma value_ret (a : A) : value (ret a) = a.
Proof. reflexivity. Qed.

Lemma trace_ret (a : A) : trace (ret a) = [].
Proof. reflexivity. Qed.

Lemma value_call (e : Event) (a : A) : value (call e a) = a.
Proof. reflexivity. Qed.

Lemma trace_call (e : Event) (a : A) : trace (call e a) = [e].
Proof. reflexivity. Qed.
End EffLaws.

Ltac eff :=
  repeat (rewrite ?value_bind, ?trace_bind, ?value_ret, ?trace_ret,
            ?value_call, ?trace_call in *).

(** Reduction of the monad and of projections only: the strings and the
    functions on them stay folded. *)
Ltac red_eff :=
  repeat (progress
            (eff; cbn [value trace ret call fst snd negb andb orb app existsb]
                    in *)).

(** ** The timestamp provider *)

Lemma all_digits_int_from (s : string) :
  forall acc, 0 <= acc -> PyStr.all_digits s = true -> 0 <= PyStr.int_from acc s.
Proof.
  induction s as [|c s IH]; intros acc Hacc Hd;
    cbn [PyStr.all_digits PyStr.int_from] in *.
  - exact Hacc.
  - apply andb_true_iff in Hd. destruct Hd as [Hc Hs].
    apply IH; [|exact Hs].
    unfold PyStr.is_digit in Hc. apply andb_true_iff in Hc.
    destruct Hc as [Hlo _]. apply Nat.leb_le in Hlo. lia.
Qed.

Lemma isdigit_int_nonneg (s : string) :
  PyStr.isdigit s = true -> 0 <= PyStr.int s.
Proof.
  intros H. apply all_digits_int_from; [lia|].
  destruct s; [discriminate | exact H].
Qed.

(** [run_git] never returns an error message that is the empty string. *)
Lemma run_git_error_truthy (w : World) (args : list string) :
  forall e, snd (value (run_git w args)) = Some e -> PyStr.truthy e = true.
Proof.
  intros e. unfold run_git. eff.
  destruct (subprocess_git w args) as [rc out err| |e'|e']; simpl.
  - destruct (rc =? 0); simpl.
    + discriminate.
    + destruct (PyStr.contains _ _); simpl.
      * intros H; inversion H; reflexivity.
      * destruct (PyStr.truthy (PyStr.strip err)); simpl;
          intros H; inversion H; reflexivity.
  - intros H; inversion H; reflexivity.
  - intros H; inversion H; reflexivity.
  - intros H; inversion H; reflexivity.
Qed.

(** The three results of [get_last_commit_time]: an error, nothing (the
    file is not tracked), or a time, which is not negative. *)
Lemma get_last_commit_time_cases (w : World) (file_path : string) :
  (exists e, value (get_last_commit_time w file_path) = (None, Some e)
             /\ PyStr.truthy e = true)
  \/ value (get_last_commit_time w file_path) = (None, None)
  \/ (exists t, value (get_last_commit_time w file_path) = (Some t, None)
                /\ 0 <= t).
Proof.
  unfold get_last_commit_time. eff.
  pose proof (run_git_error_truthy w
    ["log"; "-1"; "--format=%ct"; "--"; file_path]) as Hrun.
  destruct (value (run_git w _)) as [output err]. simpl in Hrun.
  destruct err as [e|]; simpl.
  - rewrite (Hrun e eq_refl). simpl. left. exists e. split; [reflexivity|].
    apply Hrun; reflexivity.
  - destruct (PyStr.truthy output) eqn:Ht; simpl.
    + destruct (PyStr.isdigit output) eqn:Hd; simpl.
      * right; right. exists (PyStr.int output). split; [reflexivity|].
        apply isdigit_int_nonneg; exact Hd.
      * left. eexists. split; reflexivity.
    + right; left; reflexivity.
Qed.

Lemma commit_time_nonneg (w : World) (p : string) (t : Z) :
  commit_time w p = Some t -> 0 <= t.
Proof.
  unfold commit_time.
  destruct (get_last_commit_time_cases w p) as [(e & H & _)|[H|(t' & H & Ht)]];
    rewrite H; simpl; intros E; inversion E; subst; exact Ht.
Qed.

(** ** The timestamp pass *)

Lemma newest_dependency_cons (w : World) (p : string) (rest : list string)
    (st : NewestState) :
  value (newest_dependency w (p :: rest) st)
  = value (newest_dependency w rest (newest_step w st p)).
Proof.
  destruct st as [[nt nf] cd].
  cbn [newest_dependency]. eff.
  unfold newest_step, compared, commit_time.
  destruct (value (get_last_commit_time w p)) as [[t|] e]; simpl.
  - destruct (t =? 0); simpl; [reflexivity|].
    destruct (nt <? t); reflexivity.
  - reflexivity.
Qed.

Lemma newest_dependency_fold (w : World) (S : list string) :
  forall st, value (newest_dependency w S st) = fold_left (newest_step w) S st.
Proof.
  induction S as [|p rest IH]; intros st.
  - reflexivity.
  - rewrite newest_dependency_cons, IH. reflexivity.
Qed.

(** A dependency that does not enter the comparison set leaves the loop
    variables as they are. *)
Lemma newest_step_skip (w : World) (st : NewestState) (p : string) :
  compared w p = false -> newest_step w st p = st.
Proof.
  intros H. destruct st as [[nt nf] cd]. unfold newest_step.
  destruct (commit_time w p); [rewrite H|]; reflexivity.
Qed.

Lemma newest_dependency_skip (w : World) (l1 l2 : list string) (p : string)
    (st : NewestState) :
  compared w p = false ->
  value (newest_dependency w (l1 ++ p :: l2) st)
  = value (newest_dependency w (l1 ++ l2) st).
Proof.
  intros H. rewrite !newest_dependency_fold, !fold_left_app. simpl.
  rewrite newest_step_skip by exact H. reflexivity.
Qed.

(** The loop keeps the maximum of the times seen so far. *)
Lemma newest_time_fold (w : World) (S : list string) :
  forall nt nf cd, 0 <= nt ->
    fst (fst (fold_left (newest_step w) S (nt, nf, cd)))
    = fold_left Z.max (known_times w S) nt.
Proof.
  induction S as [|p rest IH]; intros nt nf cd Hnt.
  - reflexivity.
  - cbn [fold_left known_times flat_map]. unfold newest_step at 2, compared.
    destruct (commit_time w p) as [t|] eqn:Et.
    + pose proof (commit_time_nonneg w p t Et) as Ht.
      rewrite fold_left_app. cbn [fold_left].
      destruct (t =? 0) eqn:E0; cbn [negb].
      * apply Z.eqb_eq in E0. subst t.
        rewrite IH by exact Hnt. f_equal. lia.
      * destruct (nt <? t) eqn:Elt.
        -- apply Z.ltb_lt in Elt. rewrite IH by lia. f_equal. lia.
        -- apply Z.ltb_ge in Elt. rewrite IH by lia. f_equal. lia.
    + cbn [app]. apply IH; exact Hnt.
Qed.

(** [checked_deps] grows by the dependencies that enter the comparison. *)
Lemma checked_deps_fold (w : World) (S : list string) :
  forall nt nf cd,
    len_list (snd (fold_left (newest_step w) S (nt, nf, cd)))
    = len_list cd + compared_count w S.
Proof.
  unfold compared_count, len_list.
  induction S as [|p rest IH]; intros nt nf cd.
  - simpl. lia.
  - cbn [fold_left filter]. unfold newest_step at 2.
    destruct (compared w p) eqn:Ec.
    + unfold compared in Ec. destruct (commit_time w p) as [t|]; [|discriminate].
      rewrite IH. rewrite length_app. simpl. lia.
    + destruct (commit_time w p); apply IH.
Qed.

(** The newest time stays [0] exactly when nothing enters the comparison. *)
Lemma newest_time_zero (w : World) (S : list string) :
  fold_left Z.max (known_times w S) 0 = 0 <-> compared_count w S = 0.
Proof.
  assert (Hge : forall l a, a <= fold_left Z.max l a).
  { induction l as [|x l IH]; intros a; simpl; [lia|].
    specialize (IH (Z.max a x)). lia. }
  unfold compared_count, len_list.
  induction S as [|p rest IH]; cbn [known_times flat_map filter].
  - simpl. tauto.
  - unfold compared at 1.
    destruct (commit_time w p) as [t|] eqn:Et; cbn [app].
    + pose proof (commit_time_nonneg w p t Et) as Ht.
      cbn [fold_left]. fold (known_times w rest).
      destruct (t =? 0) eqn:E0; cbn [negb].
      * apply Z.eqb_eq in E0. subst t. exact IH.
      * apply Z.eqb_neq in E0. cbn [List.length].
        pose proof (Hge (known_times w rest) (Z.max 0 t)). split; lia.
    + exact IH.
Qed.

(** The two results of the comparison: nothing entered it, or the newest
    time is set against the time of the document. *)
Lemma compare_times_value (w : World) (t : Z) (src : string) (S : list string) :
  let newest := fold_left Z.max (known_times w S) 0 in
  let st := fold_left (newest_step w) S (0, None, []) in
  value (compare_times w t src S) =
    if newest =? 0 then
      {| stale := false; doc_time := Some t;
         newest_code_time := None; newest_code_file := None;
         days_behind := 0; hours_behind := 0;
         deps_source := src; deps_count := len_list S;
         error := None; reason := Some "Dependencies not tracked by git" |}
    else
      {| stale := t <? newest; doc_time := Some t;
         newest_code_time := Some newest;
         newest_code_file := snd (fst st);
         days_behind := (if t <? newest then newest - t else 0) / 86400;
         hours_behind :=
           ((if t <? newest then newest - t else 0) mod 86400) / 3600;
         deps_source := src; deps_count := compared_count w S;
         error := None; reason := None |}.
Proof.
  intros newest st. unfold compare_times. eff.
  rewrite newest_dependency_fold. fold st.
  pose proof (newest_time_fold w S 0 None [] (Z.le_refl 0)) as Hn.
  pose proof (checked_deps_fold w S 0 None []) as Hc.
  fold st in Hn, Hc. fold newest in Hn.
  destruct st as [[nt nf] cd]. simpl in Hn, Hc. subst nt.
  destruct (newest =? 0); [reflexivity|].
  cbn [value ret fst snd]. rewrite Hc. reflexivity.
Qed.

(** ** Extraction and resolution *)

Lemma read_error_truthy (file_path : string) (r : ReadOutcome) (e : string) :
  read_error file_path r = Some e -> PyStr.truthy e = true.
Proof. destruct r; simpl; intros H; inversion H; reflexivity. Qed.

(** An extractor returns a list and no error, or an error that is true
    and the empty list. *)
Lemma parse_depends_cases (w : World) (doc_path : string) :
  (exists deps, value (parse_depends w doc_path) = (deps, None))
  \/ (exists e, value (parse_depends w doc_path) = ([], Some e)
                /\ PyStr.truthy e = true).
Proof.
  unfold parse_depends, parse_depends_from_md, parse_depends_from_code.
  destruct (PyStr.endswith ".md" doc_path); eff;
    destruct (read_text w doc_path) eqn:Er; simpl;
    try (right; eexists; split; reflexivity).
  - left; eexists; reflexivity.
  - destruct (re_depends_tag w content); left; eexists; reflexivity.
Qed.

(** A path [resolve_path] returns is the string of a resolved path, so it
    is true. *)
Lemma resolve_path_truthy (w : World) (base rel : string) (root : Path)
    (p : string) :
  fst (value (resolve_path w base rel root)) = Some p -> PyStr.truthy p = true.
Proof.
  assert (Hs : forall q, PyStr.truthy (str_of_path q) = true) by reflexivity.
  unfold resolve_path.
  repeat first
    [ progress red_eff
    | discriminate
    | match goal with
      | |- Some (str_of_path ?q) = Some _ -> _ =>
          intros H; inversion H; apply Hs
      | |- context [match ?x with _ => _ end] => destruct x
      end ].
Qed.

(** [resolved_deps] only grows, and it grows by every reference that
    resolves. *)
Lemma resolve_deps_acc (w : World) (doc : string) (root : Path)
    (deps : list string) :
  forall acc, exists more,
    value (resolve_deps w doc root deps acc) = (acc ++ more)%list
    /\ (more = [] <-> forall dep, In dep deps -> ~ resolves w doc root dep).
Proof.
  induction deps as [|dep rest IH]; intros acc.
  - exists []. rewrite app_nil_r. split; [reflexivity|].
    split; [intros _ dep []|reflexivity].
  - cbn [resolve_deps]. eff.
    destruct (value (resolve_path w doc dep root)) as [[p|] skip] eqn:Er.
    + assert (Ht : PyStr.truthy p = true)
        by (apply (resolve_path_truthy w doc dep root); rewrite Er; reflexivity).
      rewrite Ht. destruct (IH (acc ++ [p])%list) as (more & Hv & _).
      exists (p :: more). rewrite Hv, <- app_assoc. split; [reflexivity|].
      split; [discriminate|]. intros H. exfalso.
      apply (H dep (or_introl eq_refl)). exists p. rewrite Er. reflexivity.
    + destruct (IH acc) as (more & Hv & Hm). exists more.
      split; [exact Hv|]. rewrite Hm. split.
      * intros H d [<-|Hin]; [|apply H; exact Hin].
        intros [p Hp]. rewrite Er in Hp. discriminate.
      * intros H d Hin. apply H. right. exact Hin.
Qed.

Lemma resolve_deps_empty_iff (w : World) (doc : string) (root : Path)
    (deps : list string) :
  value (resolve_deps w doc root deps []) = []
  <-> forall dep, In dep deps -> ~ resolves w doc root dep.
Proof.
  destruct (resolve_deps_acc w doc root deps []) as (more & Hv & Hm).
  rewrite Hv. exact Hm.
Qed.

(** ** Traces: where the directory is looked at *)

Lemma scan_invoked_app (l1 l2 : list Event) :
  scan_invoked (l1 ++ l2) = scan_invoked l1 || scan_invoked l2.
Proof. apply existsb_app. Qed.

Lemma get_last_commit_time_no_scan (w : World) (p : string) :
  scan_invoked (trace (get_last_commit_time w p)) = false.
Proof.
  unfold get_last_commit_time, run_git. eff.
  rewrite !scan_invoked_app. cbn [scan_invoked existsb is_scan orb].
  destruct (subprocess_git w _) as [rc out err| | |]; simpl;
    repeat match goal with
           | |- context [if ?b then _ else _] => destruct b; simpl
           end; reflexivity.
Qed.

Lemma parse_depends_no_scan (w : World) (doc : string) :
  scan_invoked (trace (parse_depends w doc)) = false.
Proof.
  unfold parse_depends, parse_depends_from_md, parse_depends_from_code.
  destruct (PyStr.endswith ".md" doc); eff;
    destruct (read_text w doc); simpl; try reflexivity.
  destruct (re_depends_tag w content); reflexivity.
Qed.

Lemma resolve_path_no_scan (w : World) (base rel : string) (root : Path) :
  scan_invoked (trace (resolve_path w base rel root)) = false.
Proof.
  unfold resolve_path, scan_invoked.
  repeat first
    [ progress red_eff
    | reflexivity
    | match goal with
      | |- context [match ?x with _ => _ end] => destruct x
      end ].
Qed.

Lemma resolve_deps_no_scan (w : World) (doc : string) (root : Path)
    (deps : list string) :
  forall acc, scan_invoked (trace (resolve_deps w doc root deps acc)) = false.
Proof.
  induction deps as [|dep rest IH]; intros acc; [reflexivity|].
  cbn [resolve_deps]. eff. rewrite scan_invoked_app, resolve_path_no_scan.
  destruct (value (resolve_path w doc dep root)) as [[p|] skip]; simpl;
    [destruct (PyStr.truthy p)|]; apply IH.
Qed.

Lemma newest_dependency_no_scan (w : World) (S : list string) :
  forall st, scan_invoked (trace (newest_dependency w S st)) = false.
Proof.
  induction S as [|p rest IH]; intros [[nt nf] cd]; [reflexivity|].
  cbn [newest_dependency]. eff.
  rewrite scan_invoked_app, get_last_commit_time_no_scan.
  destruct (value (get_last_commit_time w p)) as [[t|] e]; simpl;
    [destruct (t =? 0); simpl; [|destruct (nt <? t)]|]; apply IH.
Qed.

Lemma compare_times_no_scan (w : World) (t : Z) (src : string) (S : list string) :
  scan_invoked (trace (compare_times w t src S)) = false.
Proof.
  unfold compare_times. eff.
  rewrite scan_invoked_app, newest_dependency_no_scan.
  destruct (value (newest_dependency w S _)) as [[nt nf] cd]. simpl.
  destruct (nt =? 0); reflexivity.
Qed.

(** The fallback begins by asking whether the directory is one. *)
Lemma get_code_files_in_dir_scans (w : World) (dir_path : string) :
  scan_invoked (trace (get_code_files_in_dir w dir_path)) = true.
Proof. unfold get_code_files_in_dir. eff. reflexivity. Qed.

(** ** The directory fallback *)

Lemma listing_error_truthy {A : Type} (dir_path : string) (r : OsResult A)
    (e : string) :
  listing_error dir_path r = Some e -> PyStr.truthy e = true.
Proof. destruct r; cbn; intros H; inversion H; reflexivity. Qed.

(** The listing returns files and no error, or an error that is true and
    no file. *)
Lemma get_code_files_in_dir_cases (w : World) (dir_path : string) :
  (exists files, value (get_code_files_in_dir w dir_path) = (files, None))
  \/ (exists e, value (get_code_files_in_dir w dir_path) = ([], Some e)
                /\ PyStr.truthy e = true).
Proof.
  unfold get_code_files_in_dir. red_eff.
  destruct (fs_is_dir w dir_path) as [[|]| |e]; red_eff;
    try (right; eexists; split; reflexivity);
    try (left; eexists; reflexivity).
  destruct (fs_iterdir w dir_path) as [entries| |e]; red_eff;
    try (right; eexists; split; reflexivity).
  destruct (value (code_files entries [])) as [files| |e]; red_eff;
    try (right; eexists; split; reflexivity).
  left; eexists; reflexivity.
Qed.

(** Declared dependencies that resolve are the list, the source is
    [explicit] and the directory is not looked at; when none resolves the
    list is the listing of the directory and the source is [directory]. *)
Lemma gather_deps_cases (w : World) (doc : string) (root : Path)
    (deps : list string) :
  let R := value (resolve_deps w doc root deps []) in
  let g := gather_deps w doc root deps in
  (R <> [] /\ value g = (R, "explicit", None) /\ scan_invoked (trace g) = false)
  \/ (R = []
      /\ value g = (fst (value (get_code_files_in_dir w (path_parent w doc))),
                    "directory",
                    snd (value (get_code_files_in_dir w (path_parent w doc))))
      /\ scan_invoked (trace g) = true).
Proof.
  intros R g. subst g. unfold gather_deps. eff. fold R.
  rewrite !scan_invoked_app, resolve_deps_no_scan.
  destruct R as [|p R'] eqn:ER; cbn [is_empty negb].
  - right. split; [reflexivity|]. eff.
    rewrite !scan_invoked_app, get_code_files_in_dir_scans.
    destruct (value (get_code_files_in_dir w (path_parent w doc))).
    split; reflexivity.
  - left. split; [discriminate|]. split; reflexivity.
Qed.

(** ** The evaluator, case by case *)

Theorem check_staleness_exit (w : World) (doc : string) (root : Path) :
  exit_of w doc root (value (check_staleness w doc root)).
Proof.
  unfold check_staleness. eff.
  destruct (get_last_commit_time_cases w doc)
    as [(e & Hg & He)|[Hg|(t & Hg & Ht)]]; rewrite Hg; cbn [PyStr.truthy_opt].
  - rewrite He. apply (ExitGitError w doc root e Hg He).
  - apply (ExitUntracked w doc root Hg).
  - eff.
    destruct (parse_depends_cases w doc) as [(deps & Hp)|(e & Hp & He)];
      rewrite Hp; cbn [PyStr.truthy_opt].
    + eff.
      destruct (gather_deps_cases w doc root deps)
        as [(HR & Hv & _)|(HR & Hv & _)].
      * rewrite Hv. cbn [PyStr.truthy_opt].
        destruct (value (resolve_deps w doc root deps [])) as [|p R] eqn:ER;
          [congruence|]. cbn [is_empty].
        apply ExitCompared. split; [exact Hg|].
        exists deps. repeat split; [exact Hp| |discriminate].
        rewrite Hv. reflexivity.
      * destruct (get_code_files_in_dir_cases w (path_parent w doc))
          as [(files & Hf)|(e & Hf & He)]; rewrite Hf in Hv; cbn [fst snd] in Hv;
          rewrite Hv; cbn [PyStr.truthy_opt].
        -- destruct files as [|f files]; cbn [is_empty].
           ++ apply (ExitNoDeps w doc root t deps Hg Hp Hv).
           ++ apply ExitCompared. split; [exact Hg|].
              exists deps. repeat split; [exact Hp|exact Hv|discriminate].
        -- rewrite He. apply (ExitDirError w doc root t deps e Hg Hp Hv He).
    + rewrite He. apply (ExitParseError w doc root t e Hg Hp He).
Qed.

(** When the evaluation reaches the timestamp pass, its result is that of
    the comparison. *)
Lemma check_staleness_compared (w : World) (doc : string) (root : Path)
    (t : Z) (src : string) (S : list string) :
  reaches_comparison w doc root t src S ->
  value (check_staleness w doc root) = value (compare_times w t src S).
Proof.
  intros (Hg & deps & Hp & Hv & HS).
  unfold check_staleness. eff. rewrite Hg. cbn [PyStr.truthy_opt]. eff.
  rewrite Hp. cbn [PyStr.truthy_opt]. eff. rewrite Hv. cbn [PyStr.truthy_opt].
  destruct S; [congruence|]. reflexivity.
Qed.

(** ** The verdict *)

Lemma known_times_nonneg (w : World) (S : list string) :
  Forall (fun t => 0 <= t) (known_times w S).
Proof.
  unfold known_times. induction S as [|p rest IH]; cbn [flat_map].
  - constructor.
  - destruct (commit_time w p) as [t|] eqn:Et; cbn [app]; [|exact IH].
    constructor; [exact (commit_time_nonneg w p t Et)|exact IH].
Qed.

(** The newest time the loop ends with is the maximum of the known times,
    as soon as there is one. *)
Lemma newest_is_max_time (w : World) (S : list string) (m : Z) :
  max_time (known_times w S) = Some m ->
  fold_left Z.max (known_times w S) 0 = m.
Proof.
  pose proof (known_times_nonneg w S) as Hpos.
  destruct (known_times w S) as [|t0 rest]; cbn [max_time fold_left];
    [discriminate|].
  intros H. inversion H. inversion Hpos; subst.
  f_equal. lia.
Qed.

Lemma reaches_doc_time_nonneg (w : World) (doc : string) (root : Path)
    (t : Z) (src : string) (S : list string) :
  reaches_comparison w doc root t src S -> 0 <= t.
Proof.
  intros (Hg & _). apply (commit_time_nonneg w doc).
  unfold commit_time. rewrite Hg. reflexivity.
Qed.

(** C1. When the evaluation of a document reaches the timestamp pass with
    the resolved dependencies [S] and at least one of them has a known
    last-commit time, the verdict is stale if and only if the maximum [m]
    of the known times is strictly greater than the time [t_d] of the
    document. *)
Theorem stale_iff_newest_exceeds (w : World) (doc : string) (root : Path)
    (t_d : Z) (src : string) (S : list string) (m : Z) :
  reaches_comparison w doc root t_d src S ->
  max_time (known_times w S) = Some m ->
  (stale (value (check_staleness w doc root)) = true <-> t_d < m).
Proof.
  intros Hr Hm.
  pose proof (reaches_doc_time_nonneg _ _ _ _ _ _ Hr) as Ht.
  rewrite (check_staleness_compared _ _ _ _ _ _ Hr), compare_times_value.
  rewrite (newest_is_max_time _ _ _ Hm).
  destruct (m =? 0) eqn:E0; cbn [stale].
  - apply Z.eqb_eq in E0. split; [discriminate|lia].
  - apply Z.ltb_lt.
Qed.

Ltac reaches_by_evaluation deps :=
  split; [vm_compute; reflexivity|];
  exists deps; repeat split; try (vm_compute; reflexivity); discriminate.

Lemma stale_world_reaches :
  reaches_comparison Examples.stale_world Examples.doc Scenario.root
    1000 "explicit" [Examples.lib_path].
Proof. reaches_by_evaluation ["./lib.ts"]. Qed.

Lemma stale_iff_newest_exceeds_witness :
  stale (value (check_staleness Examples.stale_world Examples.doc
                  Scenario.root)) = true
  <-> 1000 < 1000000.
Proof.
  apply (stale_iff_newest_exceeds Examples.stale_world Examples.doc
           Scenario.root 1000 "explicit" [Examples.lib_path] 1000000).
  - exact stale_world_reaches.
  - vm_compute; reflexivity.
Defined.

(** ** The untracked document *)

(** The claim C2 fails on a document that is on disk and has no commit: the
    result carries the error [Doc not tracked by git] and no reason. *)
Lemma untracked_doc_sets_error :
  let r := value (check_staleness Examples.untracked_doc_world Examples.doc
                    Scenario.root) in
  value (get_last_commit_time Examples.untracked_doc_world Examples.doc)
    = (None, None)
  /\ read_text Examples.untracked_doc_world Examples.doc = ReadOk "## Depends"
  /\ stale r = false
  /\ error r = Some "Doc not tracked by git"
  /\ reason r = None
  /\ ~ (error r = None /\ exists why, reason r = Some why).
Proof.
  vm_compute. repeat split; try reflexivity.
  intros [H _]. discriminate.
Qed.

(** C2, amended. For every document for which the timestamp query succeeds
    and returns nothing (the document is not tracked), the evaluator
    returns a result that is not stale, whose error is
    [Doc not tracked by git] and whose reason is absent; no other field is
    set. *)
Theorem untracked_doc_result (w : World) (doc : string) (root : Path) :
  value (get_last_commit_time w doc) = (None, None) ->
  value (check_staleness w doc root)
  = {| stale := false; doc_time := None;
       newest_code_time := None; newest_code_file := None;
       days_behind := 0; hours_behind := 0;
       deps_source := "none"; deps_count := 0;
       error := Some "Doc not tracked by git"; reason := None |}.
Proof.
  intros Hg. unfold check_staleness. eff. rewrite Hg. reflexivity.
Qed.

Lemma untracked_doc_result_witness :
  value (check_staleness Examples.untracked_doc_world Examples.doc
           Scenario.root)
  = {| stale := false; doc_time := None;
       newest_code_time := None; newest_code_file := None;
       days_behind := 0; hours_behind := 0;
       deps_source := "none"; deps_count := 0;
       error := Some "Doc not tracked by git"; reason := None |}.
Proof.
  apply (untracked_doc_result Examples.untracked_doc_world Examples.doc
           Scenario.root).
  vm_compute; reflexivity.
Defined.

(** ** Dependencies without a time *)

(** The claim C3 fails when the query for a dependency fails: the
    evaluation goes on, and the result carries no error. *)
Lemma failing_dep_query_not_carried :
  let w := Examples.failing_dep_world in
  let r := value (check_staleness w Examples.doc Scenario.root) in
  reaches_comparison w Examples.doc Scenario.root 1000 "explicit"
    [Examples.lib_path]
  /\ value (get_last_commit_time w Examples.lib_path)
     = (None, Some "Git error: fatal: bad object HEAD")
  /\ error r = None
  /\ reason r = Some "Dependencies not tracked by git".
Proof.
  split; [reaches_by_evaluation ["./lib.ts"]|].
  vm_compute. repeat split; reflexivity.
Qed.

(** C3, amended. During the timestamp pass a dependency whose time is
    absent, whether its query returned no error or an error, is excluded
    from the comparison (the loop variables are what they are without it)
    and the evaluation continues; an error of a dependency's query never
    aborts the evaluation, and the result carries no error. *)
Theorem dependency_without_time_is_skipped (w : World) (doc : string)
    (root : Path) (t : Z) (src : string) (l1 l2 : list string) (p : string) :
  reaches_comparison w doc root t src (l1 ++ p :: l2) ->
  commit_time w p = None ->
  value (newest_dependency w (l1 ++ p :: l2) (0, None, []))
  = value (newest_dependency w (l1 ++ l2) (0, None, []))
  /\ error (value (check_staleness w doc root)) = None.
Proof.
  intros Hr Hp. split.
  - apply newest_dependency_skip. unfold compared. rewrite Hp. reflexivity.
  - rewrite (check_staleness_compared _ _ _ _ _ _ Hr), compare_times_value.
    destruct (_ =? 0); reflexivity.
Qed.

Lemma dependency_without_time_is_skipped_witness :
  let w := Examples.failing_dep_world in
  commit_error w Examples.lib_path = Some "Git error: fatal: bad object HEAD"
  /\ value (newest_dependency w ([] ++ Examples.lib_path :: []) (0, None, []))
     = value (newest_dependency w ([] ++ []) (0, None, []))
  /\ error (value (check_staleness w Examples.doc Scenario.root)) = None.
Proof.
  split; [vm_compute; reflexivity|].
  apply (dependency_without_time_is_skipped Examples.failing_dep_world
           Examples.doc Scenario.root 1000 "explicit" [] [] Examples.lib_path).
  - reaches_by_evaluation ["./lib.ts"].
  - vm_compute; reflexivity.
Defined.

(** ** Path containment *)

(** The claim C4 fails on an absolute reference: [/etc/passwd] resolves
    outside the project, and [resolve_path] rejects it before any
    resolution, with the reason that asks for a [./] prefix. *)
Lemma absolute_reference_other_reason :
  let w := Examples.escaping_world in
  first_resolution w Examples.doc "/etc/passwd" = Returned Examples.passwd
  /\ outside Examples.passwd Scenario.root
  /\ value (resolve_path w Examples.doc "/etc/passwd" Scenario.root)
     = (None, Some "Use ./ prefix for paths with directories: /etc/passwd")
  /\ value (resolve_path w Examples.doc "/etc/passwd" Scenario.root)
     <> (None, Some (escapes_msg "/etc/passwd")).
Proof.
  vm_compute. repeat split; try reflexivity. discriminate.
Qed.

(** [resolve_path] never asks whether a path outside the root exists. *)
Lemma resolve_path_exists_inside (w : World) (base rel : string) (root q : Path) :
  In (EvExists q) (trace (resolve_path w base rel root)) ->
  is_relative_to q root = true.
Proof.
  unfold resolve_path.
  destruct (early_reject rel); [intros []|]. red_eff.
  destruct (fs_resolve w (path_parent w base) rel) as [r1|e]; red_eff;
    [|intros [H|[]]; discriminate].
  destruct (is_relative_to r1 root) eqn:E1; red_eff;
    [|intros [H|[]]; discriminate].
  intros [H|[H|H]]; [discriminate|inversion H; subst; exact E1|].
  destruct (fs_exists w r1) as [[|]|e]; red_eff; try (destruct H; fail).
  destruct (PyStr.startswith "./" rel); red_eff; [|destruct H].
  destruct H as [H|H]; [discriminate|].
  destruct (fs_resolve w (path_parent w base) (PyStr.slice_from 2 rel))
    as [r2|e]; red_eff; [|destruct H].
  destruct (is_relative_to r2 root) eqn:E2; red_eff; [|destruct H].
  destruct H as [H|H]; [inversion H; subst; exact E2|].
  destruct (fs_exists w r2) as [[|]|e]; destruct H.
Qed.

(** C4, amended. For every raw reference whose normalized resolution lies
    outside the project root, [resolve_path] returns absent, whether or not
    the target exists: the existence of a path outside the root is never
    asked.  The reason returned with it is [Path escapes project directory]
    when the reference passes the three rejection rules (at most 200
    characters, no newline, and a [./] or [../] prefix when it contains a
    separator); a reference that fails one has the reason of the first rule
    it fails: [Path too long], [Path contains newline], or [Use ./ prefix].
    This holds for the first resolution, and for the retry with the leading
    [./] stripped, which is made when the first resolution lies inside the
    root and does not exist. *)
Theorem resolve_path_containment (w : World) (base rel : string) (root : Path) :
  (exists p, first_resolution w base rel = Returned p /\ outside p root)
  \/ (exists p q,
        first_resolution w base rel = Returned p
        /\ is_relative_to p root = true
        /\ fs_exists w p = Returned false
        /\ PyStr.startswith "./" rel = true
        /\ retry_resolution w base rel = Returned q
        /\ outside q root) ->
  let r := value (resolve_path w base rel root) in
  fst r = None
  /\ (PyStr.len rel <= 200 ->
      PyStr.contains PyStr.nl rel = false ->
      PyStr.startswith "./" rel = true \/ PyStr.startswith "../" rel = true
      \/ PyStr.contains "/" rel = false ->
      r = (None, Some (escapes_msg rel)))
  /\ (200 < PyStr.len rel -> r = (None, Some "Path too long (>200 chars)"))
  /\ (PyStr.len rel <= 200 ->
      PyStr.contains PyStr.nl rel = true ->
      r = (None, Some "Path contains newline"))
  /\ (PyStr.len rel <= 200 ->
      PyStr.contains PyStr.nl rel = false ->
      PyStr.startswith "./" rel = false ->
      PyStr.startswith "../" rel = false ->
      PyStr.contains "/" rel = true ->
      r = (None, Some ("Use ./ prefix for paths with directories: " ++ rel)))
  /\ forall q, outside q root ->
       ~ In (EvExists q) (trace (resolve_path w base rel root)).
Proof.
  intros Hout r. subst r.
  assert (Hpass : early_reject rel = None ->
            value (resolve_path w base rel root)
            = (None, Some (escapes_msg rel))).
  { intros Hearly. unfold resolve_path. rewrite Hearly. red_eff.
    unfold first_resolution, retry_resolution, outside in Hout.
    destruct Hout as [(p & Hp & Ho)|(p & q & Hp & Hin & Hex & Hs & Hq & Ho)];
      rewrite Hp; red_eff.
    - rewrite Ho. reflexivity.
    - rewrite Hin. red_eff. rewrite Hex, Hs. red_eff. rewrite Hq, Ho.
      reflexivity. }
  assert (Hrule : forall reason,
            early_reject rel = Some reason ->
            value (resolve_path w base rel root) = (None, Some reason)).
  { intros reason Hearly. unfold resolve_path. rewrite Hearly. reflexivity. }
  split; [|split; [|split; [|split; [|split]]]].
  - destruct (early_reject rel) as [skip|] eqn:Hearly.
    + rewrite (Hrule skip eq_refl). reflexivity.
    + rewrite (Hpass eq_refl). reflexivity.
  - intros Hlen Hnl Hprefix. apply Hpass. unfold early_reject.
    assert (Hlong : (200 <? PyStr.len rel) = false) by (apply Z.ltb_ge; lia).
    rewrite Hlong, Hnl.
    destruct Hprefix as [H|[H|H]]; rewrite H; cbn [negb andb];
      rewrite ?andb_false_r; reflexivity.
  - intros Hlen. apply Hrule. unfold early_reject.
    assert (Hlong : (200 <? PyStr.len rel) = true) by (apply Z.ltb_lt; lia).
    rewrite Hlong. reflexivity.
  - intros Hlen Hnl. apply Hrule. unfold early_reject.
    assert (Hlong : (200 <? PyStr.len rel) = false) by (apply Z.ltb_ge; lia).
    rewrite Hlong, Hnl. reflexivity.
  - intros Hlen Hnl Hdot Hdots Hsep. apply Hrule. unfold early_reject.
    assert (Hlong : (200 <? PyStr.len rel) = false) by (apply Z.ltb_ge; lia).
    rewrite Hlong, Hnl, Hdot, Hdots, Hsep. reflexivity.
  - intros q Hq Hin. apply resolve_path_exists_inside in Hin.
    unfold outside in Hq. congruence.
Qed.

Lemma resolve_path_containment_witness :
  let w := Examples.escaping_world in
  let accents := "../" ++ repeat_string "é" 101 in
  let long := "../" ++ repeat_string "a" 198 in
  let far := Scenario.world [] [accents; long]
               [("docs", accents, Examples.passwd);
                ("docs", long, Examples.passwd)]
               [Examples.passwd] [] in
  fs_exists w Examples.passwd = Returned true
  /\ value (resolve_path w Examples.doc "../../etc/passwd" Scenario.root)
     = (None, Some "Path escapes project directory: ../../etc/passwd")
  /\ value (resolve_path w Examples.doc ".//etc/passwd" Scenario.root)
     = (None, Some "Path escapes project directory: .//etc/passwd")
  /\ value (resolve_path w Examples.doc "/etc/passwd" Scenario.root)
     = (None, Some "Use ./ prefix for paths with directories: /etc/passwd")
  /\ (Z.of_nat (String.length accents) = 205 /\ PyStr.len accents = 104
      /\ value (resolve_path far Examples.doc accents Scenario.root)
         = (None, Some (escapes_msg accents)))
  /\ (PyStr.len long = 201
      /\ value (resolve_path far Examples.doc long Scenario.root)
         = (None, Some "Path too long (>200 chars)")).
Proof.
  intros w accents long far.
  split; [vm_compute; reflexivity|]. split; [|split; [|split; [|split]]].
  - destruct (resolve_path_containment w Examples.doc
                "../../etc/passwd" Scenario.root) as (_ & H & _).
    + left. exists Examples.passwd. split; vm_compute; reflexivity.
    + apply H; [vm_compute; discriminate|vm_compute; reflexivity|].
      right. left. vm_compute; reflexivity.
  - destruct (resolve_path_containment w Examples.doc
                ".//etc/passwd" Scenario.root) as (_ & H & _).
    + right. exists ["proj"; "docs"; "etc"; "passwd"], Examples.passwd.
      repeat split; vm_compute; reflexivity.
    + apply H; [vm_compute; discriminate|vm_compute; reflexivity|].
      left. vm_compute; reflexivity.
  - destruct (resolve_path_containment w Examples.doc
                "/etc/passwd" Scenario.root) as (_ & _ & _ & _ & H & _).
    + left. exists Examples.passwd. split; vm_compute; reflexivity.
    + apply H; try (vm_compute; reflexivity). vm_compute; discriminate.
  - split; [vm_compute; reflexivity|]. split; [vm_compute; reflexivity|].
    destruct (resolve_path_containment far Examples.doc accents Scenario.root)
      as (_ & H & _).
    + left. exists Examples.passwd. split; vm_compute; reflexivity.
    + apply H; [vm_compute; discriminate|vm_compute; reflexivity|].
      right. left. vm_compute; reflexivity.
  - split; [vm_compute; reflexivity|].
    destruct (resolve_path_containment far Examples.doc long Scenario.root)
      as (_ & _ & H & _).
    + left. exists Examples.passwd. split; vm_compute; reflexivity.
    + apply H. vm_compute; reflexivity.
Defined.

(** ** Days and hours behind *)

(** C5. When the verdict is stale, with the delta the newest dependency
    time minus the time of the document, [days_behind] is the delta div
    86400 and [hours_behind] is (the delta mod 86400) div 3600; a delta of
    90000 seconds gives one day and one hour; when the verdict is not stale
    both are zero. *)
Theorem days_and_hours_behind (w : World) (doc : string) (root : Path) :
  let r := value (check_staleness w doc root) in
  (stale r = true ->
   exists newest t,
     newest_code_time r = Some newest /\ doc_time r = Some t
     /\ days_behind r = (newest - t) / 86400
     /\ hours_behind r = ((newest - t) mod 86400) / 3600
     /\ (newest - t = 90000 -> days_behind r = 1 /\ hours_behind r = 1))
  /\ (stale r = false -> days_behind r = 0 /\ hours_behind r = 0).
Proof.
  intros r. subst r.
  destruct (check_staleness_exit w doc root);
    try (split; [discriminate|intros _; split; reflexivity]).
  rewrite compare_times_value.
  destruct (_ =? 0); [split; [discriminate|intros _; split; reflexivity]|].
  cbn [stale newest_code_time doc_time days_behind hours_behind].
  set (newest := fold_left Z.max (known_times w S) 0).
  destruct (t <? newest); split; try discriminate.
  - intros _. exists newest, t. repeat split.
    + rewrite H0. reflexivity.
    + rewrite H0. reflexivity.
  - intros _. split; reflexivity.
Qed.

Lemma days_and_hours_behind_witness :
  let r := value (check_staleness Examples.day_and_hour_world Examples.doc
                    Scenario.root) in
  stale r = true /\ days_behind r = 1 /\ hours_behind r = 1.
Proof.
  split; [vm_compute; reflexivity|].
  destruct (days_and_hours_behind Examples.day_and_hour_world Examples.doc
              Scenario.root) as [H _].
  destruct (H eq_refl) as (newest & t & Hn & Ht & _ & _ & H90).
  apply H90. vm_compute in Hn, Ht. inversion Hn. inversion Ht. reflexivity.
Defined.

(** ** Declared dependencies before the directory *)

(** The trace of an evaluation that gets as far as the dependencies looks
    at the directory exactly when [gather_deps] does. *)
Lemma check_staleness_scan (w : World) (doc : string) (root : Path)
    (t : Z) (deps : list string) :
  value (get_last_commit_time w doc) = (Some t, None) ->
  value (parse_depends w doc) = (deps, None) ->
  scan_invoked (trace (check_staleness w doc root))
  = scan_invoked (trace (gather_deps w doc root deps)).
Proof.
  intros Hg Hp. unfold check_staleness. eff. rewrite Hg.
  cbn [PyStr.truthy_opt]. eff. rewrite Hp. cbn [PyStr.truthy_opt]. eff.
  rewrite !scan_invoked_app, get_last_commit_time_no_scan,
    parse_depends_no_scan. cbn [orb].
  destruct (value (gather_deps w doc root deps)) as [[S src] err].
  destruct (PyStr.truthy_opt err); [cbn; apply orb_false_r|].
  destruct S; cbn [is_empty]; [cbn; apply orb_false_r|].
  rewrite compare_times_no_scan. apply orb_false_r.
Qed.

(** The claim C6 fails on a document git has no commit of: it declares
    [./lib.ts], which resolves to an existing file of the project, but the
    evaluation returns before it reads the document, and the detection
    source of the result is [none], not [explicit]. *)
Lemma untracked_doc_source_is_none :
  let w := Examples.untracked_doc_world in
  let r := value (check_staleness w Examples.doc Scenario.root) in
  value (parse_depends w Examples.doc) = (["./lib.ts"], None)
  /\ value (resolve_path w Examples.doc "./lib.ts" Scenario.root)
     = (Some Examples.lib_path, None)
  /\ deps_source r = "none"
  /\ deps_source r <> "explicit"
  /\ error r = Some "Doc not tracked by git".
Proof.
  vm_compute. repeat split; try reflexivity. discriminate.
Qed.



(** ** The count of dependencies *)

(** The claim C7 fails on the outcome [Dependencies not tracked by git]:
    no dependency yielded a time, and the count is that of the
    dependencies attempted. *)
Lemma untracked_dep_count_is_attempted :
  let w := Examples.untracked_dep_world in
  let r := value (check_staleness w Examples.doc Scenario.root) in
  reaches_comparison w Examples.doc Scenario.root 1000 "explicit"
    [Examples.lib_path]
  /\ reason r = Some "Dependencies not tracked by git"
  /\ timestamp_count w [Examples.lib_path] = 0
  /\ deps_count r = 1
  /\ deps_count r <> timestamp_count w [Examples.lib_path].
Proof.
  split; [reaches_by_evaluation ["./lib.ts"]|].
  vm_compute. repeat split; try reflexivity. discriminate.
Qed.

Lemma compared_count_timestamp_count (w : World) (S : list string) :
  (forall p, In p S -> commit_time w p <> Some 0) ->
  compared_count w S = timestamp_count w S.
Proof.
  unfold compared_count, timestamp_count, len_list, known_times.
  induction S as [|p rest IH]; intros H; [reflexivity|].
  cbn [filter flat_map]. unfold compared at 1.
  specialize (IH (fun q Hq => H q (or_intror Hq))).
  pose proof (H p (or_introl eq_refl)) as Hp.
  destruct (commit_time w p) as [t|]; cbn [app]; [|exact IH].
  destruct (t =? 0) eqn:E0; cbn [negb].
  - apply Z.eqb_eq in E0. subst t. congruence.
  - cbn [List.length]. lia.
Qed.

(** C7, amended. In every result of an evaluation, [deps_count] is the
    number of dependencies that entered the comparison set (their query
    yielded a time the evaluator accepts: a time other than 0; none when
    the evaluation returns before the timestamp pass) -- except in the
    outcome [Dependencies not tracked by git], which is the one where the
    pass is reached and that number is zero, and where [deps_count] is the
    number of dependencies attempted.  When no dependency has the time 0,
    the number that entered the comparison is the number that yielded a
    time. *)
Theorem deps_count_is_compared_or_attempted (w : World) (doc : string)
    (root : Path) :
  let r := value (check_staleness w doc root) in
  (forall t src S,
     reaches_comparison w doc root t src S ->
     (reason r = Some "Dependencies not tracked by git"
      <-> compared_count w S = 0)
     /\ deps_count r
        = (if compared_count w S =? 0 then len_list S
           else compared_count w S)
     /\ ((forall p, In p S -> commit_time w p <> Some 0) ->
         compared_count w S = timestamp_count w S))
  /\ ((forall t src S, ~ reaches_comparison w doc root t src S) ->
      deps_count r = 0
      /\ reason r <> Some "Dependencies not tracked by git").
Proof.
  intros r. subst r. split.
  - intros t src S Hr.
    rewrite (check_staleness_compared _ _ _ _ _ _ Hr), compare_times_value.
    pose proof (newest_time_zero w S) as Hz.
    destruct (fold_left Z.max (known_times w S) 0 =? 0) eqn:E0;
      cbn [reason deps_count].
    + apply Z.eqb_eq in E0. apply Hz in E0.
      split; [split; [intros _; exact E0|reflexivity]|].
      split; [rewrite E0; reflexivity|].
      apply compared_count_timestamp_count.
    + apply Z.eqb_neq in E0.
      assert (Hc : compared_count w S <> 0) by (intros Hc; apply E0, Hz, Hc).
      split; [split; [discriminate|intros H; contradiction]|].
      split; [apply Z.eqb_neq in Hc; rewrite Hc; reflexivity|].
      apply compared_count_timestamp_count.
  - intros Hnot.
    destruct (check_staleness_exit w doc root) as
      [e Hg He|Hg|t e Hg Hp He|t deps e Hg Hp Hv He|t deps Hg Hp Hv|t src S Hr];
      try (split; [reflexivity|discriminate]).
    exfalso. exact (Hnot t src S Hr).
Qed.

Lemma deps_count_is_compared_or_attempted_witness :
  let w := Examples.stale_world in
  let r := value (check_staleness w Examples.doc Scenario.root) in
  compared_count w [Examples.lib_path] = 1 /\ deps_count r = 1.
Proof.
  split; [vm_compute; reflexivity|].
  destruct (deps_count_is_compared_or_attempted Examples.stale_world
              Examples.doc Scenario.root) as [H _].
  destruct (H 1000 "explicit" [Examples.lib_path]) as (_ & Hc & _).
  - reaches_by_evaluation ["./lib.ts"].
  - rewrite Hc. vm_compute; reflexivity.
Defined.

(** ** Invariants of a result *)

(** C8. Every result of an evaluation satisfies: if the error field is
    set, the verdict is not stale; and if the verdict is stale, the time of
    the document and the newest dependency time are both present and the
    newest dependency time is strictly greater. *)
Theorem result_invariants (w : World) (doc : string) (root : Path) :
  let r := value (check_staleness w doc root) in
  (error r <> None -> stale r = false)
  /\ (stale r = true ->
      exists t newest,
        doc_time r = Some t /\ newest_code_time r = Some newest
        /\ t < newest).
Proof.
  intros r. subst r.
  destruct (check_staleness_exit w doc root);
    try (split; [reflexivity|discriminate]).
  rewrite compare_times_value.
  destruct (_ =? 0); [split; [reflexivity|discriminate]|].
  cbn [error stale doc_time newest_code_time].
  split; [intros He; congruence|].
  intros Hs. apply Z.ltb_lt in Hs. eauto.
Qed.

Lemma result_invariants_witness :
  let r := value (check_staleness Examples.stale_world Examples.doc
                    Scenario.root) in
  stale r = true
  /\ exists t newest,
       doc_time r = Some t /\ newest_code_time r = Some newest /\ t < newest.
Proof.
  split; [vm_compute; reflexivity|].
  apply (result_invariants Examples.stale_world Examples.doc Scenario.root).
  vm_compute; reflexivity.
Defined.

(** ** The epoch as a sentinel *)

(** C9. A resolved dependency whose last-commit time is exactly 0 is
    excluded from the comparison set, as an untracked one is: the loop
    variables are what they are without it; and if every dependency has the
    time 0 or no time, the result is the outcome that is not stale, with
    the reason [Dependencies not tracked by git] (and the count of the
    dependencies attempted). *)
Theorem epoch_time_counts_as_untracked (w : World) :
  (forall l1 l2 p st,
     commit_time w p = Some 0 ->
     value (newest_dependency w (l1 ++ p :: l2) st)
     = value (newest_dependency w (l1 ++ l2) st))
  /\ (forall doc root t src S,
        reaches_comparison w doc root t src S ->
        (forall p, In p S ->
                   commit_time w p = Some 0 \/ commit_time w p = None) ->
        value (check_staleness w doc root)
        = {| stale := false; doc_time := Some t;
             newest_code_time := None; newest_code_file := None;
             days_behind := 0; hours_behind := 0;
             deps_source := src; deps_count := len_list S;
             error := None;
             reason := Some "Dependencies not tracked by git" |}).
Proof.
  split.
  - intros l1 l2 p st Hp. apply newest_dependency_skip.
    unfold compared. rewrite Hp. reflexivity.
  - intros doc root t src S Hr Hall.
    rewrite (check_staleness_compared _ _ _ _ _ _ Hr), compare_times_value.
    assert (Hc : compared_count w S = 0).
    { unfold compared_count, len_list. clear Hr.
      induction S as [|p rest IH]; [reflexivity|].
      cbn [filter]. unfold compared at 1.
      destruct (Hall p (or_introl eq_refl)) as [Hp|Hp]; rewrite Hp;
        cbn [Z.eqb negb]; apply IH; intros q Hq; apply Hall; right; exact Hq. }
    apply newest_time_zero in Hc. rewrite Hc. reflexivity.
Qed.

Lemma epoch_time_counts_as_untracked_witness :
  let w := Examples.epoch_dep_world in
  commit_time w Examples.lib_path = Some 0
  /\ value (check_staleness w Examples.doc Scenario.root)
     = {| stale := false; doc_time := Some 1000;
          newest_code_time := None; newest_code_file := None;
          days_behind := 0; hours_behind := 0;
          deps_source := "explicit"; deps_count := 1;
          error := None;
          reason := Some "Dependencies not tracked by git" |}.
Proof.
  split; [vm_compute; reflexivity|].
  apply (proj2 (epoch_time_counts_as_untracked Examples.epoch_dep_world)
           Examples.doc Scenario.root 1000 "explicit" [Examples.lib_path]).
  - reaches_by_evaluation ["./lib.ts"].
  - intros p [<-|[]]. left. vm_compute; reflexivity.
Defined.

(** ** The detection source *)

(** The claim C10 fails in its last part: the source [none] is also that
    of the result for an untracked document, whose dependencies are never
    extracted (and would be without error). *)
Lemma none_source_without_parse_error :
  let w := Examples.untracked_doc_world in
  let e := check_staleness w Examples.doc Scenario.root in
  deps_source (value e) = "none"
  /\ trace e = [EvGit ["log"; "-1"; "--format=%ct"; "--"; Examples.doc]]
  /\ value (parse_depends w Examples.doc) = (["./lib.ts"], None)
  /\ error (value e) = Some "Doc not tracked by git".
Proof. vm_compute. repeat split; reflexivity. Qed.

(** C10, amended. When no dependency is found at all, the result with the
    reason [No dependencies found] carries the detection source
    [directory], never [none] (nor [explicit]); the value [none] occurs
    only on the results returned before any dependency is resolved, each
    with its error: an error of the timestamp query of the document, an
    untracked document, or an extraction error. *)
Theorem no_dependencies_source_is_directory (w : World) (doc : string)
    (root : Path) :
  let r := value (check_staleness w doc root) in
  (reason r = Some "No dependencies found" -> deps_source r = "directory")
  /\ (deps_source r = "none" ->
      exists e,
        error r = Some e
        /\ (commit_error w doc = Some e
            \/ (value (get_last_commit_time w doc) = (None, None)
                /\ e = "Doc not tracked by git")
            \/ snd (value (parse_depends w doc)) = Some e)).
Proof.
  intros r. subst r. unfold commit_error.
  destruct (check_staleness_exit w doc root) as
    [e Hg He|Hg|t e Hg Hp He|t deps e Hg Hp Hv He|t deps Hg Hp Hv|t src S Hr];
    cbn [early_result reason deps_source error].
  - split; [discriminate|]. intros _. exists e. split; [reflexivity|].
    left. rewrite Hg. reflexivity.
  - split; [discriminate|]. intros _. eexists. split; [reflexivity|].
    right; left. split; [exact Hg|reflexivity].
  - split; [discriminate|]. intros _. exists e. split; [reflexivity|].
    right; right. rewrite Hp. reflexivity.
  - split; discriminate.
  - split; [reflexivity|discriminate].
  - rewrite compare_times_value.
    destruct Hr as (Hg & deps & Hp & Hv & HS).
    assert (Hsrc : src = "explicit" \/ src = "directory").
    { destruct (gather_deps_cases w doc root deps) as [(_ & Hv' & _)|(_ & Hv' & _)];
        rewrite Hv' in Hv; inversion Hv; auto. }
    destruct (_ =? 0); cbn [reason deps_source];
      (split; [discriminate|]); intros ->; destruct Hsrc; discriminate.
Qed.

Lemma no_dependencies_source_is_directory_witness :
  let r := value (check_staleness Examples.empty_dir_world Examples.doc
                    Scenario.root) in
  reason r = Some "No dependencies found" /\ deps_source r = "directory".
Proof.
  split; [vm_compute; reflexivity|].
  apply (no_dependencies_source_is_directory Examples.empty_dir_world
           Examples.doc Scenario.root).
  vm_compute; reflexivity.
Defined.

(** * Further properties of the code *)

(** ** Strings *)

Lemma rev_onto_chars (s : string) :
  forall acc,
    list_ascii_of_string (PyStr.rev_onto s acc)
    = (List.rev (list_ascii_of_string s) ++ list_ascii_of_string acc)%list.
Proof.
  induction s as [|c s IH]; intros acc; cbn [PyStr.rev_onto list_ascii_of_string].
  - reflexivity.
  - rewrite IH. cbn [list_ascii_of_string List.rev].
    rewrite <- app_assoc. reflexivity.
Qed.

Lemma rev_chars (s : string) :
  list_ascii_of_string (PyStr.rev s) = List.rev (list_ascii_of_string s).
Proof. unfold PyStr.rev. rewrite rev_onto_chars. apply app_nil_r. Qed.

Lemma chars_inj (s1 s2 : string) :
  list_ascii_of_string s1 = list_ascii_of_string s2 -> s1 = s2.
Proof.
  intros H. rewrite <- (string_of_list_ascii_of_string s1),
    <- (string_of_list_ascii_of_string s2), H. reflexivity.
Qed.

Lemma rev_rev (s : string) : PyStr.rev (PyStr.rev s) = s.
Proof. apply chars_inj. rewrite !rev_chars. apply rev_involutive. Qed.

Lemma chars_app (s1 s2 : string) :
  list_ascii_of_string (s1 ++ s2)
  = (list_ascii_of_string s1 ++ list_ascii_of_string s2)%list.
Proof.
  induction s1 as [|c s1 IH]; cbn [append list_ascii_of_string app];
    [reflexivity|]. rewrite IH. reflexivity.
Qed.

Lemma string_app_assoc (s1 s2 s3 : string) :
  (s1 ++ s2) ++ s3 = s1 ++ (s2 ++ s3).
Proof.
  induction s1 as [|c s1 IH]; cbn [append]; [reflexivity|].
  rewrite IH. reflexivity.
Qed.

Lemma rev_app (s1 s2 : string) :
  PyStr.rev (s1 ++ s2) = PyStr.rev s2 ++ PyStr.rev s1.
Proof.
  apply chars_inj. rewrite rev_chars, !chars_app, !rev_chars.
  apply rev_app_distr.
Qed.

Lemma string_length_app (s1 s2 : string) :
  String.length (s1 ++ s2) = (String.length s1 + String.length s2)%nat.
Proof.
  induction s1 as [|c s1 IH]; cbn [append String.length Nat.add];
    [reflexivity|]. rewrite IH. reflexivity.
Qed.

(** [after p s] is the rest of [s] behind [p]. *)
Lemma after_app (p : string) :
  forall s t, PyStr.after p s = Some t <-> s = p ++ t.
Proof.
  induction p as [|a p IH]; intros s t; cbn [PyStr.after append].
  - split; [intros H; inversion H; reflexivity|intros ->; reflexivity].
  - destruct s as [|b s]; [split; discriminate|].
    destruct (Ascii.eqb a b) eqn:E.
    + apply Ascii.eqb_eq in E. subst b. rewrite IH.
      split; [intros ->; reflexivity|intros H; inversion H; reflexivity].
    + apply Ascii.eqb_neq in E.
      split; [discriminate|intros H; inversion H; congruence].
Qed.

Lemma after_any_some (chars : list string) (s t : string) :
  PyStr.after_any chars s = Some t ->
  exists ch, In ch chars /\ s = ch ++ t.
Proof.
  induction chars as [|a chars IH]; cbn [PyStr.after_any]; [discriminate|].
  destruct (PyStr.after a s) as [u|] eqn:E.
  - intros H. inversion H; subst u. exists a.
    split; [left; reflexivity|apply after_app; exact E].
  - intros H. destruct (IH H) as (ch & Hin & Hs).
    exists ch. split; [right; exact Hin|exact Hs].
Qed.

Lemma after_any_none (chars : list string) (s : string) :
  PyStr.after_any chars s = None ->
  forall ch t, In ch chars -> s <> ch ++ t.
Proof.
  induction chars as [|a chars IH]; cbn [PyStr.after_any];
    [intros _ ch t []|].
  destruct (PyStr.after a s) as [u|] eqn:E; [discriminate|].
  intros H ch t [<-|Hin] Hs.
  - apply after_app in Hs. congruence.
  - exact (IH H ch t Hin Hs).
Qed.

Lemma after_any_empty (chars : list string) :
  (forall ch, In ch chars -> ch <> "") -> PyStr.after_any chars "" = None.
Proof.
  induction chars as [|a chars IH]; intros Hne; cbn [PyStr.after_any];
    [reflexivity|].
  destruct a as [|c a]; [destruct (Hne "" (or_introl eq_refl) eq_refl)|].
  cbn [PyStr.after]. apply IH. intros ch Hin. apply Hne. right. exact Hin.
Qed.

Lemma drop_leading_fixed (fuel : nat) (chars : list string) (s : string) :
  PyStr.after_any chars s = None -> PyStr.drop_leading fuel chars s = s.
Proof.
  intros H. destruct fuel; cbn [PyStr.drop_leading]; [|rewrite H]; reflexivity.
Qed.

(** With the length of the text as fuel, [drop_leading] removes characters
    of [chars] from the head until none is left there. *)
Lemma drop_leading_spec (chars : list string) :
  (forall ch, In ch chars -> ch <> "") ->
  forall fuel s,
    (String.length s <= fuel)%nat ->
    exists pre,
      s = pre ++ PyStr.drop_leading fuel chars s
      /\ PyStr.after_any chars (PyStr.drop_leading fuel chars s) = None.
Proof.
  intros Hne. induction fuel as [|fuel IH]; intros s Hlen;
    cbn [PyStr.drop_leading].
  - destruct s; [|cbn [String.length] in Hlen; lia].
    exists "". split; [reflexivity|apply after_any_empty, Hne].
  - destruct (PyStr.after_any chars s) as [t|] eqn:E.
    + destruct (after_any_some _ _ _ E) as (ch & Hin & Hs).
      assert (Hch : (0 < String.length ch)%nat).
      { destruct ch; [destruct (Hne "" Hin eq_refl)|cbn [String.length]; lia]. }
      assert (Ht : (String.length t <= fuel)%nat).
      { rewrite Hs, string_length_app in Hlen. lia. }
      destruct (IH t Ht) as (pre & Hpre & Hnone).
      exists (ch ++ pre). split; [|exact Hnone].
      rewrite string_app_assoc, <- Hpre. exact Hs.
    + exists "". split; [reflexivity|exact E].
Qed.

Lemma whitespace_nonempty (ch : string) :
  In ch PyStr.WHITESPACE -> ch <> "".
Proof.
  assert (H : forallb PyStr.truthy PyStr.WHITESPACE = true) by reflexivity.
  intros Hin. apply (proj1 (forallb_forall _ _) H) in Hin.
  intros ->. discriminate.
Qed.

Lemma whitespace_rev_nonempty (ch : string) :
  In ch (map PyStr.rev PyStr.WHITESPACE) -> ch <> "".
Proof.
  assert (H : forallb PyStr.truthy (map PyStr.rev PyStr.WHITESPACE) = true)
    by reflexivity.
  intros Hin. apply (proj1 (forallb_forall _ _) H) in Hin.
  intros ->. discriminate.
Qed.

(** [lstrip] removes white space from the head and leaves none there;
    [rstrip] does the same at the tail. *)
Lemma lstrip_spec (s : string) :
  exists pre,
    s = pre ++ PyStr.lstrip s
    /\ PyStr.after_any PyStr.WHITESPACE (PyStr.lstrip s) = None.
Proof.
  apply (drop_leading_spec _ whitespace_nonempty). lia.
Qed.

Lemma rstrip_spec (s : string) :
  exists post,
    s = PyStr.rstrip s ++ post
    /\ PyStr.after_any (map PyStr.rev PyStr.WHITESPACE)
         (PyStr.rev (PyStr.rstrip s)) = None.
Proof.
  unfold PyStr.rstrip, PyStr.lstrip_of.
  destruct (drop_leading_spec _ whitespace_rev_nonempty
              (String.length (PyStr.rev s)) (PyStr.rev s) (Nat.le_refl _))
    as (pre & Hs & Hnone).
  set (r := PyStr.drop_leading _ _ _) in *.
  exists (PyStr.rev pre). split.
  - apply (f_equal PyStr.rev) in Hs. rewrite rev_rev, rev_app in Hs. exact Hs.
  - rewrite rev_rev. exact Hnone.
Qed.

Lemma lstrip_fixed (s : string) :
  PyStr.after_any PyStr.WHITESPACE s = None -> PyStr.lstrip s = s.
Proof. apply drop_leading_fixed. Qed.

Lemma rstrip_fixed (s : string) :
  PyStr.after_any (map PyStr.rev PyStr.WHITESPACE) (PyStr.rev s) = None ->
  PyStr.rstrip s = s.
Proof.
  intros H. unfold PyStr.rstrip, PyStr.lstrip_of.
  rewrite drop_leading_fixed by exact H. apply rev_rev.
Qed.

(** A stripped string is its own strip. *)
Lemma strip_idempotent (s : string) :
  PyStr.strip (PyStr.strip s) = PyStr.strip s.
Proof.
  unfold PyStr.strip.
  destruct (lstrip_spec s) as (pre & _ & Ha).
  set (a := PyStr.lstrip s) in *.
  destruct (rstrip_spec a) as (post & Hb & Hnone).
  set (b := PyStr.rstrip a) in *.
  assert (Hl : PyStr.lstrip b = b).
  { apply lstrip_fixed.
    destruct (PyStr.after_any PyStr.WHITESPACE b) as [t|] eqn:E;
      [|reflexivity].
    destruct (after_any_some _ _ _ E) as (ch & Hin & Hch).
    exfalso. apply (after_any_none _ _ Ha ch (t ++ post) Hin).
    rewrite Hb, Hch. apply string_app_assoc. }
  rewrite Hl. apply rstrip_fixed. exact Hnone.
Qed.

(** The characters of a stripped string are characters of the string. *)
Lemma strip_chars_incl (s : string) (c : ascii) :
  In c (list_ascii_of_string (PyStr.strip s)) -> In c (list_ascii_of_string s).
Proof.
  unfold PyStr.strip. intros H.
  destruct (lstrip_spec s) as (pre & Hs & _).
  destruct (rstrip_spec (PyStr.lstrip s)) as (post & Ha & _).
  rewrite Hs, chars_app. apply in_or_app. right.
  rewrite Ha, chars_app. apply in_or_app. left. exact H.
Qed.

(** No piece of a split contains the separator. *)
Lemma split_pieces_free (sep : ascii) (s : string) :
  forall piece, In piece (PyStr.split sep s) ->
                ~ In sep (list_ascii_of_string piece).
Proof.
  induction s as [|c s IH]; intros piece; cbn [PyStr.split].
  - intros [<-|[]] [].
  - destruct (Ascii.eqb c sep) eqn:Ec.
    + intros [<-|H]; [intros []|apply IH; exact H].
    + apply Ascii.eqb_neq in Ec.
      destruct (PyStr.split sep s) as [|h t] eqn:Es.
      * intros [<-|[]] [H|[]]. congruence.
      * intros [<-|H].
        -- cbn [list_ascii_of_string]. intros [H|H]; [congruence|].
           exact (IH h (or_introl eq_refl) H).
        -- apply IH. right. exact H.
Qed.

(** ** The git wrapper *)

(** [run_git] has two kinds of results: git completed with status 0 and
    the output is its stripped standard output, or it did not and the
    result is an error with an empty output. *)
Lemma run_git_cases (w : World) (args : list string) :
  (exists stdout stderr,
     subprocess_git w args = Completed 0 stdout stderr
     /\ value (run_git w args) = (PyStr.strip stdout, None))
  \/ (exists e,
        value (run_git w args) = ("", Some e)
        /\ PyStr.truthy e = true
        /\ forall stdout stderr,
             subprocess_git w args <> Completed 0 stdout stderr).
Proof.
  unfold run_git. red_eff.
  destruct (subprocess_git w args) as [rc out err| |e'|e'].
  - destruct (rc =? 0) eqn:Erc; cbn [negb].
    + apply Z.eqb_eq in Erc. subst rc. left. eauto.
    + apply Z.eqb_neq in Erc. right.
      assert (Hno : forall so se, Completed rc out err <> Completed 0 so se)
        by (intros so se H; inversion H; congruence).
      destruct (PyStr.contains _ _); [|destruct (PyStr.truthy (PyStr.strip err))];
        eexists; (split; [reflexivity|split; [reflexivity|exact Hno]]).
  - right. eexists. split; [reflexivity|split; [reflexivity|discriminate]].
  - right. eexists. split; [reflexivity|split; [reflexivity|discriminate]].
  - right. eexists. split; [reflexivity|split; [reflexivity|discriminate]].
Qed.

(** X1. [run_git] returns no error exactly when git completed with status
    0; then the output is the standard output stripped (and stripping it
    again changes nothing).  Whenever it returns an error, the output is
    empty and the message is not. *)
Theorem run_git_error_iff_failure (w : World) (args : list string) :
  let r := value (run_git w args) in
  (snd r = None <->
   exists stdout stderr, subprocess_git w args = Completed 0 stdout stderr)
  /\ (forall stdout stderr,
        subprocess_git w args = Completed 0 stdout stderr ->
        fst r = PyStr.strip stdout /\ PyStr.strip (fst r) = fst r)
  /\ (forall e, snd r = Some e -> fst r = "" /\ PyStr.truthy e = true).
Proof.
  intros r. subst r.
  destruct (run_git_cases w args) as [(so & se & Hc & Hv)|(e & Hv & He & Hno)];
    rewrite Hv; cbn [fst snd].
  - split; [|split].
    + split; [intros _; eauto|reflexivity].
    + intros so' se' H. rewrite Hc in H. inversion H; subst.
      split; [reflexivity|apply strip_idempotent].
    + discriminate.
  - split; [|split].
    + split; [discriminate|]. intros (so & se & H). destruct (Hno so se H).
    + intros so se H. destruct (Hno so se H).
    + intros e' H. inversion H; subst. split; [reflexivity|exact He].
Qed.

Lemma run_git_error_iff_failure_witness :
  fst (value (run_git Examples.stale_world
                ["log"; "-1"; "--format=%ct"; "--"; Examples.doc]))
  = "1000"
  /\ snd (value (run_git Examples.failing_dep_world
                   ["log"; "-1"; "--format=%ct"; "--"; Examples.lib_path]))
     = Some "Git error: fatal: bad object HEAD".
Proof.
  split.
  - destruct (run_git_error_iff_failure Examples.stale_world
                ["log"; "-1"; "--format=%ct"; "--"; Examples.doc])
      as (_ & H & _).
    destruct (H ("1000" ++ PyStr.nl) "") as [H1 _];
      [vm_compute; reflexivity|].
    rewrite H1. vm_compute; reflexivity.
  - vm_compute; reflexivity.
Defined.

(** On ASCII text the characters are the bytes. *)
Lemma ascii_len (s : string) :
  PyStr.is_ascii s = true -> PyStr.len s = Z.of_nat (String.length s).
Proof.
  unfold PyStr.len. intros H. f_equal.
  induction s as [|c s IH];
    cbn [PyStr.is_ascii PyStr.code_points String.length] in *;
    [reflexivity|].
  apply andb_true_iff in H. destruct H as [Hc Hs].
  assert (Hcont : PyStr.is_continuation c = false).
  { unfold PyStr.is_continuation. cbv zeta. apply Nat.ltb_lt in Hc.
    apply andb_false_iff. left. apply Nat.leb_gt. exact Hc. }
  rewrite Hcont, (IH Hs). reflexivity.
Qed.

(** A numeral of [k] digits is below [10 ^ k]. *)
Lemma int_from_bound (s : string) :
  PyStr.all_digits s = true ->
  forall acc,
    0 <= acc ->
    PyStr.int_from acc s < (acc + 1) * 10 ^ Z.of_nat (String.length s).
Proof.
  induction s as [|c s IH]; intros Hd acc Hacc;
    cbn [PyStr.all_digits PyStr.int_from String.length] in *.
  - cbn [Z.of_nat]. rewrite Z.pow_0_r. lia.
  - apply andb_true_iff in Hd. destruct Hd as [Hc Hs].
    unfold PyStr.is_digit in Hc. apply andb_true_iff in Hc.
    destruct Hc as [Hlo Hhi]. apply Nat.leb_le in Hlo, Hhi.
    assert (Hstep : 0 <= 10 * acc + (Z.of_nat (nat_of_ascii c) - 48)) by lia.
    specialize (IH Hs _ Hstep).
    rewrite Nat2Z.inj_succ, Z.pow_succ_r by lia.
    assert (Hp : 0 < 10 ^ Z.of_nat (String.length s))
      by (apply Z.pow_pos_nonneg; lia).
    set (p := 10 ^ Z.of_nat (String.length s)) in *.
    set (d := Z.of_nat (nat_of_ascii c) - 48) in *.
    assert (Hd9 : d <= 9) by (subst d; lia).
    nia.
Qed.

Lemma plain_int_bound (output : string) :
  plain_text output = true -> PyStr.isdigit output = true ->
  PyStr.int output < 10 ^ PyStr.MAX_STR_DIGITS.
Proof.
  unfold plain_text. intros Hp Hd. apply andb_true_iff in Hp.
  destruct Hp as [Hascii Hlen]. apply Z.leb_le in Hlen.
  rewrite (ascii_len _ Hascii) in Hlen.
  assert (Hall : PyStr.all_digits output = true)
    by (destruct output; [discriminate|exact Hd]).
  pose proof (int_from_bound output Hall 0 (Z.le_refl 0)) as Hb.
  fold (PyStr.int output) in Hb. rewrite Z.add_0_l, Z.mul_1_l in Hb.
  apply (Z.lt_le_trans _ _ _ Hb).
  apply Z.pow_le_mono_r; [lia|exact Hlen].
Qed.



(** ** The extractors *)

Lemma mem_In (x : string) (xs : list string) :
  PyStr.mem x xs = true <-> In x xs.
Proof.
  unfold PyStr.mem. rewrite existsb_exists. split.
  - intros (y & Hy & He). apply String.eqb_eq in He. subst. exact Hy.
  - intros H. exists x. split; [exact H|apply String.eqb_refl].
Qed.

Lemma add_inline_refs_shape (refs : list string) :
  forall deps, exists extra,
    add_inline_refs deps refs = (deps ++ extra)%list
    /\ NoDup extra
    /\ (forall x, In x extra <-> In x refs /\ ~ In x deps).
Proof.
  induction refs as [|r rest IH]; intros deps; cbn [add_inline_refs].
  - exists []. rewrite app_nil_r.
    split; [reflexivity|]. split; [constructor|].
    intros x. split; [intros []|intros [[] _]].
  - destruct (PyStr.mem r deps) eqn:Em; cbn [negb].
    + apply mem_In in Em. destruct (IH deps) as (extra & He & Hnd & Hin).
      exists extra. split; [exact He|]. split; [exact Hnd|].
      intros x. rewrite Hin. split.
      * intros [Hx Hn]. split; [right; exact Hx|exact Hn].
      * intros [[<-|Hx] Hn]; [contradiction|]. split; assumption.
    + assert (Hr : ~ In r deps)
        by (intros H; apply mem_In in H; congruence).
      destruct (IH (deps ++ [r])%list) as (extra & He & Hnd & Hin).
      exists (r :: extra). rewrite He, <- app_assoc.
      split; [reflexivity|]. split.
      * constructor; [|exact Hnd]. intros H. apply Hin in H.
        destruct H as [_ H]. apply H. apply in_or_app. right. left. reflexivity.
      * intros x. split.
        -- intros [<-|H]; [split; [left; reflexivity|exact Hr]|].
           apply Hin in H. destruct H as [Hx Hn].
           split; [right; exact Hx|].
           intros Hd. apply Hn. apply in_or_app. left. exact Hd.
        -- intros [Hx Hn]. destruct (string_dec r x) as [->|Hne];
             [left; reflexivity|]. right. apply Hin.
           destruct Hx as [Hx|Hx]; [contradiction|]. split; [exact Hx|].
           intros H. apply in_app_or in H. destruct H as [H|[H|[]]];
             [contradiction|congruence].
Qed.

(** X3. For a markdown file that can be read, [parse_depends_from_md]
    returns the items of the Depends section, in order and with their
    repetitions, followed by the inline references that are not among
    them, each once; and no error. *)
Theorem parse_depends_from_md_shape (w : World) (file_path content : string) :
  read_text w file_path = ReadOk content ->
  exists extra,
    value (parse_depends_from_md w file_path)
    = ((re_depends_section w content ++ extra)%list, None)
    /\ NoDup extra
    /\ (forall x, In x extra <->
                  In x (re_inline_refs w content)
                  /\ ~ In x (re_depends_section w content)).
Proof.
  intros Hr. unfold parse_depends_from_md. red_eff. rewrite Hr. red_eff.
  destruct (add_inline_refs_shape (re_inline_refs w content)
              (re_depends_section w content)) as (extra & He & Hnd & Hin).
  exists extra. rewrite He. split; [reflexivity|]. split; assumption.
Qed.

Lemma parse_depends_from_md_shape_witness :
  exists extra,
    value (parse_depends_from_md
             (mkWorld (fun _ => Completed 0 "" "")
                (fun _ => ReadOk "text")
                (fun _ => ["./a.ts"; "./a.ts"]) (fun _ => ["b.ts"; "./a.ts"; "b.ts"])
                (fun _ => None) (fun p => p)
                (fun _ _ => Raised "") (fun _ => Raised "")
                (fun _ => OsOk false) (fun _ => OsOk []))
             "notes.md")
    = ((["./a.ts"; "./a.ts"] ++ extra)%list, None)
    /\ extra = ["b.ts"].
Proof.
  destruct (parse_depends_from_md_shape
              (mkWorld (fun _ => Completed 0 "" "")
                 (fun _ => ReadOk "text")
                 (fun _ => ["./a.ts"; "./a.ts"])
                 (fun _ => ["b.ts"; "./a.ts"; "b.ts"])
                 (fun _ => None) (fun p => p)
                 (fun _ _ => Raised "") (fun _ => Raised "")
                 (fun _ => OsOk false) (fun _ => OsOk []))
              "notes.md" "text" eq_refl) as (extra & Hv & _).
  exists extra. split; [exact Hv|].
  vm_compute in Hv. inversion Hv. reflexivity.
Defined.

Lemma strip_tokens_filter (tokens : list string) :
  forall deps,
    strip_tokens deps tokens
    = (deps ++ filter PyStr.truthy (map PyStr.strip tokens))%list.
Proof.
  induction tokens as [|tok rest IH]; intros deps;
    cbn [strip_tokens map filter].
  - symmetry. apply app_nil_r.
  - destruct (PyStr.truthy (PyStr.strip tok)); rewrite IH;
      [rewrite <- app_assoc|]; reflexivity.
Qed.

(** X4. Every dependency [parse_depends_from_code] returns is a token of
    the [@depends] list as the code cleans it: it is not empty, it has no
    white space at either end (stripping it changes nothing) and it
    contains no comma. *)
Theorem parse_depends_from_code_tokens (w : World) (file_path dep : string) :
  In dep (fst (value (parse_depends_from_code w file_path))) ->
  dep <> ""
  /\ PyStr.strip dep = dep
  /\ ~ In ","%char (list_ascii_of_string dep).
Proof.
  unfold parse_depends_from_code. red_eff.
  destruct (read_text w file_path) as [content| | | |e]; red_eff;
    try (intros []).
  destruct (re_depends_tag w content) as [deps_str|]; red_eff; [|intros []].
  rewrite strip_tokens_filter. cbn [app].
  intros H. apply filter_In in H. destruct H as [H Ht].
  apply in_map_iff in H. destruct H as (tok & <- & Htok).
  split; [|split].
  - intros H0. rewrite H0 in Ht. discriminate.
  - apply strip_idempotent.
  - intros Hc. apply strip_chars_incl in Hc.
    exact (split_pieces_free _ _ _ Htok Hc).
Qed.

Lemma parse_depends_from_code_tokens_witness :
  "./b.ts" <> ""
  /\ PyStr.strip "./b.ts" = "./b.ts"
  /\ ~ In ","%char (list_ascii_of_string "./b.ts").
Proof.
  apply (parse_depends_from_code_tokens
           (mkWorld (fun _ => Completed 0 "" "")
              (fun _ => ReadOk "text")
              (fun _ => []) (fun _ => [])
              (fun _ => Some "./a.ts , ./b.ts,, ") (fun p => p)
              (fun _ _ => Raised "") (fun _ => Raised "")
              (fun _ => OsOk false) (fun _ => OsOk []))
           "mod.py" "./b.ts").
  vm_compute. right. left. reflexivity.
Defined.

(** X5. Either extractor reads the document once and makes no other
    call; it returns an error exactly when the read fails, and then it
    returns no dependency. *)
Theorem parse_depends_reads_once (w : World) (doc_path : string) :
  let e := parse_depends w doc_path in
  trace e = [EvReadText doc_path]
  /\ (snd (value e) = None <->
      exists content, read_text w doc_path = ReadOk content)
  /\ (snd (value e) <> None -> fst (value e) = []).
Proof.
  intros e. subst e.
  unfold parse_depends, parse_depends_from_md, parse_depends_from_code.
  destruct (PyStr.endswith ".md" doc_path); red_eff;
    destruct (read_text w doc_path) as [content| | | |err] eqn:Er; red_eff;
    try destruct (re_depends_tag w content); red_eff;
    (split; [reflexivity|]); (split; [|try reflexivity; try congruence]);
    try (split; [intros _; eauto|reflexivity]);
    try (split; [discriminate|intros (c & Hc); discriminate]).
Qed.

(** ** The resolver *)

(** A path [resolve_path] returns lies inside the root and exists. *)
Lemma resolve_path_returns_inside (w : World) (base rel : string)
    (root : Path) (p : string) :
  fst (value (resolve_path w base rel root)) = Some p ->
  exists q,
    p = str_of_path q /\ is_relative_to q root = true
    /\ fs_exists w q = Returned true.
Proof.
  unfold resolve_path.
  destruct (early_reject rel); [red_eff; discriminate|]. red_eff.
  destruct (fs_resolve w (path_parent w base) rel) as [r1|e]; red_eff;
    [|discriminate].
  destruct (is_relative_to r1 root) eqn:I1; red_eff; [|discriminate].
  destruct (fs_exists w r1) as [[|]|e] eqn:X1; red_eff; [| |discriminate].
  - intros H. inversion H. eauto.
  - destruct (PyStr.startswith "./" rel); red_eff; [|discriminate].
    destruct (fs_resolve w (path_parent w base) (PyStr.slice_from 2 rel))
      as [r2|e]; red_eff; [|discriminate].
    destruct (is_relative_to r2 root) eqn:I2; red_eff; [|discriminate].
    destruct (fs_exists w r2) as [[|]|e] eqn:X2; red_eff; try discriminate.
    intros H. inversion H. eauto.
Qed.

(** X6. A path [resolve_path] returns is the string of a resolution of the
    reference (the first one, or the retry for a reference that begins
    with [./]) that lies inside the project root and exists; it comes with
    no skip reason, and the reference passed the three rejection rules. *)
Theorem resolve_path_sound (w : World) (base rel : string) (root : Path)
    (p : string) :
  fst (value (resolve_path w base rel root)) = Some p ->
  exists q,
    p = str_of_path q
    /\ is_relative_to q root = true
    /\ fs_exists w q = Returned true
    /\ (first_resolution w base rel = Returned q
        \/ (PyStr.startswith "./" rel = true
            /\ retry_resolution w base rel = Returned q))
    /\ snd (value (resolve_path w base rel root)) = None
    /\ early_reject rel = None.
Proof.
  unfold resolve_path, first_resolution, retry_resolution.
  destruct (early_reject rel); [red_eff; discriminate|]. red_eff.
  destruct (fs_resolve w (path_parent w base) rel) as [r1|e] eqn:E1; red_eff;
    [|discriminate].
  destruct (is_relative_to r1 root) eqn:I1; red_eff; [|discriminate].
  destruct (fs_exists w r1) as [[|]|e] eqn:X1; red_eff; [| |discriminate].
  - intros H. inversion H. exists r1. repeat split; auto.
  - destruct (PyStr.startswith "./" rel) eqn:Es; red_eff; [|discriminate].
    destruct (fs_resolve w (path_parent w base) (PyStr.slice_from 2 rel))
      as [r2|e] eqn:E2; red_eff; [|discriminate].
    destruct (is_relative_to r2 root) eqn:I2; red_eff; [|discriminate].
    destruct (fs_exists w r2) as [[|]|e] eqn:X2; red_eff; try discriminate.
    intros H. inversion H. exists r2. repeat split; auto.
Qed.

Lemma resolve_path_sound_witness :
  exists q,
    Examples.lib_path = str_of_path q
    /\ is_relative_to q Scenario.root = true
    /\ fs_exists Examples.stale_world q = Returned true
    /\ (first_resolution Examples.stale_world Examples.doc "./lib.ts"
        = Returned q
        \/ (PyStr.startswith "./" "./lib.ts" = true
            /\ retry_resolution Examples.stale_world Examples.doc "./lib.ts"
               = Returned q))
    /\ snd (value (resolve_path Examples.stale_world Examples.doc "./lib.ts"
                     Scenario.root)) = None
    /\ early_reject "./lib.ts" = None.
Proof.
  apply (resolve_path_sound Examples.stale_world Examples.doc "./lib.ts"
           Scenario.root Examples.lib_path).
  vm_compute; reflexivity.
Defined.

(** X7. [resolve_path] returns neither a path nor a reason only for a
    target that does not exist: the first resolution lies inside the root
    and does not exist, and for a reference that begins with [./] neither
    does the retry, which also lies inside the root. *)
Theorem resolve_path_silent_skip (w : World) (base rel : string) (root : Path) :
  value (resolve_path w base rel root) = (None, None) ->
  exists q,
    first_resolution w base rel = Returned q
    /\ is_relative_to q root = true
    /\ fs_exists w q = Returned false
    /\ (PyStr.startswith "./" rel = true ->
        exists q2,
          retry_resolution w base rel = Returned q2
          /\ is_relative_to q2 root = true
          /\ fs_exists w q2 = Returned false).
Proof.
  unfold resolve_path, first_resolution, retry_resolution.
  destruct (early_reject rel); [red_eff; discriminate|]. red_eff.
  destruct (fs_resolve w (path_parent w base) rel) as [r1|e] eqn:E1; red_eff;
    [|discriminate].
  destruct (is_relative_to r1 root) eqn:I1; red_eff; [|discriminate].
  destruct (fs_exists w r1) as [[|]|e] eqn:X1; red_eff; try discriminate.
  destruct (PyStr.startswith "./" rel) eqn:Es; red_eff.
  - destruct (fs_resolve w (path_parent w base) (PyStr.slice_from 2 rel))
      as [r2|e] eqn:E2; red_eff; [|discriminate].
    destruct (is_relative_to r2 root) eqn:I2; red_eff; [|discriminate].
    destruct (fs_exists w r2) as [[|]|e] eqn:X2; red_eff; try discriminate.
    intros _. exists r1. repeat split; auto.
    intros _. exists r2. repeat split; auto.
  - intros _. exists r1. repeat split; auto. discriminate.
Qed.

Lemma resolve_path_silent_skip_witness :
  exists q,
    first_resolution Examples.stale_world Examples.doc "gone.ts" = Returned q
    /\ is_relative_to q Scenario.root = true
    /\ fs_exists Examples.stale_world q = Returned false
    /\ (PyStr.startswith "./" "gone.ts" = true ->
        exists q2,
          retry_resolution Examples.stale_world Examples.doc "gone.ts"
          = Returned q2
          /\ is_relative_to q2 Scenario.root = true
          /\ fs_exists Examples.stale_world q2 = Returned false).
Proof.
  apply (resolve_path_silent_skip Examples.stale_world Examples.doc "gone.ts"
           Scenario.root).
  vm_compute; reflexivity.
Defined.

(** ** The listing of a directory *)

Lemma code_files_filter (entries : list DirEntry) :
  forall files,
    forallb is_file_returns entries = true ->
    value (code_files entries files)
    = OsOk (files ++ map entry_str (filter is_code_file entries))%list.
Proof.
  induction entries as [|f rest IH]; intros files Hall;
    cbn [code_files filter map forallb] in *.
  - red_eff. rewrite app_nil_r. reflexivity.
  - apply andb_true_iff in Hall. destruct Hall as [Hf Hrest].
    red_eff. unfold is_code_file, is_file_returns in *.
    destruct (entry_is_file f) as [b| |e]; try discriminate.
    destruct (b && PyStr.mem (entry_suffix f) CODE_EXTENSIONS);
      rewrite IH by exact Hrest; [rewrite <- app_assoc|]; reflexivity.
Qed.

Lemma code_files_failure (entries : list DirEntry) :
  forall files,
    forallb is_file_returns entries = false ->
    forall l, value (code_files entries files) <> OsOk l.
Proof.
  induction entries as [|f rest IH]; intros files Hall l;
    cbn [code_files forallb] in *; [discriminate|].
  red_eff. unfold is_file_returns in Hall at 1.
  destruct (entry_is_file f) as [b| |e]; red_eff; try discriminate.
  cbn [andb] in Hall.
  destruct (b && PyStr.mem (entry_suffix f) CODE_EXTENSIONS);
    apply IH; exact Hall.
Qed.

(** X8. When the directory can be listed and [is_file] returns for every
    entry, [get_code_files_in_dir] returns, in the order of the listing,
    exactly the entries that are regular files with a suffix of
    [CODE_EXTENSIONS], and no error. *)
Theorem get_code_files_in_dir_filter (w : World) (dir_path : string)
    (entries : list DirEntry) :
  fs_is_dir w dir_path = OsOk true ->
  fs_iterdir w dir_path = OsOk entries ->
  forallb is_file_returns entries = true ->
  value (get_code_files_in_dir w dir_path)
  = (map entry_str (filter is_code_file entries), None).
Proof.
  intros Hd Hl Hall. unfold get_code_files_in_dir. red_eff.
  rewrite Hd. red_eff. rewrite Hl. red_eff.
  rewrite (code_files_filter entries [] Hall). reflexivity.
Qed.

Lemma get_code_files_in_dir_filter_witness :
  let entries := [mkDirEntry "docs/a.py" (OsOk true) ".py";
                  mkDirEntry "docs/guide.md" (OsOk true) ".md";
                  mkDirEntry "docs/sub.ts" (OsOk false) ".ts";
                  mkDirEntry "docs/b.tsx" (OsOk true) ".tsx"] in
  value (get_code_files_in_dir
           (Scenario.world [] [] [] [] [("docs", entries)]) "docs")
  = (["docs/a.py"; "docs/b.tsx"], None).
Proof.
  intros entries.
  apply (get_code_files_in_dir_filter
           (Scenario.world [] [] [] [] [("docs", entries)]) "docs" entries);
    vm_compute; reflexivity.
Defined.

(** X9. When [is_file] raises for one entry of the listing, the whole
    listing is lost: [get_code_files_in_dir] returns an error and no file,
    also none of those that came before the entry. *)
Theorem get_code_files_in_dir_poisoned (w : World) (dir_path : string)
    (entries : list DirEntry) :
  fs_is_dir w dir_path = OsOk true ->
  fs_iterdir w dir_path = OsOk entries ->
  forallb is_file_returns entries = false ->
  exists e,
    value (get_code_files_in_dir w dir_path) = ([], Some e)
    /\ PyStr.truthy e = true.
Proof.
  intros Hd Hl Hall.
  pose proof (code_files_failure entries [] Hall) as Hfail.
  unfold get_code_files_in_dir. red_eff.
  rewrite Hd. red_eff. rewrite Hl. red_eff.
  destruct (value (code_files entries [])) as [l| |e]; red_eff.
  - destruct (Hfail l eq_refl).
  - eexists. split; reflexivity.
  - eexists. split; reflexivity.
Qed.

Lemma get_code_files_in_dir_poisoned_witness :
  exists e,
    value (get_code_files_in_dir
             (Scenario.world [] [] [] []
                [("docs", [mkDirEntry "docs/a.py" (OsOk true) ".py";
                           mkDirEntry "docs/locked" OsPermission ""])])
             "docs")
    = ([], Some e)
    /\ PyStr.truthy e = true.
Proof.
  apply (get_code_files_in_dir_poisoned
           (Scenario.world [] [] [] []
              [("docs", [mkDirEntry "docs/a.py" (OsOk true) ".py";
                         mkDirEntry "docs/locked" OsPermission ""])])
           "docs"
           [mkDirEntry "docs/a.py" (OsOk true) ".py";
            mkDirEntry "docs/locked" OsPermission ""]);
    vm_compute; reflexivity.
Defined.

(** ** More on the evaluator *)

(** What the loop variables say after the loop: either nothing entered the
    comparison, or [newest_file] is the first dependency with the greatest
    time. *)
Lemma newest_fold_first_maximum (w : World) (S : list string) :
  let st := fold_left (newest_step w) S (0, None, []) in
  (fst (fst st) = 0 /\ snd (fst st) = None
   /\ forall q, In q S -> compared w q = false)
  \/ (0 < fst (fst st)
      /\ exists l1 p l2,
           S = (l1 ++ p :: l2)%list
           /\ snd (fst st) = Some p
           /\ commit_time w p = Some (fst (fst st))
           /\ (forall q tq, In q l1 -> commit_time w q = Some tq ->
                            tq < fst (fst st))
           /\ (forall q tq, In q l2 -> commit_time w q = Some tq ->
                            tq <= fst (fst st))).
Proof.
  induction S as [|x S IH] using rev_ind; cbn zeta.
  - left. repeat split. intros q [].
  - rewrite fold_left_app. cbn [fold_left].
    destruct (fold_left (newest_step w) S (0, None, [])) as [[nt nf] cd].
    cbn [fst snd] in IH. unfold newest_step, compared.
    destruct (commit_time w x) as [t|] eqn:Et.
    + pose proof (commit_time_nonneg w x t Et) as Ht.
      destruct (t =? 0) eqn:E0; cbn [negb fst snd].
      * apply Z.eqb_eq in E0. subst t.
        destruct IH as [(Hnt & Hnf & Hall)|(Hpos & l1 & p & l2 & HS & Hnf & Hp & H1 & H2)].
        -- left. repeat split; try assumption.
           intros q Hq. apply in_app_or in Hq. destruct Hq as [Hq|[<-|[]]];
             [apply Hall; exact Hq|]. unfold compared. rewrite Et. reflexivity.
        -- right. split; [exact Hpos|].
           exists l1, p, (l2 ++ [x])%list. rewrite HS, <- app_assoc.
           repeat split; try assumption.
           intros q tq Hq Hc. apply in_app_or in Hq.
           destruct Hq as [Hq|[<-|[]]]; [eapply H2; eassumption|].
           rewrite Et in Hc. inversion Hc. lia.
      * apply Z.eqb_neq in E0. right.
        destruct (nt <? t) eqn:Elt.
        -- apply Z.ltb_lt in Elt. split; [lia|].
           exists S, x, []. repeat split; try assumption.
           ++ intros q tq Hq Hc.
              destruct IH as [(Hnt & Hnf & Hall)|(Hpos & l1 & p & l2 & HS & Hnf & Hp & H1 & H2)].
              ** specialize (Hall q Hq). unfold compared in Hall.
                 rewrite Hc in Hall. destruct (tq =? 0) eqn:Eq; [|discriminate].
                 apply Z.eqb_eq in Eq. lia.
              ** rewrite HS in Hq. apply in_app_or in Hq.
                 destruct Hq as [Hq|[<-|Hq]].
                 --- specialize (H1 q tq Hq Hc). lia.
                 --- rewrite Hp in Hc. inversion Hc. lia.
                 --- specialize (H2 q tq Hq Hc). lia.
           ++ intros q tq [].
        -- apply Z.ltb_ge in Elt.
           destruct IH as [(Hnt & Hnf & Hall)|(Hpos & l1 & p & l2 & HS & Hnf & Hp & H1 & H2)];
             [lia|].
           split; [exact Hpos|].
           exists l1, p, (l2 ++ [x])%list. rewrite HS, <- app_assoc.
           repeat split; try assumption.
           intros q tq Hq Hc. apply in_app_or in Hq.
           destruct Hq as [Hq|[<-|[]]]; [eapply H2; eassumption|].
           rewrite Et in Hc. inversion Hc. lia.
    + cbn [fst snd].
      destruct IH as [(Hnt & Hnf & Hall)|(Hpos & l1 & p & l2 & HS & Hnf & Hp & H1 & H2)].
      * left. repeat split; try assumption.
        intros q Hq. apply in_app_or in Hq. destruct Hq as [Hq|[<-|[]]];
          [apply Hall; exact Hq|]. unfold compared. rewrite Et. reflexivity.
      * right. split; [exact Hpos|].
        exists l1, p, (l2 ++ [x])%list. rewrite HS, <- app_assoc.
        repeat split; try assumption.
        intros q tq Hq Hc. apply in_app_or in Hq.
        destruct Hq as [Hq|[<-|[]]]; [eapply H2; eassumption|].
        rewrite Et in Hc. discriminate.
Qed.

(** X10. When the result of an evaluation names a newest dependency
    time, it names the file too: it is the first of the resolved
    dependencies, in their order, whose last-commit time is that time;
    every dependency before it is strictly older and none after it is
    newer. *)
Theorem newest_file_is_first_maximum (w : World) (doc : string) (root : Path)
    (t : Z) (src : string) (S : list string) (n : Z) :
  reaches_comparison w doc root t src S ->
  newest_code_time (value (check_staleness w doc root)) = Some n ->
  exists l1 p l2,
    S = (l1 ++ p :: l2)%list
    /\ newest_code_file (value (check_staleness w doc root)) = Some p
    /\ commit_time w p = Some n
    /\ (forall q tq, In q l1 -> commit_time w q = Some tq -> tq < n)
    /\ (forall q tq, In q l2 -> commit_time w q = Some tq -> tq <= n).
Proof.
  intros Hr. rewrite (check_staleness_compared _ _ _ _ _ _ Hr),
    compare_times_value.
  pose proof (newest_time_fold w S 0 None [] (Z.le_refl 0)) as Hfold.
  pose proof (newest_fold_first_maximum w S) as Hinv. cbn zeta in Hinv.
  rewrite Hfold in Hinv.
  destruct (fold_left Z.max (known_times w S) 0 =? 0) eqn:E0;
    cbn [newest_code_time newest_code_file]; [discriminate|].
  intros Hn. inversion Hn; subst n. apply Z.eqb_neq in E0.
  destruct Hinv as [(H0 & _)|(_ & l1 & p & l2 & H)]; [contradiction|].
  exists l1, p, l2. exact H.
Qed.

Lemma newest_file_is_first_maximum_witness :
  let w := Scenario.world
             [(Examples.doc, Scenario.printed "1000");
              ("docs/a.py", Scenario.printed "7");
              ("docs/b.py", Scenario.printed "2000");
              ("docs/c.py", Scenario.printed "2000")]
             [] [] []
             [("docs", [mkDirEntry "docs/a.py" (OsOk true) ".py";
                        mkDirEntry "docs/b.py" (OsOk true) ".py";
                        mkDirEntry "docs/c.py" (OsOk true) ".py"])] in
  newest_code_file (value (check_staleness w Examples.doc Scenario.root))
  = Some "docs/b.py".
Proof.
  intros w.
  destruct (newest_file_is_first_maximum w Examples.doc Scenario.root 1000
              "directory" ["docs/a.py"; "docs/b.py"; "docs/c.py"] 2000)
    as (l1 & p & l2 & _ & Hf & _).
  - reaches_by_evaluation (@nil string).
  - vm_compute; reflexivity.
  - vm_compute in Hf. vm_compute. exact eq_refl.
Defined.

(** X11. In every result [days_behind] is not negative and
    [hours_behind] lies between 0 and 23; in a stale result the days and
    hours account for the delta between the two times up to the last,
    incomplete hour. *)
Theorem days_and_hours_bounds (w : World) (doc : string) (root : Path) :
  let r := value (check_staleness w doc root) in
  0 <= days_behind r
  /\ 0 <= hours_behind r <= 23
  /\ (forall t n,
        stale r = true -> doc_time r = Some t ->
        newest_code_time r = Some n ->
        86400 * days_behind r + 3600 * hours_behind r <= n - t
        /\ n - t < 86400 * days_behind r + 3600 * hours_behind r + 3600).
Proof.
  intros r. subst r.
  destruct (check_staleness_exit w doc root);
    try (cbn; split; [lia|split; [lia|discriminate]]).
  rewrite compare_times_value.
  destruct (_ =? 0); [cbn; split; [lia|split; [lia|discriminate]]|].
  cbn [stale doc_time newest_code_time days_behind hours_behind].
  set (newest := fold_left Z.max (known_times w S) 0).
  destruct (t <? newest) eqn:Elt.
  - apply Z.ltb_lt in Elt.
    pose proof (Z.div_mod (newest - t) 86400 ltac:(lia)) as Hd.
    pose proof (Z.mod_pos_bound (newest - t) 86400 ltac:(lia)) as Hm.
    pose proof (Z.div_pos (newest - t) 86400 ltac:(lia) ltac:(lia)) as Hq.
    set (d := (newest - t) / 86400) in *.
    set (m := (newest - t) mod 86400) in *.
    pose proof (Z.div_mod m 3600 ltac:(lia)) as Hd2.
    pose proof (Z.mod_pos_bound m 3600 ltac:(lia)) as Hm2.
    pose proof (Z.div_pos m 3600 ltac:(lia) ltac:(lia)) as Hq2.
    assert (Hh : m / 3600 <= 23)
      by (apply Z.lt_succ_r; apply Z.div_lt_upper_bound; lia).
    split; [exact Hq|]. split; [lia|].
    intros t' n' _ Ht Hn. inversion Ht. inversion Hn. subst t' n'. lia.
  - split; [cbn; lia|]. split; [cbn; lia|]. discriminate.
Qed.

Lemma days_and_hours_bounds_witness :
  let r := value (check_staleness Examples.stale_world Examples.doc
                    Scenario.root) in
  86400 * days_behind r + 3600 * hours_behind r <= 1000000 - 1000
  /\ 1000000 - 1000 < 86400 * days_behind r + 3600 * hours_behind r + 3600.
Proof.
  apply (days_and_hours_bounds Examples.stale_world Examples.doc Scenario.root);
    vm_compute; reflexivity.
Defined.

(** X12. The [doc_time] of every result is the last-commit time
    [get_last_commit_time] reports for the document: present in every
    result returned after that query succeeded, also in those that carry
    an error of a later step, and absent otherwise. *)
Theorem doc_time_is_commit_time (w : World) (doc : string) (root : Path) :
  doc_time (value (check_staleness w doc root)) = commit_time w doc.
Proof.
  unfold commit_time.
  destruct (check_staleness_exit w doc root) as
    [e Hg He|Hg|t e Hg Hp He|t deps e Hg Hp Hv He|t deps Hg Hp Hv|t src S Hr];
    try (rewrite Hg; reflexivity).
  destruct Hr as (Hg & _). rewrite Hg, compare_times_value.
  destruct (_ =? 0); reflexivity.
Qed.

(** X13. A result is of exactly one of three kinds: it carries an error
    (and neither a reason nor a newest time); or it carries one of the two
    reasons [No dependencies found] and [Dependencies not tracked by git]
    (and neither an error nor a newest time); or it carries the newest
    dependency time and the file that has it (and neither an error nor a
    reason).  Only a result of the third kind can be stale. *)
Theorem result_kinds (w : World) (doc : string) (root : Path) :
  let r := value (check_staleness w doc root) in
  (exists e, error r = Some e /\ PyStr.truthy e = true
             /\ reason r = None /\ newest_code_time r = None
             /\ newest_code_file r = None /\ stale r = false)
  \/ (error r = None
      /\ (reason r = Some "No dependencies found"
          \/ reason r = Some "Dependencies not tracked by git")
      /\ newest_code_time r = None /\ newest_code_file r = None
      /\ stale r = false)
  \/ (error r = None /\ reason r = None
      /\ exists n f, newest_code_time r = Some n /\ 0 < n
                     /\ newest_code_file r = Some f).
Proof.
  intros r. subst r.
  destruct (check_staleness_exit w doc root) as
    [e Hg He|Hg|t e Hg Hp He|t deps e Hg Hp Hv He|t deps Hg Hp Hv|t src S Hr];
    try (left; eexists; repeat split; solve [reflexivity|eassumption]).
  - right; left. repeat split. left; reflexivity.
  - rewrite compare_times_value.
    pose proof (newest_time_fold w S 0 None [] (Z.le_refl 0)) as Hfold.
    pose proof (newest_fold_first_maximum w S) as Hinv. cbn zeta in Hinv.
    rewrite Hfold in Hinv.
    destruct (fold_left Z.max (known_times w S) 0 =? 0) eqn:E0.
    + right; left. repeat split. right; reflexivity.
    + right; right. apply Z.eqb_neq in E0. repeat split.
      destruct Hinv as [(H0 & _)|(Hpos & l1 & p & l2 & _ & Hf & _)];
        [contradiction|].
      cbn [newest_code_time newest_code_file]. eauto.
Qed.

Lemma resolve_deps_flat_map (w : World) (doc : string) (root : Path)
    (deps : list string) :
  forall acc,
    value (resolve_deps w doc root deps acc)
    = (acc ++ flat_map (resolved_path w doc root) deps)%list.
Proof.
  induction deps as [|dep rest IH]; intros acc; cbn [resolve_deps flat_map].
  - red_eff. symmetry. apply app_nil_r.
  - red_eff. unfold resolved_path at 1.
    pose proof (resolve_path_truthy w doc dep root) as Ht.
    destruct (value (resolve_path w doc dep root)) as [[p|] skip];
      cbn [fst] in *.
    + rewrite (Ht p eq_refl), IH, <- app_assoc. reflexivity.
    + rewrite IH. reflexivity.
Qed.

Lemma reaches_comparison_functional (w : World) (doc : string) (root : Path)
    (t t' : Z) (src src' : string) (S S' : list string) :
  reaches_comparison w doc root t src S ->
  reaches_comparison w doc root t' src' S' ->
  t = t' /\ src = src' /\ S = S'.
Proof.
  intros (Hg & deps & Hp & Hv & _) (Hg' & deps' & Hp' & Hv' & _).
  rewrite Hg in Hg'. inversion Hg'. rewrite Hp in Hp'. inversion Hp'. subst.
  rewrite Hv in Hv'. inversion Hv'. auto.
Qed.

(** X14. When the detection source is [explicit], the dependencies whose
    times are compared are the paths [resolve_path] returned for the
    declared references, in the order of the declarations; each of them
    lies inside the project root and exists. *)
Theorem explicit_dependencies_inside_root (w : World) (doc : string)
    (root : Path) (t : Z) (S deps : list string) :
  reaches_comparison w doc root t "explicit" S ->
  value (parse_depends w doc) = (deps, None) ->
  S = flat_map (resolved_path w doc root) deps
  /\ forall p, In p S ->
       exists q, p = str_of_path q /\ is_relative_to q root = true
                 /\ fs_exists w q = Returned true.
Proof.
  intros (Hg & deps' & Hp & Hv & HS) Hp'.
  rewrite Hp in Hp'. inversion Hp'. subst deps'.
  assert (HSeq : S = flat_map (resolved_path w doc root) deps).
  { destruct (gather_deps_cases w doc root deps)
      as [(_ & Hv' & _)|(_ & Hv' & _)]; rewrite Hv' in Hv.
    - inversion Hv. apply (resolve_deps_flat_map w doc root deps []).
    - inversion Hv. }
  split; [exact HSeq|].
  intros p Hin. rewrite HSeq in Hin. apply in_flat_map in Hin.
  destruct Hin as (dep & _ & Hin). unfold resolved_path in Hin.
  destruct (fst (value (resolve_path w doc dep root))) as [p'|] eqn:E;
    [|destruct Hin].
  destruct Hin as [<-|[]].
  exact (resolve_path_returns_inside w doc dep root p' E).
Qed.

Lemma explicit_dependencies_inside_root_witness :
  [Examples.lib_path]
  = flat_map (resolved_path Examples.stale_world Examples.doc Scenario.root)
      ["./lib.ts"]
  /\ forall p, In p [Examples.lib_path] ->
       exists q, p = str_of_path q /\ is_relative_to q Scenario.root = true
                 /\ fs_exists Examples.stale_world q = Returned true.
Proof.
  apply (explicit_dependencies_inside_root Examples.stale_world Examples.doc
           Scenario.root 1000 [Examples.lib_path] ["./lib.ts"]).
  - exact stale_world_reaches.
  - vm_compute; reflexivity.
Defined.

(** ** The git commands of an evaluation *)

Lemma git_calls_app (l1 l2 : list Event) :
  git_calls (l1 ++ l2) = (git_calls l1 ++ git_calls l2)%list.
Proof. apply flat_map_app. Qed.

Lemma get_last_commit_time_git_calls (w : World) (p : string) :
  git_calls (trace (get_last_commit_time w p)) = [git_log_args p].
Proof.
  unfold get_last_commit_time, run_git, git_log_args. red_eff.
  destruct (subprocess_git w _) as [rc out err| | |]; red_eff;
    repeat match goal with
           | |- context [if ?b then _ else _] => destruct b; red_eff
           end; reflexivity.
Qed.

Lemma parse_depends_git_calls (w : World) (doc : string) :
  git_calls (trace (parse_depends w doc)) = [].
Proof.
  unfold parse_depends, parse_depends_from_md, parse_depends_from_code.
  destruct (PyStr.endswith ".md" doc); red_eff;
    destruct (read_text w doc); red_eff; try reflexivity.
  destruct (re_depends_tag w content); reflexivity.
Qed.

Lemma resolve_path_git_calls (w : World) (base rel : string) (root : Path) :
  git_calls (trace (resolve_path w base rel root)) = [].
Proof.
  unfold resolve_path, git_calls.
  repeat first
    [ progress red_eff
    | reflexivity
    | match goal with
      | |- context [match ?x with _ => _ end] => destruct x
      end ].
Qed.

Lemma resolve_deps_git_calls (w : World) (doc : string) (root : Path)
    (deps : list string) :
  forall acc, git_calls (trace (resolve_deps w doc root deps acc)) = [].
Proof.
  induction deps as [|dep rest IH]; intros acc; [reflexivity|].
  cbn [resolve_deps]. eff. rewrite git_calls_app, resolve_path_git_calls.
  destruct (value (resolve_path w doc dep root)) as [[p|] skip]; cbn [app];
    [destruct (PyStr.truthy p)|]; apply IH.
Qed.

Lemma code_files_git_calls (entries : list DirEntry) :
  forall files, git_calls (trace (code_files entries files)) = [].
Proof.
  induction entries as [|f rest IH]; intros files; [reflexivity|].
  cbn [code_files]. eff. rewrite git_calls_app. cbn [git_calls flat_map app].
  destruct (entry_is_file f) as [b| |e]; try reflexivity.
  destruct (b && PyStr.mem (entry_suffix f) CODE_EXTENSIONS); apply IH.
Qed.

Lemma get_code_files_in_dir_git_calls (w : World) (dir_path : string) :
  git_calls (trace (get_code_files_in_dir w dir_path)) = [].
Proof.
  unfold get_code_files_in_dir. eff. rewrite git_calls_app.
  cbn [git_calls flat_map app].
  destruct (fs_is_dir w dir_path) as [[|]| |e]; try reflexivity.
  eff. rewrite git_calls_app. cbn [git_calls flat_map app].
  destruct (fs_iterdir w dir_path) as [entries| |e]; try reflexivity.
  eff. rewrite git_calls_app.
  fold (git_calls (trace (code_files entries []))).
  rewrite code_files_git_calls.
  destruct (value (code_files entries [])); reflexivity.
Qed.

Lemma gather_deps_git_calls (w : World) (doc : string) (root : Path)
    (deps : list string) :
  git_calls (trace (gather_deps w doc root deps)) = [].
Proof.
  unfold gather_deps. eff. rewrite git_calls_app, resolve_deps_git_calls.
  destruct (value (resolve_deps w doc root deps [])); cbn [is_empty app].
  - eff. rewrite git_calls_app, get_code_files_in_dir_git_calls.
    destruct (value (get_code_files_in_dir w (path_parent w doc))).
    reflexivity.
  - reflexivity.
Qed.

Lemma newest_dependency_git_calls (w : World) (S : list string) :
  forall st,
    git_calls (trace (newest_dependency w S st)) = map git_log_args S.
Proof.
  induction S as [|p rest IH]; intros [[nt nf] cd]; [reflexivity|].
  cbn [newest_dependency map]. eff.
  rewrite git_calls_app, get_last_commit_time_git_calls. cbn [app]. f_equal.
  destruct (value (get_last_commit_time w p)) as [[t|] e];
    [destruct (negb (t =? 0)); [destruct (nt <? t)|]|]; apply IH.
Qed.

Lemma compare_times_git_calls (w : World) (t : Z) (src : string)
    (S : list string) :
  git_calls (trace (compare_times w t src S)) = map git_log_args S.
Proof.
  unfold compare_times. eff.
  rewrite git_calls_app, newest_dependency_git_calls.
  destruct (value (newest_dependency w S _)) as [[nt nf] cd].
  destruct (nt =? 0); apply app_nil_r.
Qed.

(** The git commands of an evaluation: the query for the document, then,
    if the timestamp pass is reached, one query for each dependency. *)
Lemma check_staleness_git_calls (w : World) (doc : string) (root : Path) :
  exists rest,
    git_calls (trace (check_staleness w doc root)) = git_log_args doc :: rest
    /\ ((rest = [] /\ forall t src S, ~ reaches_comparison w doc root t src S)
        \/ exists t src S,
             reaches_comparison w doc root t src S
             /\ rest = map git_log_args S).
Proof.
  unfold check_staleness. eff.
  rewrite git_calls_app, get_last_commit_time_git_calls. cbn [app].
  eexists. split; [reflexivity|].
  destruct (get_last_commit_time_cases w doc)
    as [(e & Hg & He)|[Hg|(t & Hg & Ht)]]; rewrite Hg; cbn [PyStr.truthy_opt].
  - rewrite He. left. split; [reflexivity|].
    intros t src S (Hg' & _). congruence.
  - left. split; [reflexivity|]. intros t src S (Hg' & _). congruence.
  - eff. rewrite git_calls_app, parse_depends_git_calls. cbn [app].
    destruct (parse_depends_cases w doc) as [(deps & Hp)|(e & Hp & He)];
      rewrite Hp; cbn [PyStr.truthy_opt].
    + eff. rewrite git_calls_app, gather_deps_git_calls. cbn [app].
      destruct (value (gather_deps w doc root deps)) as [[S src] err] eqn:Hv.
      assert (Hcases : (exists e, err = Some e /\ PyStr.truthy e = true)
                       \/ err = None).
      { destruct (gather_deps_cases w doc root deps)
          as [(_ & Hv' & _)|(_ & Hv' & _)]; rewrite Hv' in Hv.
        - inversion Hv. auto.
        - destruct (get_code_files_in_dir_cases w (path_parent w doc))
            as [(files & Hf)|(e & Hf & He)]; rewrite Hf in Hv;
            inversion Hv; eauto. }
      destruct Hcases as [(e & -> & He)| ->]; cbn [PyStr.truthy_opt].
      * rewrite He. left. split; [reflexivity|].
        intros t' src' S' (_ & deps' & Hp' & Hv' & _).
        rewrite Hp in Hp'. inversion Hp'. subst deps'.
        rewrite Hv in Hv'. inversion Hv'.
      * destruct S as [|p S]; cbn [is_empty].
        -- left. split; [reflexivity|].
           intros t' src' S' (_ & deps' & Hp' & Hv' & HS').
           rewrite Hp in Hp'. inversion Hp'. subst deps'.
           rewrite Hv in Hv'. inversion Hv'. subst. congruence.
        -- right. exists t, src, (p :: S). split.
           ++ split; [exact Hg|]. exists deps.
              repeat split; [exact Hp|exact Hv|discriminate].
           ++ apply compare_times_git_calls.
    + rewrite He. left. split; [reflexivity|].
      intros t' src' S' (_ & deps' & Hp' & _). congruence.
Qed.

(** X15. An evaluation runs git once for the document and then, if it
    reaches the timestamp pass, once for each resolved dependency, in
    their order, and never otherwise: a dependency is never queried before
    the document, nor when the evaluation returns early. *)
Theorem git_is_asked_once_per_file (w : World) (doc : string) (root : Path) :
  (forall t src S,
     reaches_comparison w doc root t src S ->
     git_calls (trace (check_staleness w doc root))
     = git_log_args doc :: map git_log_args S)
  /\ ((forall t src S, ~ reaches_comparison w doc root t src S) ->
      git_calls (trace (check_staleness w doc root)) = [git_log_args doc]).
Proof.
  destruct (check_staleness_git_calls w doc root)
    as (rest & Hcalls & [(-> & Hnot)|(t & src & S & Hr & ->)]); split.
  - intros t src S Hr. destruct (Hnot t src S Hr).
  - intros _. exact Hcalls.
  - intros t' src' S' Hr'.
    destruct (reaches_comparison_functional _ _ _ _ _ _ _ _ _ Hr Hr')
      as (_ & _ & <-). exact Hcalls.
  - intros Hnot. destruct (Hnot t src S Hr).
Qed.

Lemma git_is_asked_once_per_file_witness :
  git_calls (trace (check_staleness Examples.stale_world Examples.doc
                      Scenario.root))
  = [git_log_args Examples.doc; git_log_args Examples.lib_path].
Proof.
  apply (proj1 (git_is_asked_once_per_file Examples.stale_world Examples.doc
                  Scenario.root) 1000 "explicit" [Examples.lib_path]).
  exact stale_world_reaches.
Defined.

(** ** The project root *)

Lemma is_relative_to_prefix (p root : Path) :
  is_relative_to p root = true <-> exists rest, p = (root ++ rest)%list.
Proof.
  revert p. induction root as [|r root IH]; intros p.
  - split; [intros _; exists p; reflexivity|destruct p; reflexivity].
  - destruct p as [|c p]; cbn [is_relative_to].
    + split; [discriminate|intros (rest & H); discriminate].
    + rewrite andb_true_iff, String.eqb_eq, IH. split.
      * intros (-> & rest & ->). exists rest. reflexivity.
      * intros (rest & H). inversion H. split; [reflexivity|eauto].
Qed.

Lemma prefix_is_firstn (cwd q : Path) :
  is_relative_to cwd q = true ->
  q = firstn (List.length q) cwd /\ (List.length q <= List.length cwd)%nat.
Proof.
  intros H. apply is_relative_to_prefix in H. destruct H as (rest & ->).
  rewrite firstn_app, Nat.sub_diag, firstn_all, length_app. cbn [firstn].
  rewrite app_nil_r. split; [reflexivity|lia].
Qed.

Lemma find_git_root_from (w : World) (cwd : Path) (r : Path) :
  forall n,
    (n <= List.length cwd)%nat ->
    value (find_git_root w (ancestors_from n cwd) cwd) = Returned r ->
    (exists k,
       (k <= n)%nat /\ r = firstn k cwd
       /\ fs_exists w (r ++ [".git"])%list = Returned true
       /\ forall j, (k < j <= n)%nat ->
                    fs_exists w (firstn j cwd ++ [".git"])%list = Returned false)
    \/ (r = cwd
        /\ forall j, (j <= n)%nat ->
                     fs_exists w (firstn j cwd ++ [".git"])%list = Returned false).
Proof.
  induction n as [|n IH]; intros Hn; cbn [ancestors_from find_git_root];
    red_eff;
    destruct (fs_exists w (firstn _ cwd ++ [".git"])%list) as [[|]|e] eqn:Ex;
    red_eff; try discriminate.
  - intros H. inversion H. left. exists 0%nat.
    repeat split; [lia|exact Ex|intros j Hj; lia].
  - intros H. inversion H. right. split; [reflexivity|].
    intros j Hj. assert (j = 0%nat) by lia. subst j. exact Ex.
  - intros H. inversion H. left. exists (Datatypes.S n).
    repeat split; [lia|exact Ex|intros j Hj; lia].
  - intros H. destruct (IH ltac:(lia) H) as [(k & Hk & Hr & Hg & Hj)|(Hr & Hj)].
    + left. exists k. repeat split; [lia|exact Hr|exact Hg|].
      intros j Hjn. destruct (Nat.eq_dec j (Datatypes.S n)) as [->|Hne];
        [exact Ex|apply Hj; lia].
    + right. split; [exact Hr|]. intros j Hjn.
      destruct (Nat.eq_dec j (Datatypes.S n)) as [->|Hne];
        [exact Ex|apply Hj; lia].
Qed.

(** X16. The directory [get_project_root] returns is the current
    directory or one above it; no directory strictly between it and the
    current one, nor the current one if it is another, holds a [.git]; and
    it holds a [.git] itself, unless no directory from the current one up
    does, in which case it is the current directory. *)
Theorem get_project_root_nearest (w : World) (cwd r : Path) :
  value (get_project_root w cwd) = Returned r ->
  is_relative_to cwd r = true
  /\ (forall q, is_relative_to cwd q = true -> is_relative_to q r = true ->
                q <> r ->
                fs_exists w (q ++ [".git"])%list = Returned false)
  /\ (fs_exists w (r ++ [".git"])%list = Returned true
      \/ (r = cwd
          /\ forall q, is_relative_to cwd q = true ->
                       fs_exists w (q ++ [".git"])%list = Returned false)).
Proof.
  unfold get_project_root, ancestors. intros H.
  destruct (find_git_root_from w cwd r _ (Nat.le_refl _) H)
    as [(k & Hk & Hr & Hg & Hj)|(Hr & Hj)].
  - assert (Hlen : List.length r = k)
      by (rewrite Hr; apply firstn_length_le; exact Hk).
    split; [|split].
    + apply is_relative_to_prefix. exists (skipn k cwd).
      rewrite Hr. symmetry. apply firstn_skipn.
    + intros q Hq Hqr Hne.
      destruct (prefix_is_firstn cwd q Hq) as [Hqf Hql].
      rewrite Hqf. apply Hj. split; [|exact Hql].
      apply is_relative_to_prefix in Hqr. destruct Hqr as (rest & Hrest).
      destruct rest as [|x rest];
        [rewrite app_nil_r in Hrest; contradiction|].
      rewrite Hrest, length_app, Hlen. cbn [List.length]. lia.
    + left. exact Hg.
  - subst r. split; [|split].
    + apply is_relative_to_prefix. exists []. symmetry. apply app_nil_r.
    + intros q Hq _ _. destruct (prefix_is_firstn cwd q Hq) as [Hqf Hql].
      rewrite Hqf. apply Hj. exact Hql.
    + right. split; [reflexivity|]. intros q Hq.
      destruct (prefix_is_firstn cwd q Hq) as [Hqf Hql].
      rewrite Hqf. apply Hj. exact Hql.
Qed.

Lemma get_project_root_nearest_witness :
  let w := ShellExamples.with_git Examples.stale_world in
  is_relative_to ["proj"; "docs"; "deep"] ["proj"] = true
  /\ (forall q, is_relative_to ["proj"; "docs"; "deep"] q = true ->
                is_relative_to q ["proj"] = true -> q <> ["proj"] ->
                fs_exists w (q ++ [".git"])%list = Returned false)
  /\ (fs_exists w (["proj"] ++ [".git"])%list = Returned true
      \/ (["proj"] = ["proj"; "docs"; "deep"]
          /\ forall q, is_relative_to ["proj"; "docs"; "deep"] q = true ->
                       fs_exists w (q ++ [".git"])%list = Returned false)).
Proof.
  intros w.
  apply (get_project_root_nearest w ["proj"; "docs"; "deep"] ["proj"]).
  vm_compute; reflexivity.
Defined.

(** ** The report of [validate] *)

Lemma ended_then {A B : Type} (m : Out A) (k : A -> Out B) :
  ended (then_ m k)
  = match ended m with
    | Done a => ended (k a)
    | Uncaught exn => Uncaught exn
    end.
Proof.
  unfold then_, ended. destruct m as [[a|exn] l]; cbn [fst snd];
    [destruct (k a)|]; reflexivity.
Qed.

Ltac run_out :=
  repeat (rewrite ?ended_then;
          cbn [ended print done raise fst format_time_opt name_opt unguarded]).

(** A stale result has everything the report prints, and an error is
    never the empty string. *)
Lemma stale_result_complete (w : World) (doc : string) (root : Path) :
  let r := value (check_staleness w doc root) in
  (stale r = true ->
   error r = None
   /\ exists t n f, doc_time r = Some t /\ newest_code_time r = Some n
                    /\ newest_code_file r = Some f)
  /\ (forall e, error r = Some e -> PyStr.truthy e = true).
Proof.
  intros r. subst r.
  destruct (check_staleness_exit w doc root) as
    [e Hg He|Hg|t e Hg Hp He|t deps e Hg Hp Hv He|t deps Hg Hp Hv|t src S Hr];
    cbn [early_result stale error].
  1, 3, 4: split; [discriminate|intros e' H; inversion H; subst; exact He].
  1: split; [discriminate|intros e' H; inversion H; reflexivity].
  1: split; discriminate.
  rewrite compare_times_value.
  pose proof (newest_time_fold w S 0 None [] (Z.le_refl 0)) as Hfold.
  pose proof (newest_fold_first_maximum w S) as Hinv. cbn zeta in Hinv.
  rewrite Hfold in Hinv.
  destruct (fold_left Z.max (known_times w S) 0 =? 0) eqn:E0;
    [split; discriminate|].
  apply Z.eqb_neq in E0. split; [|discriminate].
  intros _. split; [reflexivity|].
  destruct Hinv as [(H0 & _)|(_ & l1 & p & l2 & _ & Hf & _)]; [contradiction|].
  cbn [doc_time newest_code_time newest_code_file].
  exists t, (fold_left Z.max (known_times w S) 0), p.
  repeat split. exact Hf.
Qed.

Lemma error_truthy_iff (w : World) (doc : string) (root : Path) :
  PyStr.truthy_opt (error (value (check_staleness w doc root))) = false
  <-> error (value (check_staleness w doc root)) = None.
Proof.
  destruct (stale_result_complete w doc root) as [_ He].
  destruct (error (value (check_staleness w doc root))) as [e|];
    cbn [PyStr.truthy_opt].
  - rewrite (He e eq_refl). split; discriminate.
  - split; reflexivity.
Qed.

Lemma filter_count_zero {A : Type} (f : A -> bool) (l : list A) :
  len_list (filter f l) = 0 <-> forall x, In x l -> f x = false.
Proof.
  unfold len_list. induction l as [|a l IH]; cbn [filter].
  - split; [intros _ x []|reflexivity].
  - destruct (f a) eqn:Ea.
    + split; [cbn [List.length]; lia|].
      intros H. specialize (H a (or_introl eq_refl)). congruence.
    + rewrite IH. split.
      * intros H x [<-|Hx]; [exact Ea|apply H; exact Hx].
      * intros H x Hx. apply H. right. exact Hx.
Qed.

Lemma filter_count_nonneg {A : Type} (f : A -> bool) (l : list A) :
  0 <= len_list (filter f l).
Proof. unfold len_list. lia. Qed.

Lemma doc_is_stale_iff (sh : Shell) (root : Path) (d : string) :
  doc_is_stale sh root d = true <-> stale (doc_result sh root d) = true.
Proof.
  unfold doc_is_stale, doc_has_error, doc_result.
  destruct (stale_result_complete (sh_world sh) d root) as [Hst _].
  split.
  - intros H. apply andb_true_iff in H. apply H.
  - intros H. destruct (Hst H) as [He _]. rewrite He, H. reflexivity.
Qed.

Lemma doc_has_error_iff (sh : Shell) (root : Path) (d : string) :
  doc_has_error sh root d = false <-> error (doc_result sh root d) = None.
Proof. apply error_truthy_iff. Qed.

(** The exit code of [validate] for one document. *)
Lemma cmd_validate_file_ended (sh : Shell) (path : string) (root : Path)
    (b : bool) :
  value (get_project_root (sh_world sh) (sh_cwd sh)) = Returned root ->
  sh_is_file sh path = OsOk b ->
  ended (cmd_validate sh path false)
  = Done (if negb b then 2
          else if doc_has_error sh root path then 2
          else if stale (doc_result sh root path) then 1 else 0).
Proof.
  intros Hroot Hfile.
  pose proof (stale_result_complete (sh_world sh) path root) as [Hst _].
  unfold cmd_validate, cmd_validate_file, project_root_of.
  rewrite Hroot. run_out. rewrite Hfile. run_out.
  unfold doc_has_error, doc_result.
  set (r := value (check_staleness (sh_world sh) path root)) in *.
  destruct b; cbn [negb]; [|run_out; reflexivity].
  destruct (PyStr.truthy_opt (error r)); [run_out; reflexivity|].
  destruct (stale r) eqn:Es.
  - destruct (Hst eq_refl) as (_ & t & n & f & Ht & Hn & Hf).
    rewrite Ht, Hn. run_out. reflexivity.
  - run_out. destruct (truthy_time (doc_time r)) eqn:Ed.
    + destruct (doc_time r); [|discriminate]. run_out.
      destruct (PyStr.truthy_opt (reason r)); run_out; reflexivity.
    + run_out. destruct (PyStr.truthy_opt (reason r)); run_out; reflexivity.
Qed.



(** The loop over the documents never fails, and it counts. *)
Lemma validate_docs_counts (sh : Shell) (root : Path) (docs : list string) :
  forall stale_count error_count,
    ended (validate_docs sh root docs (stale_count, error_count))
    = Done (stale_count + len_list (filter (doc_is_stale sh root) docs),
            error_count + len_list (filter (doc_has_error sh root) docs)).
Proof.
  induction docs as [|d rest IH]; intros sc ec;
    cbn [validate_docs filter].
  - cbn. rewrite !Z.add_0_r. reflexivity.
  - pose proof (stale_result_complete (sh_world sh) d root) as [Hst _].
    unfold doc_is_stale at 1, doc_has_error at 1 2, doc_result at 1 2 3.
    destruct (PyStr.truthy_opt (error (value (check_staleness _ d root))));
      cbn [negb andb].
    + run_out. rewrite IH. unfold len_list. cbn [List.length].
      f_equal. f_equal. lia.
    + destruct (stale (value (check_staleness (sh_world sh) d root))) eqn:Es.
      * destruct (Hst eq_refl) as (_ & t & n & f & Ht & Hn & Hf).
        rewrite Ht, Hn, Hf. run_out. rewrite IH.
        unfold len_list. cbn [List.length]. f_equal. f_equal. lia.
      * apply IH.
Qed.

(** The exit code of [validate --dir], from the two counts. *)
Lemma cmd_validate_dir_ended (sh : Shell) (path : string) (root : Path)
    (listing : list string) :
  value (get_project_root (sh_world sh) (sh_cwd sh)) = Returned root ->
  fs_is_dir (sh_world sh) path = OsOk true ->
  sh_rglob_md sh path = OsOk listing ->
  let docs := without_node_modules listing in
  let ns := len_list (filter (doc_is_stale sh root) docs) in
  let ne := len_list (filter (doc_has_error sh root) docs) in
  ended (cmd_validate sh path true)
  = Done (if (ns =? 0) && (ne =? 0) then 0
          else if 0 <? ns then 1 else 2).
Proof.
  intros Hroot Hdir Hlist docs ns ne.
  unfold cmd_validate, cmd_validate_dir, project_root_of.
  rewrite Hroot. run_out. rewrite Hdir. run_out. cbn [negb].
  rewrite Hlist. fold docs.
  destruct (is_empty docs) eqn:Eempty.
  - assert (Edocs : docs = []) by (destruct docs; [reflexivity|discriminate]).
    subst ns ne. rewrite Edocs. run_out. reflexivity.
  - run_out. rewrite (validate_docs_counts sh root docs 0 0). cbn [Z.add].
    fold ns. fold ne.
    destruct (0 <? ne); run_out;
      destruct ((ns =? 0) && (ne =? 0));
      [|destruct (0 <? ns)| |destruct (0 <? ns)]; run_out; reflexivity.
Qed.

Lemma stale_count_zero (sh : Shell) (root : Path) (docs : list string) :
  len_list (filter (doc_is_stale sh root) docs) = 0
  <-> forall d, In d docs -> stale (doc_result sh root d) = false.
Proof.
  rewrite filter_count_zero. split; intros H d Hd.
  - destruct (stale (doc_result sh root d)) eqn:Es; [|reflexivity].
    apply doc_is_stale_iff in Es. rewrite (H d Hd) in Es. discriminate.
  - destruct (doc_is_stale sh root d) eqn:Es; [|reflexivity].
    apply doc_is_stale_iff in Es. rewrite (H d Hd) in Es. discriminate.
Qed.

Lemma stale_count_positive (sh : Shell) (root : Path) (docs : list string) :
  len_list (filter (doc_is_stale sh root) docs) <> 0
  <-> exists d, In d docs /\ stale (doc_result sh root d) = true.
Proof.
  rewrite stale_count_zero. split.
  - intros H. destruct (existsb (fun d => stale (doc_result sh root d)) docs)
      eqn:Ee.
    + apply existsb_exists in Ee. exact Ee.
    + exfalso. apply H. intros d Hd.
      destruct (stale (doc_result sh root d)) eqn:Es; [|reflexivity].
      assert (Ht : existsb (fun d => stale (doc_result sh root d)) docs = true)
        by (apply existsb_exists; eauto).
      congruence.
  - intros (d & Hd & Hs) H. rewrite (H d Hd) in Hs. discriminate.
Qed.

Lemma error_count_zero (sh : Shell) (root : Path) (docs : list string) :
  len_list (filter (doc_has_error sh root) docs) = 0
  <-> forall d, In d docs -> error (doc_result sh root d) = None.
Proof.
  rewrite filter_count_zero.
  split; intros H d Hd; apply doc_has_error_iff, H, Hd.
Qed.

Lemma error_count_positive (sh : Shell) (root : Path) (docs : list string) :
  len_list (filter (doc_has_error sh root) docs) <> 0
  <-> exists d, In d docs /\ error (doc_result sh root d) <> None.
Proof.
  rewrite error_count_zero. split.
  - intros H. destruct (existsb (doc_has_error sh root) docs) eqn:Ee.
    + apply existsb_exists in Ee. destruct Ee as (d & Hd & He).
      exists d. split; [exact Hd|]. intros Hn.
      apply doc_has_error_iff in Hn. congruence.
    + exfalso. apply H. intros d Hd. apply doc_has_error_iff.
      destruct (doc_has_error sh root d) eqn:Es; [|reflexivity].
      assert (Ht : existsb (doc_has_error sh root) docs = true)
        by (apply existsb_exists; eauto).
      congruence.
  - intros (d & Hd & He) H. apply He, H, Hd.
Qed.



(** ** The label of a stale document *)

(** X19. The time [validate] and [retrieve] show for a stale document,
    [format_time_behind] of the days and hours of its result, is [<1h]
    when the newest dependency is less than an hour newer than the
    document, the whole hours when it is less than a day newer, and the
    whole days (without the hours) from one day on. *)
Theorem stale_label (w : World) (doc : string) (root : Path) (t n : Z) :
  let r := value (check_staleness w doc root) in
  stale r = true ->
  doc_time r = Some t ->
  newest_code_time r = Some n ->
  let label := format_time_behind (days_behind r) (hours_behind r) in
  (n - t < 3600 -> label = "<1h")
  /\ (3600 <= n - t < 86400 ->
      label = PyStr.str_of_int ((n - t) / 3600) ++ "h")
  /\ (86400 <= n - t ->
      label = PyStr.str_of_int ((n - t) / 86400) ++ "d").
Proof.
  intros r. subst r.
  destruct (check_staleness_exit w doc root) as
    [e Hg He|Hg|t0 e Hg Hp He|t0 deps e Hg Hp Hv He|t0 deps Hg Hp Hv|t0 src S Hr];
    try discriminate.
  rewrite compare_times_value.
  destruct (_ =? 0); [discriminate|].
  cbn [stale doc_time newest_code_time days_behind hours_behind].
  intros Hs Ht Hn. inversion Ht. inversion Hn. subst t0. rewrite H1 in *.
  rewrite Hs. apply Z.ltb_lt in Hs.
  unfold format_time_behind. cbn zeta.
  split; [|split]; intros Hd.
  - rewrite (Z.div_small (n - t) 86400) by lia.
    rewrite (Z.mod_small (n - t) 86400) by lia.
    rewrite (Z.div_small (n - t) 3600) by lia. reflexivity.
  - rewrite (Z.div_small (n - t) 86400) by lia.
    rewrite (Z.mod_small (n - t) 86400) by lia.
    assert (Hh : 0 < (n - t) / 3600) by (apply Z.div_str_pos; lia).
    apply Z.ltb_lt in Hh. rewrite Hh. reflexivity.
  - assert (Hh : 0 < (n - t) / 86400) by (apply Z.div_str_pos; lia).
    apply Z.ltb_lt in Hh. rewrite Hh. reflexivity.
Qed.

Lemma stale_label_witness :
  let r := value (check_staleness Examples.stale_world Examples.doc
                    Scenario.root) in
  format_time_behind (days_behind r) (hours_behind r) = "11d".
Proof.
  intros r.
  assert (Hs : stale r = true) by (vm_compute; reflexivity).
  assert (Ht : doc_time r = Some 1000) by (vm_compute; reflexivity).
  assert (Hn : newest_code_time r = Some 1000000) by (vm_compute; reflexivity).
  destruct (stale_label Examples.stale_world Examples.doc Scenario.root
              1000 1000000 Hs Ht Hn) as (_ & _ & H).
  subst r. rewrite H by lia. vm_compute; reflexivity.
Defined.

(** ** Decimal numerals *)

Lemma int_from_app (s1 s2 : string) :
  forall acc,
    PyStr.int_from acc (s1 ++ s2) = PyStr.int_from (PyStr.int_from acc s1) s2.
Proof.
  induction s1 as [|c s1 IH]; intros acc; cbn [append PyStr.int_from];
    [reflexivity|apply IH].
Qed.

Lemma str_pos_acc (fuel : nat) :
  forall n acc,
    PyStr.str_pos fuel n acc = PyStr.str_pos fuel n "" ++ acc.
Proof.
  induction fuel as [|fuel IH]; intros n acc; cbn [PyStr.str_pos];
    [reflexivity|].
  cbv zeta. destruct (n / 10 =? 0); [reflexivity|].
  rewrite (IH (n / 10) (String _ acc)), (IH (n / 10) (String _ "")).
  rewrite string_app_assoc. reflexivity.
Qed.

Lemma digit_char_value (d : Z) :
  0 <= d < 10 -> Z.of_nat (nat_of_ascii (PyStr.digit_char d)) - 48 = d.
Proof.
  intros Hd. unfold PyStr.digit_char.
  rewrite nat_ascii_embedding by lia. lia.
Qed.

(** [int(str(n))] is [n], and [str(n)] is a string of digits. *)
Lemma int_str_pos (fuel : nat) :
  forall n,
    0 <= n -> (Z.to_nat n < fuel)%nat ->
    PyStr.int_from 0 (PyStr.str_pos fuel n "") = n
    /\ PyStr.all_digits (PyStr.str_pos fuel n "") = true.
Proof.
  induction fuel as [|fuel IH]; intros n Hn Hf; [lia|].
  cbn [PyStr.str_pos]. cbv zeta.
  pose proof (Z.mod_pos_bound n 10 ltac:(lia)) as Hm.
  pose proof (Z.div_mod n 10 ltac:(lia)) as Hdm.
  assert (Hdig : PyStr.is_digit (PyStr.digit_char (n mod 10)) = true).
  { unfold PyStr.is_digit, PyStr.digit_char.
    rewrite nat_ascii_embedding by lia.
    apply andb_true_iff. split; apply Nat.leb_le; lia. }
  destruct (n / 10 =? 0) eqn:E0.
  - apply Z.eqb_eq in E0. cbn [PyStr.int_from PyStr.all_digits].
    rewrite digit_char_value by lia. rewrite Hdig. split; [lia|reflexivity].
  - apply Z.eqb_neq in E0.
    assert (Hq : 0 < n / 10)
      by (pose proof (Z.div_pos n 10 ltac:(lia) ltac:(lia)); lia).
    destruct (IH (n / 10) ltac:(lia) ltac:(lia)) as [Hi Ha].
    rewrite str_pos_acc, int_from_app, Hi. cbn [PyStr.int_from].
    rewrite digit_char_value by lia. split; [lia|].
    clear - Ha Hdig.
    induction (PyStr.str_pos fuel (n / 10) "") as [|c s IHs];
      cbn [append PyStr.all_digits] in *.
    + rewrite Hdig. reflexivity.
    + apply andb_true_iff in Ha. destruct Ha as [Hc Hs].
      rewrite Hc. apply IHs, Hs.
Qed.

Lemma str_pos_nonempty (fuel : nat) :
  forall n c acc, PyStr.str_pos fuel n (String c acc) <> "".
Proof.
  induction fuel as [|fuel IH]; intros n c acc; cbn [PyStr.str_pos].
  - discriminate.
  - cbv zeta. destruct (n / 10 =? 0); [discriminate|apply IH].
Qed.

Lemma str_of_int_digits (n : Z) :
  0 <= n ->
  PyStr.int (PyStr.str_of_int n) = n
  /\ PyStr.isdigit (PyStr.str_of_int n) = true.
Proof.
  intros Hn. unfold PyStr.str_of_int, PyStr.int.
  assert (Hlt : (n <? 0) = false) by (apply Z.ltb_ge; lia). rewrite Hlt.
  destruct (int_str_pos (Datatypes.S (Z.to_nat n)) n Hn ltac:(lia)) as [Hi Ha].
  split; [exact Hi|].
  unfold PyStr.isdigit.
  destruct (PyStr.str_pos (Datatypes.S (Z.to_nat n)) n "") eqn:Es;
    [|exact Ha].
  cbn [PyStr.str_pos] in Es. cbv zeta in Es.
  destruct (n / 10 =? 0); [discriminate|].
  destruct (str_pos_nonempty _ _ _ _ Es).
Qed.

Lemma all_digits_chars (s : string) (c : ascii) :
  PyStr.all_digits s = true -> In c (list_ascii_of_string s) ->
  PyStr.is_digit c = true.
Proof.
  induction s as [|a s IH]; cbn [PyStr.all_digits list_ascii_of_string].
  - intros _ [].
  - intros H [<-|Hin]; apply andb_true_iff in H; destruct H as [Ha Hs];
      [exact Ha|exact (IH Hs Hin)].
Qed.

(** No white space begins, or ends, with a digit. *)
Lemma digit_head (chars : list string) (c : ascii) (s : string) :
  forallb (fun ch => match ch with
                     | String a _ => negb (PyStr.is_digit a)
                     | EmptyString => false
                     end) chars = true ->
  PyStr.is_digit c = true ->
  PyStr.after_any chars (String c s) = None.
Proof.
  intros Hall Hc. induction chars as [|ch chars IH];
    cbn [PyStr.after_any forallb] in *; [reflexivity|].
  apply andb_true_iff in Hall. destruct Hall as [Hch Hall].
  destruct ch as [|a ch]; [discriminate|]. cbn [PyStr.after].
  destruct (Ascii.eqb a c) eqn:E; [|exact (IH Hall)].
  apply Ascii.eqb_eq in E. subst a. rewrite Hc in Hch. discriminate.
Qed.

Lemma all_digits_rev (s : string) :
  PyStr.all_digits s = true ->
  forall c rest, PyStr.rev s = String c rest -> PyStr.is_digit c = true.
Proof.
  intros Hd c rest Hr. apply (all_digits_chars s); [exact Hd|].
  apply in_rev. rewrite <- rev_chars, Hr. left. reflexivity.
Qed.

(** The line git prints for a commit time is stripped to the numeral. *)
Lemma strip_printed_numeral (s : string) :
  PyStr.all_digits s = true -> PyStr.strip (s ++ PyStr.nl) = s.
Proof.
  intros Hd. destruct s as [|a s']; [reflexivity|].
  set (s := String a s') in *. unfold PyStr.strip.
  assert (Ha : PyStr.is_digit a = true)
    by (apply (all_digits_chars s); [exact Hd|left; reflexivity]).
  assert (Hl : PyStr.lstrip (s ++ PyStr.nl) = s ++ PyStr.nl).
  { apply lstrip_fixed. subst s. cbn [append].
    apply digit_head; [reflexivity|exact Ha]. }
  rewrite Hl. unfold PyStr.rstrip, PyStr.lstrip_of.
  rewrite rev_app.
  assert (Hnl : PyStr.rev PyStr.nl = PyStr.nl) by reflexivity.
  rewrite Hnl. unfold PyStr.nl. cbn [append String.length PyStr.drop_leading].
  assert (Hfirst : PyStr.after_any (map PyStr.rev PyStr.WHITESPACE)
                     (String (ascii_of_nat 10) (PyStr.rev s))
                   = Some (PyStr.rev s)) by reflexivity.
  rewrite Hfirst.
  rewrite drop_leading_fixed; [apply rev_rev|].
  destruct (PyStr.rev s) as [|c rest] eqn:Hr.
  - apply after_any_empty, whitespace_rev_nonempty.
  - apply digit_head; [reflexivity|].
    exact (all_digits_rev s Hd c rest Hr).
Qed.

Lemma all_digits_ascii (s : string) :
  PyStr.all_digits s = true -> PyStr.is_ascii s = true.
Proof.
  induction s as [|c s IH]; cbn [PyStr.all_digits PyStr.is_ascii];
    [reflexivity|].
  intros H. apply andb_true_iff in H. destruct H as [Hc Hs].
  rewrite (IH Hs), andb_true_r.
  unfold PyStr.is_digit in Hc. apply andb_true_iff in Hc.
  destruct Hc as [_ Hhi]. apply Nat.leb_le in Hhi. apply Nat.ltb_lt. lia.
Qed.



(** ** The report of [retrieve] and the command line *)

Lemma retrieve_rows_ended (sh : Shell) (root : Path) (doc_files : list string) :
  ended (retrieve_rows sh root doc_files) = Done tt.
Proof.
  induction doc_files as [|d rest IH]; cbn [retrieve_rows];
    [reflexivity|]. run_out. exact IH.
Qed.

(** [retrieve] ends with 0, with 2, or with the exception of
    [get_project_root]. *)
Lemma cmd_retrieve_ended (sh : Shell) (topic : string) :
  (ended (cmd_retrieve sh topic) = Done 0
   /\ exists rc stdout stderr,
        sh_grep sh topic = Completed rc stdout stderr /\ rc <> 2)
  \/ (ended (cmd_retrieve sh topic) = Done 2
      /\ forall rc stdout stderr,
           sh_grep sh topic = Completed rc stdout stderr -> rc = 2)
  \/ (exists exn,
        ended (cmd_retrieve sh topic) = Uncaught exn
        /\ exists e,
             value (get_project_root (sh_world sh) (sh_cwd sh)) = Raised e).
Proof.
  unfold cmd_retrieve. run_out.
  destruct (sh_grep sh topic) as [rc out err| |e|e];
    try (right; left; run_out; split; [reflexivity|discriminate]).
  destruct (rc =? 2) eqn:Erc.
  - apply Z.eqb_eq in Erc. right; left. run_out.
    split; [reflexivity|]. intros rc' so se H. inversion H. congruence.
  - apply Z.eqb_neq in Erc.
    assert (Hok : exists rc' so se,
              Completed rc out err = Completed rc' so se /\ rc' <> 2)
      by eauto.
    destruct (negb (PyStr.truthy (PyStr.strip out)));
      [left; run_out; split; [reflexivity|exact Hok]|].
    destruct (is_empty _); [left; run_out; split; [reflexivity|exact Hok]|].
    unfold project_root_of.
    destruct (value (get_project_root (sh_world sh) (sh_cwd sh)))
      as [root|e] eqn:Hroot.
    + left. run_out. rewrite retrieve_rows_ended.
      destruct (20 <? _); run_out; split; try reflexivity; exact Hok.
    + right; right. run_out. eauto.
Qed.



(** What [validate] needs to end with the code 1, for one document and
    for a directory. *)
Lemma cmd_validate_file_one (sh : Shell) (path : string) :
  ended (cmd_validate sh path false) = Done 1 ->
  exists root,
    value (get_project_root (sh_world sh) (sh_cwd sh)) = Returned root
    /\ stale (doc_result sh root path) = true.
Proof.
  destruct (value (get_project_root (sh_world sh) (sh_cwd sh)))
    as [root|e] eqn:Hroot.
  - destruct (sh_is_file sh path) as [b| |e] eqn:Hfile.
    + rewrite (cmd_validate_file_ended sh path root b Hroot Hfile).
      destruct b; cbn [negb]; [|discriminate].
      destruct (doc_has_error sh root path); [discriminate|].
      destruct (stale (doc_result sh root path)) eqn:Es; [|discriminate].
      intros _. exists root. split; [reflexivity|exact Es].
    + unfold cmd_validate, cmd_validate_file, project_root_of.
      rewrite Hroot. run_out. rewrite Hfile. run_out. discriminate.
    + unfold cmd_validate, cmd_validate_file, project_root_of.
      rewrite Hroot. run_out. rewrite Hfile. run_out. discriminate.
  - unfold cmd_validate, cmd_validate_file, project_root_of.
    rewrite Hroot. run_out. discriminate.
Qed.

Lemma cmd_validate_dir_one (sh : Shell) (path : string) :
  ended (cmd_validate sh path true) = Done 1 ->
  exists root listing,
    value (get_project_root (sh_world sh) (sh_cwd sh)) = Returned root
    /\ sh_rglob_md sh path = OsOk listing
    /\ exists d, In d (without_node_modules listing)
                 /\ stale (doc_result sh root d) = true.
Proof.
  destruct (value (get_project_root (sh_world sh) (sh_cwd sh)))
    as [root|e] eqn:Hroot;
    [|unfold cmd_validate, cmd_validate_dir, project_root_of;
      rewrite Hroot; run_out; discriminate].
  destruct (fs_is_dir (sh_world sh) path) as [[|]| |e] eqn:Hdir;
    try (unfold cmd_validate, cmd_validate_dir, project_root_of;
         rewrite Hroot; run_out; rewrite Hdir; run_out; discriminate).
  destruct (sh_rglob_md sh path) as [listing| |e] eqn:Hlist;
    try (unfold cmd_validate, cmd_validate_dir, project_root_of;
         rewrite Hroot; run_out; rewrite Hdir; run_out; cbn [negb];
         rewrite Hlist; run_out; discriminate).
  rewrite (cmd_validate_dir_ended sh path root listing Hroot Hdir Hlist).
  destruct (_ && _); [discriminate|].
  destruct (0 <? _) eqn:Ens; [|discriminate].
  intros _. exists root, listing. repeat split.
  apply stale_count_positive. apply Z.ltb_lt in Ens. lia.
Qed.


